(** * ALTS worker: environment runners and the Pulp uploader

    A shallow embedding of

    - [alts/worker/runners/base.py]  (the command decorator, [BaseRunner]
      and [GenericVMRunner]),
    - [alts/shared/uploaders/pulp.py] ([PulpBaseUploader]),

    together with the properties of these two modules that the
    specification of the repository states, and with further properties
    of the same code.

    Python objects are modelled by records, [None]-able attributes by
    [option], dictionaries by [gmap], the file system by a finite set of
    paths, and everything that leaves the process (sub-processes, the
    logger, the Pulp REST client) by an event appended to a trace, the
    answer being supplied by an oracle that sees the whole history. *)

From Stdlib Require Import ZArith String Ascii List DecimalString DecimalZ DecimalPos Permutation.
From stdpp Require Import gmap strings list fin_maps.

Open Scope string_scope.
Open Scope Z_scope.

(* ===================================================================== *)
(** * Part I: definitions *)
(* ===================================================================== *)

(** ** Python values, exceptions and the builtins the code relies on *)

Module Py.

(** The exception classes raised or propagated by the two modules.
    [ExternalError] stands for whatever a third-party library raises
    (plumbum's [CommandNotFound], the Pulp client's [ApiException]). *)
Inductive exn : Type :=
| ValueError (msg : string)
| TypeError (msg : string)
| FileNotFoundError (msg : string)
| FileExistsError (msg : string)
| WorkDirPreparationError (msg : string)
| TerraformInitializationError (msg : string)
| StartEnvironmentError (msg : string)
| ProvisionError (msg : string)
| InstallPackageError (msg : string)
| StopEnvironmentError (msg : string)
| PublishArtifactsError (msg : string)
| TaskFailedError (msg : string)
| UploadError (msg : string)
| IndexError (msg : string)
| ExternalError (cls msg : string).

(** [str(e)]: the message the exception carries. *)
Definition exn_str (e : exn) : string :=
  match e with
  | ValueError m | TypeError m | FileNotFoundError m | FileExistsError m
  | WorkDirPreparationError m | TerraformInitializationError m
  | StartEnvironmentError m | ProvisionError m | InstallPackageError m
  | StopEnvironmentError m | PublishArtifactsError m | TaskFailedError m
  | UploadError m | IndexError m | ExternalError _ m => m
  end.

(** Outcome of a call: a value, a raised exception, or [Diverge] when a
    loop without a bound in the source used up the fuel of its model. *)
Inductive result (A : Type) : Type :=
| Ret (a : A)
| Raise (e : exn)
| Diverge.
Arguments Ret {A} a.
Arguments Raise {A} e.
Arguments Diverge {A}.

(** State and exceptions: a raised exception keeps the state reached. *)
Definition M (S A : Type) : Type := S -> result A * S.

Definition ret {S A} (a : A) : M S A := fun s => (Ret a, s).

Definition raise {S A} (e : exn) : M S A := fun s => (Raise e, s).

Definition bind {S A B} (m : M S A) (k : A -> M S B) : M S B :=
  fun s =>
    match m s with
    | (Ret a, s') => k a s'
    | (Raise e, s') => (Raise e, s')
    | (Diverge, s') => (Diverge, s')
    end.

Definition get {S} : M S S := fun s => (Ret s, s).

Definition modify {S} (f : S -> S) : M S unit := fun s => (Ret tt, f s).

(** [lift r]: a pure computation that may raise. *)
Definition lift {S A} (r : result A) : M S A := fun s => (r, s).

(** [try: body finally: cleanup]. *)
Definition try_finally {S A} (body : M S A) (cleanup : M S unit) : M S A :=
  fun s =>
    match body s with
    | (r, s') =>
        match cleanup s' with
        | (Ret _, s'') => (r, s'')
        | (Raise e, s'') => (Raise e, s'')
        | (Diverge, s'') => (Diverge, s'')
        end
    end.

(** [str(n)] for an [int]. *)
Definition str_of_int (z : Z) : string := NilZero.string_of_int (Z.to_int z).

(** [int(s)] for a [str]: an optional minus sign and decimal digits.
    Anything else is a [ValueError] here (CPython also accepts a plus
    sign, surrounding blanks and underscores between digits). *)
Definition int_of_str (s : string) : result Z :=
  match NilZero.int_of_string s with
  | Some d => Ret (Z.of_int d)
  | None =>
      Raise (ValueError ("invalid literal for int() with base 10: '" ++ s ++ "'"))
  end.

(** [int | str], the type of [dist_version]. *)
Inductive int_or_str : Type :=
| PyInt (z : Z)
| PyStr (s : string).

Definition str (v : int_or_str) : string :=
  match v with
  | PyInt z => str_of_int z
  | PyStr s => s
  end.

(** [c.lower()] on one character (ASCII letters only). *)
Definition lower_ascii (c : ascii) : ascii :=
  let n := nat_of_ascii c in
  if (Nat.leb 65 n && Nat.leb n 90)%bool then ascii_of_nat (n + 32) else c.

(** [s.lower()]. *)
Fixpoint lower (s : string) : string :=
  match s with
  | EmptyString => EmptyString
  | String c t => String (lower_ascii c) (lower t)
  end.

(** [sub in s] for two strings: [sub] occurs in [s]. *)
Fixpoint str_contains (sub s : string) : bool :=
  String.prefix sub s
  || match s with
     | EmptyString => false
     | String _ t => str_contains sub t
     end.

(** [x in t] for a tuple or list [t]. *)
Definition py_in {A} `{EqDecision A} (x : A) (t : list A) : bool :=
  bool_decide (x ∈ t).

(** Truth value of a string: the empty string is false. *)
Definition truthy (s : string) : bool :=
  match s with
  | EmptyString => false
  | String _ _ => true
  end.

(** [sep.join(l)]. *)
Fixpoint join (sep : string) (l : list string) : string :=
  match l with
  | [] => ""
  | [x] => x
  | x :: t => x ++ sep ++ join sep t
  end.

(** Last character of a string, if any. *)
Fixpoint last_char (s : string) : option ascii :=
  match s with
  | EmptyString => None
  | String c EmptyString => Some c
  | String _ t => last_char t
  end.

(** [os.path.join(a, b)] (POSIX). *)
Definition os_path_join (a b : string) : string :=
  if String.prefix "/" b then b
  else
    match last_char a with
    | None => b
    | Some c => if Ascii.eqb c "/" then a ++ b else a ++ "/" ++ b
    end.

(** [repr] of a list of strings (none of which holds a quote or a
    backslash). *)
Definition repr_str_list (l : list string) : string :=
  "[" ++ join ", " (map (fun x => "'" ++ x ++ "'") l) ++ "]".

(** [os.path.basename(p)] (POSIX): what follows the last slash. *)
Fixpoint os_path_basename (p : string) : string :=
  match p with
  | EmptyString => EmptyString
  | String c t =>
      if Ascii.eqb c "/" then os_path_basename t
      else if str_contains "/" t then os_path_basename t
      else p
  end.

End Py.

Import Py.

Declare Scope py_scope.
Delimit Scope py_scope with py.
Notation "x <- m ;; k" := (bind m (fun x => k))
  (at level 100, m at next level, right associativity) : py_scope.
Notation "m ;;; k" := (bind m (fun _ => k))
  (at level 100, right associativity) : py_scope.

(** A double quote and a line feed, for the messages that contain one. *)
Definition dquote : string := String (ascii_of_nat 34) EmptyString.
Definition newline : string := String (ascii_of_nat 10) EmptyString.

(* ===================================================================== *)
(** ** [alts/worker/runners/base.py] *)
(* ===================================================================== *)

Module Runner.

(** A [pathlib.Path], by its parts; [p / name] appends one part. *)
Abbreviation Path := (list string).

Definition path_div (p : Path) (name : string) : Path := p ++ [name].

Definition path_str (p : Path) : string := "/" ++ join "/" p.

(** What a wrapped step leaves in the artifact map. *)
Record CommandRecord : Type := mkCommandRecord {
  exit_code : Z;
  stderr : string;
  stdout : string
}.

(** The attributes [BaseRunner.__init__] sets.  A repository is an
    opaque record of which the runner only ever takes the [repr]. *)
Record BaseRunner : Type := mkBaseRunner {
  _task_id : string;
  _env_name : string;
  _work_dir : option Path;
  _artifacts_dir : option Path;
  _ansible_connection_type : string;
  _dist_name : string;
  _dist_version : string;
  _dist_arch : string;
  _repositories : list string;
  _artifacts : gmap string CommandRecord
}.

(** Class attributes of [BaseRunner]. *)
Definition DEBIAN_FLAVORS : list string := ["debian"; "ubuntu"; "raspbian"].
Definition RHEL_FLAVORS : list string :=
  ["fedora"; "centos"; "almalinux"; "cloudlinux"].
Definition TYPE : string := "base".
Definition TF_VARIABLES_FILE : option string := None.
Definition TF_VERSIONS_FILE : string := "versions.tf".
Definition ANSIBLE_PLAYBOOK : string := "playbook.yml".
Definition ANSIBLE_CONFIG : string := "ansible.cfg".
Definition ANSIBLE_INVENTORY_FILE : string := "hosts".
Definition TEMPFILE_PREFIX : string := "base_test_runner_".

(** [BaseRunner.__init__]. *)
Definition __init__ (task_id dist_name : string) (dist_version : int_or_str)
    (repositories : option (list string)) (dist_arch : string) : BaseRunner :=
  {| _task_id := task_id;
     _env_name := TYPE ++ "_" ++ task_id;
     _work_dir := None;
     _artifacts_dir := None;
     _ansible_connection_type := "ssh";
     _dist_name := lower dist_name;
     _dist_version := lower (str dist_version);
     _dist_arch := lower dist_arch;
     _repositories := default [] repositories;
     _artifacts := ∅ |}.

(** The read-only properties. *)
Definition artifacts (self : BaseRunner) := _artifacts self.
Definition ansible_connection_type (self : BaseRunner) :=
  _ansible_connection_type self.
Definition dist_arch (self : BaseRunner) := _dist_arch self.
Definition dist_name (self : BaseRunner) := _dist_name self.
Definition dist_version (self : BaseRunner) := _dist_version self.
Definition repositories (self : BaseRunner) := _repositories self.
Definition env_name (self : BaseRunner) := _env_name self.

(** [BaseRunner.pkg_manager].  In Python [and] binds tighter than [or]. *)
Definition pkg_manager (self : BaseRunner) : result string :=
  if String.eqb (_dist_name self) "fedora"
     || (py_in (_dist_name self) RHEL_FLAVORS
         && str_contains "8" (_dist_version self))
  then Ret "dnf"
  else if py_in (_dist_name self) RHEL_FLAVORS then Ret "yum"
  else if py_in (_dist_name self) DEBIAN_FLAVORS then Ret "apt-get"
  else Raise (ValueError ("Unknown distribution: " ++ _dist_name self)).

(** *** The world outside the runner *)

(** What the runner does to its environment, in order. *)
Inductive Event : Type :=
| Exec (prog : string) (args : list string) (cwd : option Path)
| Log (level msg : string)
| Mkdir (p : Path)
| Rmtree (p : Path).

(** The directories that exist, the events so far, and how many
    candidate names [tempfile] has drawn. *)
Record World : Type := mkWorld {
  fs : gset Path;
  trace : list Event;
  drawn : nat
}.

(** What the runner cannot decide: where temporary directories go, the
    names [tempfile] draws, and what a sub-process answers and does to
    the directories (it sees the whole history). *)
Record OS : Type := mkOS {
  gettempdir : Path;
  candidate : nat -> string;
  run_outcome : World -> string -> list string -> option Path ->
                result (Z * string * string) * gset Path
}.

(** The state a method runs in: the instance and the world. *)
Record St : Type := mkSt {
  self : BaseRunner;
  world : World
}.

Definition set_world (f : World -> World) (st : St) : St :=
  {| self := self st; world := f (world st) |}.

Definition set_self (f : BaseRunner -> BaseRunner) (st : St) : St :=
  {| self := f (self st); world := world st |}.

Definition add_event (e : Event) (w : World) : World :=
  {| fs := fs w; trace := trace w ++ [e]; drawn := drawn w |}.

Definition set_work_dir (p : option Path) (r : BaseRunner) : BaseRunner :=
  {| _task_id := _task_id r;
     _env_name := _env_name r;
     _work_dir := p;
     _artifacts_dir := _artifacts_dir r;
     _ansible_connection_type := _ansible_connection_type r;
     _dist_name := _dist_name r;
     _dist_version := _dist_version r;
     _dist_arch := _dist_arch r;
     _repositories := _repositories r;
     _artifacts := _artifacts r |}.

Definition set_artifacts (a : gmap string CommandRecord) (r : BaseRunner)
    : BaseRunner :=
  {| _task_id := _task_id r;
     _env_name := _env_name r;
     _work_dir := _work_dir r;
     _artifacts_dir := _artifacts_dir r;
     _ansible_connection_type := _ansible_connection_type r;
     _dist_name := _dist_name r;
     _dist_version := _dist_version r;
     _dist_arch := _dist_arch r;
     _repositories := _repositories r;
     _artifacts := a |}.

(** [self._artifacts[key] = record]. *)
Definition set_item (key : string) (record : CommandRecord) (r : BaseRunner)
    : BaseRunner :=
  set_artifacts (<[key := record]> (_artifacts r)) r.

(** The sub-processes among the events. *)
Definition is_exec (e : Event) : bool :=
  match e with
  | Exec _ _ _ => true
  | _ => false
  end.

Definition execs (t : list Event) : list Event := List.filter is_exec t.

(** The directories made among the events. *)
Definition is_mkdir (e : Event) : bool :=
  match e with
  | Mkdir _ => true
  | _ => false
  end.

Definition mkdirs (t : list Event) : list Event := List.filter is_mkdir t.

(** The parent of a path. *)
Definition parent (p : Path) : Path := removelast p.

(** [os.path.exists]: the root always exists. *)
Definition exists_in (dirs : gset Path) (p : Path) : bool :=
  match p with
  | [] => true
  | _ => bool_decide (p ∈ dirs)
  end.

Section WithOS.

Variable os : OS.

Open Scope py_scope.

(** [self._logger.<level>(msg)]. *)
Definition log (level msg : string) : M St unit :=
  modify (set_world (add_event (Log level msg))).

(** [os.path.exists(p)]. *)
Definition os_path_exists (p : Path) : M St bool :=
  st <- get ;; ret (exists_in (fs (world st)) p).

(** [os.mkdir(p)]. *)
Definition os_mkdir (p : Path) : M St unit :=
  fun st =>
    let w := world st in
    if exists_in (fs w) p then
      (Raise (FileExistsError (path_str p)), st)
    else if negb (exists_in (fs w) (parent p)) then
      (Raise (FileNotFoundError (path_str p)), st)
    else
      (Ret tt,
       set_world (fun _ => {| fs := {[ p ]} ∪ fs w;
                              trace := trace w ++ [Mkdir p];
                              drawn := drawn w |}) st).

(** [tempfile.mkdtemp(prefix=prefix)]: draw names until [os.mkdir]
    accepts one; an existing name is skipped, any other error is
    passed on, and after [tries] names the search gives up. *)
Fixpoint mkdtemp_from (tries : nat) (prefix : string) : M St Path :=
  match tries with
  | O => raise (FileExistsError "No usable temporary directory name found")
  | S tries' =>
      fun st =>
        let w := world st in
        let file := path_div (gettempdir os) (prefix ++ candidate os (drawn w)) in
        let st1 := set_world (fun _ => {| fs := fs w; trace := trace w;
                                          drawn := S (drawn w) |}) st in
        match os_mkdir file st1 with
        | (Ret _, st2) => (Ret file, st2)
        | (Raise (FileExistsError _), st2) => mkdtemp_from tries' prefix st2
        | (Raise e, st2) => (Raise e, st2)
        | (Diverge, st2) => (Diverge, st2)
        end
  end.

Definition TMP_MAX : nat := Z.to_nat 10000.

Definition mkdtemp (prefix : string) : M St Path :=
  mkdtemp_from TMP_MAX prefix.

(** [shutil.rmtree(p)]: the directory and all below it go. *)
Definition rmtree (p : Path) : M St unit :=
  fun st =>
    let w := world st in
    if exists_in (fs w) p then
      (Ret tt,
       set_world (fun _ => {| fs := filter (fun q => ¬ p `prefix_of` q) (fs w);
                              trace := trace w ++ [Rmtree p];
                              drawn := drawn w |}) st)
    else (Raise (FileNotFoundError (path_str p)), st).

(** [local[prog].run(args=args, retcode=None, cwd=cwd)]: the exit
    code is returned, never raised; the command may not be found. *)
Definition run (prog : string) (args : list string) (cwd : option Path)
    : M St (Z * string * string) :=
  fun st =>
    let w := world st in
    match run_outcome os w prog args cwd with
    | (r, dirs) =>
        (r, set_world (fun _ => {| fs := dirs;
                                   trace := trace w ++ [Exec prog args cwd];
                                   drawn := drawn w |}) st)
    end.


(** *** The command decorator *)

(** [command_decorator(exception_class, artifacts_key, error_message)]
    applied to [fn].  [fn] answers [None] when the Python function
    falls off its end, which the tuple unpacking rejects. *)
Definition command_decorator (exception_class : string -> exn)
    (artifacts_key error_message : string)
    (fn : M St (option (Z * string * string)))
    : M St (option (Z * string * string)) :=
  st <- get ;;
  match _work_dir (self st) with
  | None => ret None
  | Some work_dir =>
      if negb (exists_in (fs (world st)) work_dir) then ret None
      else
        r <- fn ;;
        match r with
        | None => raise (TypeError "cannot unpack non-iterable NoneType object")
        | Some (exit_code, stdout, stderr) =>
            modify (set_self (set_item artifacts_key
                                {| exit_code := exit_code;
                                   stderr := stderr;
                                   stdout := stdout |})) ;;;
            if negb (exit_code =? 0) then
              log "error"
                (error_message ++ ", exit code: " ++ str_of_int exit_code
                 ++ ", error:" ++ newline ++ stderr) ;;;
              raise (exception_class error_message)
            else
              log "info" "Operation completed successfully" ;;;
              ret (Some (exit_code, stdout, stderr))
        end
  end.

(** *** Working directory and artifacts directory *)

(** [BaseRunner._create_work_dir]. *)
Definition _create_work_dir : M St Path :=
  st <- get ;;
  let fresh : M St Path :=
    p <- mkdtemp TEMPFILE_PREFIX ;;
    modify (set_self (set_work_dir (Some p))) ;;;
    ret p in
  match _work_dir (self st) with
  | None => fresh
  | Some work_dir =>
      if negb (exists_in (fs (world st)) work_dir) then fresh
      else ret work_dir
  end.

(** [BaseRunner._create_artifacts_dir]: only an unset attribute makes
    it call [_create_work_dir]. *)
Definition _create_artifacts_dir : M St Path :=
  st <- get ;;
  work_dir <- match _work_dir (self st) with
              | None =>
                  p <- _create_work_dir ;;
                  modify (set_self (set_work_dir (Some p))) ;;;
                  ret p
              | Some work_dir => ret work_dir
              end ;;
  let path := path_div work_dir "artifacts" in
  e <- os_path_exists path ;;
  (if negb e then os_mkdir path else ret tt) ;;;
  ret path.

(** [BaseRunner.erase_work_dir]: a failure of [rmtree] is logged, not
    raised; the attribute keeps the erased path. *)
Definition erase_work_dir : M St unit :=
  st <- get ;;
  match _work_dir (self st) with
  | None => ret tt
  | Some work_dir =>
      if exists_in (fs (world st)) work_dir then
        log "info" "Erasing working directory..." ;;;
        fun st1 =>
          match rmtree work_dir st1 with
          | (Ret _, st2) =>
              log "info" "Working directory was successfully removed" st2
          | (Raise e, st2) =>
              log "error" ("Error while erasing working directory: "
                           ++ exn_str e) st2
          | (Diverge, st2) => (Diverge, st2)
          end
      else ret tt
  end.

(** *** The wrapped lifecycle steps *)

(** Body of [initialize_terraform]. *)
Definition initialize_terraform_body : M St (option (Z * string * string)) :=
  st <- get ;;
  log "info" ("Initializing Terraform environment for "
              ++ env_name (self st) ++ "...") ;;;
  log "debug" ("Running " ++ dquote ++ "terraform init" ++ dquote
               ++ " command") ;;;
  r <- run "terraform" ["init"] (_work_dir (self st)) ;;
  ret (Some r).

(** Arguments of [terraform apply] and [terraform destroy]. *)
Definition tf_args (verb : string) : list string :=
  ([verb; "--auto-approve"]
   ++ match TF_VARIABLES_FILE with
      | Some f => ["--var-file"; f]
      | None => []
      end)%list.

(** Body of [start_env]. *)
Definition start_env_body : M St (option (Z * string * string)) :=
  st <- get ;;
  log "info" ("Starting the environment " ++ env_name (self st) ++ "...") ;;;
  log "debug" ("Running " ++ dquote ++ "terraform apply --auto-approve"
               ++ dquote ++ " command") ;;;
  r <- run "terraform" (tf_args "apply") (_work_dir (self st)) ;;
  ret (Some r).

(** [str] of the list of repositories. *)
Definition repositories_str (l : list string) : string :=
  "[" ++ join ", " l ++ "]".

(** Body of [initial_provision]. *)
Definition initial_provision_body (verbose : bool)
    : M St (option (Z * string * string)) :=
  st <- get ;;
  let cmd_args : list string :=
    app ["-c"; ansible_connection_type (self st); "-i";
         ANSIBLE_INVENTORY_FILE; ANSIBLE_PLAYBOOK;
         "-e"; "repositories=" ++ repositories_str (_repositories (self st));
         "-t"; "initial_provision"]
        (if verbose then ["-vvvv"] else []) in
  let cmd_args_str := join " " cmd_args in
  log "info" ("Provisioning the environment " ++ env_name (self st) ++ "...") ;;;
  log "debug" ("Running " ++ dquote ++ "ansible-playbook " ++ cmd_args_str
               ++ dquote ++ " command") ;;;
  r <- run "ansible-playbook" cmd_args (_work_dir (self st)) ;;
  ret (Some r).

(** The local [full_pkg_name] of [install_package]:
    [if package_version:] tests the truth value of the argument, and
    [self.pkg_manager] is only read when it is true. *)
Definition full_pkg_name (self : BaseRunner) (package_name : string)
    (package_version : option string) : result string :=
  match package_version with
  | Some v =>
      if truthy v then
        match pkg_manager self with
        | Ret m =>
            if String.eqb m "yum" then Ret (package_name ++ "-" ++ v)
            else Ret (package_name ++ "=" ++ v)
        | Raise e => Raise e
        | Diverge => Diverge
        end
      else Ret package_name
  | None => Ret package_name
  end.

(** The arguments [install_package] gives to [ansible-playbook]. *)
Definition install_package_args (self : BaseRunner) (full : string)
    : list string :=
  ["-c"; ansible_connection_type self; "-i";
   ANSIBLE_INVENTORY_FILE; ANSIBLE_PLAYBOOK;
   "-e"; "pkg_name=" ++ full;
   "-t"; "install_package"].

(** Body of [install_package]. *)
Definition install_package_body (package_name : string)
    (package_version : option string)
    : M St (option (Z * string * string)) :=
  st <- get ;;
  full <- lift (full_pkg_name (self st) package_name package_version) ;;
  log "info" ("Installing " ++ full ++ " on " ++ env_name (self st) ++ "...") ;;;
  let cmd_args := install_package_args (self st) full in
  let cmd_args_str := join " " cmd_args in
  log "debug" ("Running " ++ dquote ++ "ansible-playbook " ++ cmd_args_str
               ++ dquote ++ " command") ;;;
  r <- run "ansible-playbook" cmd_args (_work_dir (self st)) ;;
  ret (Some r).

(** Body of [stop_env]: without a working directory on disk the
    function falls off its end. *)
Definition stop_env_body : M St (option (Z * string * string)) :=
  st <- get ;;
  match _work_dir (self st) with
  | None => raise (TypeError "stat: path should be string, bytes, os.PathLike or integer, not NoneType")
  | Some work_dir =>
      if exists_in (fs (world st)) work_dir then
        log "info" ("Destroying the environment " ++ env_name (self st) ++ "...") ;;;
        log "debug" ("Running " ++ dquote ++ "terraform destroy --auto-approve"
                     ++ dquote ++ " command") ;;;
        r <- run "terraform" (tf_args "destroy") (_work_dir (self st)) ;;
        ret (Some r)
      else ret None
  end.

(** The wrapped steps, with their arguments. *)
Inductive Step : Type :=
| InitializeTerraform
| StartEnv
| InitialProvision (verbose : bool)
| InstallPackage (package_name : string) (package_version : option string)
| StopEnv.

(** The three arguments of the decorator on each step. *)
Definition step_exception (s : Step) : string -> exn :=
  match s with
  | InitializeTerraform => TerraformInitializationError
  | StartEnv => StartEnvironmentError
  | InitialProvision _ => ProvisionError
  | InstallPackage _ _ => InstallPackageError
  | StopEnv => StopEnvironmentError
  end.

Definition step_key (s : Step) : string :=
  match s with
  | InitializeTerraform => "initialize_terraform"
  | StartEnv => "start_environment"
  | InitialProvision _ => "initial_provision"
  | InstallPackage _ _ => "install_package"
  | StopEnv => "stop_environment"
  end.

Definition step_message (s : Step) : string :=
  match s with
  | InitializeTerraform => "Cannot initialize terraform"
  | StartEnv => "Cannot start environment"
  | InitialProvision _ => "Cannot run initial provision"
  | InstallPackage _ _ => "Cannot install package"
  | StopEnv => "Cannot destroy environment"
  end.

Definition step_body (s : Step) : M St (option (Z * string * string)) :=
  match s with
  | InitializeTerraform => initialize_terraform_body
  | StartEnv => start_env_body
  | InitialProvision verbose => initial_provision_body verbose
  | InstallPackage n v => install_package_body n v
  | StopEnv => stop_env_body
  end.

(** A step as the class exposes it: the body under the decorator. *)
Definition step (s : Step) : M St (option (Z * string * string)) :=
  command_decorator (step_exception s) (step_key s) (step_message s)
    (step_body s).

Definition initialize_terraform := step InitializeTerraform.
Definition start_env := step StartEnv.
Definition initial_provision (verbose : bool) := step (InitialProvision verbose).
Definition install_package (package_name : string)
    (package_version : option string) :=
  step (InstallPackage package_name package_version).
Definition stop_env := step StopEnv.

End WithOS.

(** *** A concrete environment, for the examples *)

(** Temporary directories go to [/tmp], the names drawn are [0], [1],
    ..., and every command ends with the given exit code and leaves the
    directories alone. *)
Definition test_os (code : Z) : OS :=
  {| gettempdir := ["tmp"];
     candidate := fun n => str_of_int (Z.of_nat n);
     run_outcome := fun w _ _ _ => (Ret (code, "out", "err"), fs w) |}.

(** Only [/tmp] exists and nothing has happened yet. *)
Definition test_world : World :=
  {| fs := {[ ["tmp"] ]}; trace := []; drawn := 0 |}.

(** A CentOS 7 runner whose working directory [/tmp/work] exists. *)
Definition centos7_at_work : St :=
  {| self := set_work_dir (Some ["tmp"; "work"])
               (__init__ "id" "centos" (PyInt 7) None "x86_64");
     world := {| fs := {[ ["tmp"]; ["tmp"; "work"] ]};
                 trace := [];
                 drawn := 0 |} |}.

(** A Debian runner in the same place. *)
Definition debian_at_work : St :=
  {| self := set_work_dir (Some ["tmp"; "work"])
               (__init__ "id" "debian" (PyStr "11.0") None "x86_64");
     world := world centos7_at_work |}.

(** A runner just constructed, with only [/tmp] on disk. *)
Definition just_constructed : St :=
  {| self := __init__ "id" "centos" (PyInt 8) None "x86_64";
     world := test_world |}.

End Runner.

(* ===================================================================== *)
(** ** [alts/shared/uploaders/pulp.py] *)
(* ===================================================================== *)

Module Pulp.

(** An artifact as [ArtifactsApi.list] returns it (the field read). *)
Record ArtifactResponse : Type := mkArtifactResponse {
  pulp_href : string
}.

(** A task as [TasksApi.read] returns it; [task_repr] is its [str]. *)
Record TaskResponse : Type := mkTaskResponse {
  state : string;
  created_resources : list string;
  task_repr : string
}.

(** A row of [fs_manifest.csv] as [csv.DictReader] yields it. *)
Record ManifestRow : Type := mkManifestRow {
  filename : string;
  filesize : string
}.

(** The [dict] that [upload_single_file] returns. *)
Record UploadRecord : Type := mkUploadRecord {
  name : string;
  href : string;
  type : string
}.

(** What a future of the thread pool holds once it is done. *)
Inductive Outcome : Type :=
| Done (r : UploadRecord)
| Failed (e : exn).

(** What the uploader does to its environment, in order. *)
Inductive Event : Type :=
| ArtifactsList (sha256 : string) (timeout : Z)
| UploadsCreate (size : Z) (timeout : Z)
| UploadsUpdate (content_range reference file : string) (timeout : Z)
| UploadsCommit (reference sha256 : string) (timeout : Z)
| TasksRead (task_href : string) (timeout : option Z)
| Sleep (seconds : Z)
| Log (level msg : string)
| Mkdtemp (dir : string)
| Split (file : string) (chunk_size : Z) (output_dir : string)
| Rmtree (dir : string)
| Submit (max_workers : Z) (artifact : string).

(** The temporary directories that exist and the events so far. *)
Record World : Type := mkWorld {
  dirs : gset string;
  trace : list Event
}.

(** What the uploader cannot decide.  Every answer may depend on the
    whole history, and every call may raise.

    [hash_file] ([alts.shared.utils.file_utils]), [get_artifacts_list]
    ([alts.shared.uploaders.base]) and [DEFAULT_FILE_CHUNK_SIZE]
    ([alts.shared.constants]) are not part of the two modules embedded
    here: the first two are taken as they are called, the third as the
    value of the [chunk_size] argument of the constructor. *)
Record Env : Type := mkEnv {
  getsize : string -> result Z;
  hash_file : string -> string -> result string;
  get_artifacts_list : string -> result (list string);
  new_temp_dir : World -> string -> result string;
  split_manifest : World -> string -> Z -> string -> result (list ManifestRow);
  artifacts_list : World -> string -> result (list ArtifactResponse);
  uploads_create : World -> Z -> result string;
  uploads_update : World -> string -> string -> string -> result unit;
  uploads_commit : World -> string -> string -> result string;
  tasks_read : World -> string -> result TaskResponse;
  future_result : World -> nat -> string -> Outcome;
  completion_order : World -> nat -> list nat
}.

(** The attributes [PulpBaseUploader.__init__] sets, the three API
    clients apart (they are the [Env]). *)
Record PulpBaseUploader : Type := mkPulpBaseUploader {
  _chunk_size : Z;
  _requests_timeout : Z
}.

Definition DEFAULT_TIMEOUT : Z := 120.

(** [PulpBaseUploader.__init__] with [requests_timeout] left out. *)
Definition __init__ (chunk_size : Z) : PulpBaseUploader :=
  {| _chunk_size := chunk_size; _requests_timeout := DEFAULT_TIMEOUT |}.

Definition add_event (e : Event) (w : World) : World :=
  {| dirs := dirs w; trace := trace w ++ [e] |}.

(** [f'bytes {lower}-{upper}/{total}']. *)
Definition content_range (lower upper total : Z) : string :=
  "bytes " ++ str_of_int lower ++ "-" ++ str_of_int upper ++ "/"
  ++ str_of_int total.

Section WithEnv.

Variable env : Env.
Variable self : PulpBaseUploader.

Open Scope py_scope.

(** An external call: the event is recorded, then the answer, computed
    from the world before the call, is returned or raised. *)
Definition call {A} (e : Event) (answer : World -> result A) : M World A :=
  fun w => (answer w, add_event e w).

Definition log (level msg : string) : M World unit :=
  modify (add_event (Log level msg)).

(** [time.sleep(seconds)]. *)
Definition sleep (seconds : Z) : M World unit :=
  modify (add_event (Sleep seconds)).

(** [tempfile.mkdtemp(prefix=prefix)]. *)
Definition mkdtemp (prefix : string) : M World string :=
  fun w =>
    match new_temp_dir env w prefix with
    | Ret d => (Ret d, {| dirs := {[ d ]} ∪ dirs w;
                          trace := trace w ++ [Mkdtemp d] |})
    | Raise e => (Raise e, w)
    | Diverge => (Diverge, w)
    end.

(** [shutil.rmtree(d)] of a temporary directory. *)
Definition rmtree (d : string) : M World unit :=
  fun w => (Ret tt, {| dirs := dirs w ∖ {[ d ]};
                       trace := trace w ++ [Rmtree d] |}).

(** The loop of [_wait_for_task_completion], [result] being the last
    answer read.  The source puts no bound on it. *)
Fixpoint poll (fuel : nat) (task_href : string) (result : TaskResponse)
    : M World TaskResponse :=
  if negb (py_in (state result) ["failed"; "completed"]) then
    match fuel with
    | O => fun w => (Diverge, w)
    | S fuel' =>
        sleep 20 ;;;
        result' <- call (TasksRead task_href (Some (_requests_timeout self)))
                        (fun w => tasks_read env w task_href) ;;
        poll fuel' task_href result'
    end
  else ret result.

(** [PulpBaseUploader._wait_for_task_completion]. *)
Definition _wait_for_task_completion (fuel : nat) (task_href : string)
    : M World TaskResponse :=
  result <- call (TasksRead task_href None)
                 (fun w => tasks_read env w task_href) ;;
  result <- poll fuel task_href result ;;
  if String.eqb (state result) "failed" then
    raise (TaskFailedError ("task " ++ task_href ++ " has failed, details: "
                            ++ task_repr result))
  else ret result.

(** [PulpBaseUploader._create_upload]. *)
Definition _create_upload (file_path : string) : M World (string * Z) :=
  file_size <- lift (getsize env file_path) ;;
  response <- call (UploadsCreate file_size (_requests_timeout self))
                   (fun w => uploads_create env w file_size) ;;
  ret (response, file_size).

(** [PulpBaseUploader._commit_upload]. *)
Definition _commit_upload (fuel : nat) (file_path reference : string)
    : M World string :=
  file_sha256 <- lift (hash_file env file_path "sha256") ;;
  task <- call (UploadsCommit reference file_sha256 (_requests_timeout self))
               (fun w => uploads_commit env w reference file_sha256) ;;
  task_result <- _wait_for_task_completion fuel task ;;
  match created_resources task_result with
  | r :: _ => ret r
  | [] => raise (IndexError "list index out of range")
  end.

(** The [for meta in csv.DictReader(f)] loop of [_put_large_file]. *)
Fixpoint put_chunks (temp_dir reference : string) (total_size : Z)
    (rows : list ManifestRow) (lower_bytes_limit : Z) : M World unit :=
  match rows with
  | [] => ret tt
  | meta :: rows' =>
      let split_file_path := os_path_join temp_dir (filename meta) in
      size <- lift (int_of_str (filesize meta)) ;;
      let upper_bytes_limit := lower_bytes_limit + size - 1 in
      let range := content_range lower_bytes_limit upper_bytes_limit total_size in
      call (UploadsUpdate range reference split_file_path (_requests_timeout self))
           (fun w => uploads_update env w range reference split_file_path) ;;;
      put_chunks temp_dir reference total_size rows' (lower_bytes_limit + size)
  end.

(** [PulpBaseUploader._put_large_file]. *)
Definition _put_large_file (file_path reference : string) : M World unit :=
  temp_dir <- mkdtemp "pulp_uploader_" ;;
  try_finally
    (let lower_bytes_limit := 0 in
     total_size <- lift (getsize env file_path) ;;
     rows <- call (Split file_path (_chunk_size self) temp_dir)
                  (fun w => split_manifest env w file_path (_chunk_size self)
                              temp_dir) ;;
     put_chunks temp_dir reference total_size rows lower_bytes_limit)
    (w <- get ;;
     if truthy temp_dir && bool_decide (temp_dir ∈ dirs w)
     then rmtree temp_dir else ret tt).

(** [PulpBaseUploader._send_file]. *)
Definition _send_file (fuel : nat) (file_path : string) : M World string :=
  created <- _create_upload file_path ;;
  let reference := fst created in
  let file_size := snd created in
  (if file_size >? _chunk_size self then
     log "debug" ("File size exceeded " ++ str_of_int (_chunk_size self)
                  ++ ", sending file in parts") ;;;
     _put_large_file file_path reference
   else
     let range := content_range 0 (file_size - 1) file_size in
     call (UploadsUpdate range reference file_path (_requests_timeout self))
          (fun w => uploads_update env w range reference file_path)) ;;;
  artifact_href <- _commit_upload fuel file_path reference ;;
  ret artifact_href.

(** [PulpBaseUploader.check_if_artifact_exists]: [None] when the list
    of results is empty. *)
Definition check_if_artifact_exists (sha256 : string)
    : M World (option string) :=
  results <- call (ArtifactsList sha256 (_requests_timeout self))
                  (fun w => artifacts_list env w sha256) ;;
  match results with
  | r :: _ => ret (Some (pulp_href r))
  | [] => ret None
  end.

(** [PulpBaseUploader.upload_single_file]; [type_] defaults to
    ['test_log']. *)
Definition upload_single_file (fuel : nat) (filename : string)
    (type_ : option string) : M World UploadRecord :=
  let type_ := default "test_log" type_ in
  file_sha256 <- lift (hash_file env filename "sha256") ;;
  reference <- check_if_artifact_exists file_sha256 ;;
  reference <- match reference with
               | Some r =>
                   if negb (truthy r) then _send_file fuel filename
                   else ret r
               | None => _send_file fuel filename
               end ;;
  ret {| name := os_path_basename filename;
         href := reference;
         type := type_ |}.

(** The [for future in as_completed(futures)] loop of [upload]:
    [order] lists the futures (by rank of submission) as they
    complete, [results] is what each holds. *)
Fixpoint collect (artifacts : list string) (results : nat -> string -> Outcome)
    (order : list nat) (success_uploads : list UploadRecord)
    (errored_uploads : list string)
    : M World (list UploadRecord * list string) :=
  match order with
  | [] => ret (success_uploads, errored_uploads)
  | future :: order' =>
      match artifacts !! future with
      | None => collect artifacts results order' success_uploads errored_uploads
      | Some artifact =>
          match results future artifact with
          | Done r =>
              collect artifacts results order'
                (success_uploads ++ [r]) errored_uploads
          | Failed e =>
              log "exception" ("Cannot upload " ++ artifact) ;;;
              collect artifacts results order'
                success_uploads (errored_uploads ++ [artifact])
          end
      end
  end.

(** [executor.submit(self.upload_single_file, artifact)] for every
    artifact, in the order of the list. *)
Fixpoint submit_all (artifacts : list string) : M World unit :=
  match artifacts with
  | [] => ret tt
  | artifact :: rest =>
      modify (add_event (Submit 4 artifact)) ;;;
      submit_all rest
  end.

(** [PulpBaseUploader.upload].  The workers run beside the caller:
    what each call ends with and the order in which the futures
    complete are the environment's. *)
Definition upload (artifacts_dir : string) : M World (list UploadRecord) :=
  let success_uploads := [] in
  let errored_uploads := [] in
  log "info" "Starting files upload" ;;;
  artifacts <- lift (get_artifacts_list env artifacts_dir) ;;
  submit_all artifacts ;;;
  w <- get ;;
  collected <- collect artifacts (future_result env w)
                 (completion_order env w (length artifacts))
                 success_uploads errored_uploads ;;
  let success_uploads := fst collected in
  let errored_uploads := snd collected in
  if negb (bool_decide (errored_uploads = [])) then
    raise (UploadError ("Unable to upload files: "
                        ++ repr_str_list errored_uploads))
  else ret success_uploads.

End WithEnv.

(** *** Notions used to state the properties *)

(** The byte-range requests among the events. *)
Definition is_update (e : Event) : bool :=
  match e with
  | UploadsUpdate _ _ _ _ => true
  | _ => false
  end.

Definition updates (t : list Event) : list Event := List.filter is_update t.

Definition is_log (e : Event) : bool :=
  match e with
  | Log _ _ => true
  | _ => false
  end.

(** [s1 + ... + sn]. *)
Definition sum_sizes (sizes : list Z) : Z := foldr Z.add 0 sizes.

(** Where chunk [i] starts: [s1 + ... + si]. *)
Definition offset (sizes : list Z) (i : nat) : Z := sum_sizes (take i sizes).

(** The ranges as the specification lists them: [0..s1-1], then
    [s1..s1+s2-1], and so on. *)
Definition spec_ranges (sizes : list Z) : list (Z * Z) :=
  imap (fun i _ => (offset sizes i, offset sizes (S i) - 1)) sizes.

(** The ranges as the loop computes them, from a running lower limit. *)
Fixpoint ranges_from (lower : Z) (sizes : list Z) : list (Z * Z) :=
  match sizes with
  | [] => []
  | s :: sizes' => (lower, lower + s - 1) :: ranges_from (lower + s) sizes'
  end.

(** What the future of rank [i] contributes to either list. *)
Definition record_of (results : nat -> string -> Outcome)
    (artifacts : list string) (i : nat) : option UploadRecord :=
  match artifacts !! i with
  | Some a => match results i a with
              | Done r => Some r
              | Failed _ => None
              end
  | None => None
  end.

Definition failure_of (results : nat -> string -> Outcome)
    (artifacts : list string) (i : nat) : option string :=
  match artifacts !! i with
  | Some a => match results i a with
              | Done _ => None
              | Failed _ => Some a
              end
  | None => None
  end.

(** The records of the uploads that succeeded and the files whose
    upload raised, both in the order of submission. *)
Definition successful_records (results : nat -> string -> Outcome)
    (artifacts : list string) : list UploadRecord :=
  omap (record_of results artifacts) (seq 0 (length artifacts)).

Definition failed_files (results : nat -> string -> Outcome)
    (artifacts : list string) : list string :=
  omap (failure_of results artifacts) (seq 0 (length artifacts)).

(** *** A concrete environment, for the examples *)

(** The digests committed so far. *)
Fixpoint committed (t : list Event) : list string :=
  match t with
  | [] => []
  | UploadsCommit _ sha _ :: t' => sha :: committed t'
  | _ :: t' => committed t'
  end.

Definition reads (t : list Event) : nat :=
  length (List.filter (fun e => match e with TasksRead _ _ => true | _ => false end) t).

Definition artifact_href (sha : string) : string :=
  "/pulp/api/v3/artifacts/" ++ sha ++ "/".

(** Three files on disk; a repository that lists exactly the digests
    committed to it, accepts every range, and completes a task at the
    second read; a splitter that cuts the 25 bytes of [/srv/big.bin] in
    chunks of 10; a pool in which the second upload fails and the
    futures complete last first. *)
Definition test_env : Env :=
  {| getsize := fun path =>
       if String.eqb path "/srv/empty.log" then Ret 0
       else if String.eqb path "/srv/small.log" then Ret 5
       else if String.eqb path "/srv/big.bin" then Ret 25
       else Raise (FileNotFoundError path);
     hash_file := fun path _ => Ret ("sha256-of-" ++ path);
     get_artifacts_list := fun d =>
       Ret [os_path_join d "a.log"; os_path_join d "b.log";
            os_path_join d "c.log"];
     new_temp_dir := fun _ prefix => Ret ("/tmp/" ++ prefix ++ "0");
     split_manifest := fun _ _ _ _ =>
       Ret [ {| filename := "big_1.bin"; filesize := "10" |};
             {| filename := "big_2.bin"; filesize := "10" |};
             {| filename := "big_3.bin"; filesize := "5" |} ];
     artifacts_list := fun w sha =>
       if py_in sha (committed (trace w))
       then Ret [ {| pulp_href := artifact_href sha |} ]
       else Ret [];
     uploads_create := fun _ _ => Ret "/pulp/api/v3/uploads/1/";
     uploads_update := fun _ _ _ _ => Ret tt;
     uploads_commit := fun _ _ _ => Ret "/pulp/api/v3/tasks/1/";
     tasks_read := fun w _ =>
       Ret {| state := if Nat.ltb (reads (trace w)) 1 then "running"
                       else "completed";
              created_resources := map artifact_href (committed (trace w));
              task_repr := "task" |};
     future_result := fun _ i a =>
       if Nat.eqb i 1 then Failed (ExternalError "ApiException" "Bad Gateway")
       else Done {| name := os_path_basename a;
                    href := artifact_href ("sha256-of-" ++ a);
                    type := "test_log" |};
     completion_order := fun _ n => rev (seq 0 n) |}.

(** The same pool without the failure. *)
Definition test_env_all_done : Env :=
  {| getsize := getsize test_env;
     hash_file := hash_file test_env;
     get_artifacts_list := get_artifacts_list test_env;
     new_temp_dir := new_temp_dir test_env;
     split_manifest := split_manifest test_env;
     artifacts_list := artifacts_list test_env;
     uploads_create := uploads_create test_env;
     uploads_update := uploads_update test_env;
     uploads_commit := uploads_commit test_env;
     tasks_read := tasks_read test_env;
     future_result := fun _ _ a =>
       Done {| name := os_path_basename a;
               href := artifact_href ("sha256-of-" ++ a);
               type := "test_log" |};
     completion_order := completion_order test_env |}.

Definition test_uploader : PulpBaseUploader := __init__ 10.

(** The record the test pool returns for a file. *)
Definition test_record (a : string) : UploadRecord :=
  {| name := os_path_basename a;
     href := artifact_href ("sha256-of-" ++ a);
     type := "test_log" |}.

Definition empty_world : World := {| dirs := ∅; trace := [] |}.

End Pulp.

(* ===================================================================== *)
(** ** [alts/worker/runners/base.py]: the composite operations *)
(* ===================================================================== *)

Module Lifecycle.

Import Runner.

(** The command line of each step, as the external interfaces list
    them: [terraform init], [terraform apply --auto-approve],
    [terraform destroy --auto-approve] and the two [ansible-playbook]
    runs.  [install_package] has none when its package spec cannot be
    built. *)
Definition step_command (self : BaseRunner) (s : Step)
    : result (string * list string) :=
  match s with
  | InitializeTerraform => Ret ("terraform", ["init"])
  | StartEnv => Ret ("terraform", ["apply"; "--auto-approve"])
  | InitialProvision verbose =>
      Ret ("ansible-playbook",
           app ["-c"; ansible_connection_type self; "-i"; "hosts"; "playbook.yml";
                "-e"; "repositories=" ++ repositories_str (repositories self);
                "-t"; "initial_provision"]
               (if verbose then ["-vvvv"] else []))
  | InstallPackage package_name package_version =>
      match full_pkg_name self package_name package_version with
      | Ret full =>
          Ret ("ansible-playbook",
               ["-c"; ansible_connection_type self; "-i"; "hosts"; "playbook.yml";
                "-e"; "pkg_name=" ++ full; "-t"; "install_package"])
      | Raise e => Raise e
      | Diverge => Diverge
      end
  | StopEnv => Ret ("terraform", ["destroy"; "--auto-approve"])
  end.

(** What a step answers once its command has ended with [r]. *)
Definition step_outcome (s : Step) (r : result (Z * string * string))
    : result (option (Z * string * string)) :=
  match r with
  | Ret (exit_code, stdout, stderr) =>
      if exit_code =? 0 then Ret (Some (exit_code, stdout, stderr))
      else Raise (step_exception s (step_message s))
  | Raise e => Raise e
  | Diverge => Diverge
  end.

(** What a step leaves in the artifact map once its command has ended
    with [r]. *)
Definition step_record (s : Step) (r : result (Z * string * string))
    (self : BaseRunner) : BaseRunner :=
  match r with
  | Ret (exit_code, stdout, stderr) =>
      set_item (step_key s)
        {| exit_code := exit_code; stderr := stderr; stdout := stdout |} self
  | _ => self
  end.

Section WithOS.

Variable os : OS.

(** [prepare_work_dir_files] copies resource files and renders templates
    through [shutil] and [mako], and [publish_artifacts_to_storage]
    writes log files and sends them through [boto3]: the two are taken
    as they are called, whatever they do to the runner and the world. *)
Variable prepare_work_dir_files : M St unit.
Variable publish_artifacts_to_storage : M St unit.

Open Scope py_scope.

(** [BaseRunner.setup]. *)
Definition setup : M St unit :=
  prepare_work_dir_files ;;;
  initialize_terraform os ;;;
  start_env os ;;;
  initial_provision os false ;;;
  ret tt.

(** [BaseRunner.teardown]; [publish_artifacts] defaults to [True]. *)
Definition teardown (publish_artifacts : bool) : M St unit :=
  stop_env os ;;;
  (if publish_artifacts then publish_artifacts_to_storage else ret tt) ;;;
  erase_work_dir.

(** [BaseRunner.__del__]. *)
Definition __del__ : M St unit :=
  stop_env os ;;;
  erase_work_dir.

End WithOS.

(** *** Concrete environments, for the examples *)

(** Every command ends with exit code 0, except [terraform] with the
    given first argument, which ends with the given code; the
    directories are left alone. *)
Definition os_failing_at (verb : string) (code : Z) : OS :=
  {| gettempdir := ["tmp"];
     candidate := fun n => str_of_int (Z.of_nat n);
     run_outcome := fun w prog args _ =>
       (Ret (if String.eqb prog "terraform"
                && bool_decide (head args = Some verb)
             then code else 0, "out", "err"), fs w) |}.

(** No command is found. *)
Definition os_without_commands : OS :=
  {| gettempdir := ["tmp"];
     candidate := fun n => str_of_int (Z.of_nat n);
     run_outcome := fun w prog _ _ =>
       (Raise (ExternalError "CommandNotFound" prog), fs w) |}.

(** A runner for a distribution the class does not know. *)
Definition unknown_at_work : St :=
  {| self := set_work_dir (Some ["tmp"; "work"])
               (__init__ "id" "test_name" (PyStr "test") None "x86_64");
     world := world centos7_at_work |}.

End Lifecycle.

(* ===================================================================== *)
(** ** [alts/worker/runners/base.py]: [GenericVMRunner] *)
(* ===================================================================== *)

Module GenericVM.

Import Runner.

(** The runner and its world, and the seconds spent in [time.sleep]. *)
Record VMSt : Type := mkVMSt {
  base : St;
  clock : Z
}.

(** A method of [BaseRunner] run on a [GenericVMRunner]. *)
Definition lift_st {A} (m : M St A) : M VMSt A :=
  fun s =>
    match m (base s) with
    | (r, st') => (r, {| base := st'; clock := clock s |})
    end.

(** [time.sleep(seconds)]. *)
Definition sleep (seconds : Z) : M VMSt unit :=
  modify (fun s => {| base := base s; clock := clock s + seconds |}).

(** [str(x)] for a string that may be [None]. *)
Definition str_or_none (x : option string) : string :=
  match x with
  | Some s => s
  | None => "None"
  end.

Section WithOS.

Variable os : OS.

(** [BaseRunner._render_template(template_name, result_file_path,
    **kwargs)] looks the template up and writes the rendered text
    through [mako]: it is taken as it is called. *)
Variable _render_template :
  string -> Path -> list (string * option string) -> M VMSt unit.

Open Scope py_scope.

(** [BaseRunner._create_ansible_inventory_file]; [os.path.join] rejects
    an unset working directory. *)
Definition _create_ansible_inventory_file (vm_ip : option string)
    : M VMSt unit :=
  s <- get ;;
  match _work_dir (self (base s)) with
  | None =>
      raise (TypeError "expected str, bytes or os.PathLike object, not NoneType")
  | Some work_dir =>
      let inventory_file_path := path_div work_dir ANSIBLE_INVENTORY_FILE in
      _render_template (ANSIBLE_INVENTORY_FILE ++ ".tmpl") inventory_file_path
        [("env_name", Some (env_name (self (base s)))); ("vm_ip", vm_ip)]
  end.

(** The [while retries > 0] loop of [_wait_for_ssh], [n] being what is
    left of [retries]; it answers whether a check succeeded, with the
    last [stdout] and [stderr]. *)
Fixpoint wait_for_ssh_loop (n : nat) (stdout stderr : option string)
    : M VMSt (bool * option string * option string) :=
  match n with
  | O => ret (false, stdout, stderr)
  | S n' =>
      s <- get ;;
      r <- lift_st (run os "ansible"
                      ["-i"; ANSIBLE_INVENTORY_FILE; "-m"; "ping"; "all"]
                      (_work_dir (self (base s)))) ;;
      let '(exit_code, stdout, stderr) := r in
      if exit_code =? 0 then ret (true, Some stdout, Some stderr)
      else
        sleep 10 ;;;
        wait_for_ssh_loop n' (Some stdout) (Some stderr)
  end.

(** [GenericVMRunner._wait_for_ssh]; [retries] defaults to 60. *)
Definition _wait_for_ssh (retries : Z) : M VMSt bool :=
  r <- wait_for_ssh_loop (Z.to_nat retries) None None ;;
  let '(online, stdout, stderr) := r in
  if online then ret true
  else
    lift_st (log "error"
               ("Unable to connect to VM. Stdout: " ++ str_or_none stdout
                ++ newline ++ "Stderr: " ++ str_or_none stderr)) ;;;
    ret false.

(** [GenericVMRunner.start_env]. *)
Definition start_env : M VMSt unit :=
  lift_st (Runner.start_env os) ;;;
  s <- get ;;
  r <- lift_st (run os "terraform" ["output"; "-raw"; "vm_ip"]
                  (_work_dir (self (base s)))) ;;
  let '(exit_code, stdout, stderr) := r in
  (if negb (exit_code =? 0) then
     let error_message := "Cannot get VM IP: " ++ stderr in
     lift_st (log "error" error_message) ;;;
     raise (StartEnvironmentError error_message)
   else ret tt) ;;;
  _create_ansible_inventory_file (Some stdout) ;;;
  lift_st (log "info" "Waiting for SSH port to be available") ;;;
  is_online <- _wait_for_ssh 60 ;;
  s' <- get ;;
  (if negb is_online then
     let error_message :=
       "Machine " ++ env_name (self (base s'))
       ++ " is started, but SSH connection is not working" in
     lift_st (log "error" error_message) ;;;
     raise (StartEnvironmentError error_message)
   else ret tt) ;;;
  lift_st (log "info" "Machine is available for SSH connection").

End WithOS.

(** The reachability check, as an event. *)
Definition ping (cwd : option Path) : Event :=
  Exec "ansible" ["-i"; "hosts"; "-m"; "ping"; "all"] cwd.

(** *** Concrete environments, for the examples *)

(** The sub-processes run so far. *)
Definition runs (w : World) : nat := length (execs (trace w)).

(** The first [failures] commands end with exit code 1, the later ones
    with 0. *)
Definition os_up_after (failures : nat) : OS :=
  {| gettempdir := ["tmp"];
     candidate := fun n => str_of_int (Z.of_nat n);
     run_outcome := fun w _ _ _ =>
       (Ret (if Nat.ltb (runs w) failures then 1 else 0, "out", "err"), fs w) |}.

Definition vm_at_work : VMSt := {| base := centos7_at_work; clock := 0 |}.

Definition vm_just_constructed : VMSt := {| base := just_constructed; clock := 0 |}.

(** A renderer that does nothing. *)
Definition render_nothing (_ : string) (_ : Path)
    (_ : list (string * option string)) : M VMSt unit := ret tt.

End GenericVM.

(* ===================================================================== *)
(** ** [alts/shared/uploaders/pulp.py]: more notions for the properties *)
(* ===================================================================== *)

Module PulpNotions.

Import Pulp.

(** A task state that ends the polling. *)
Definition terminal (t : TaskResponse) : bool :=
  py_in (state t) ["failed"; "completed"].

(** What [_wait_for_task_completion] does when it polls [k] times after
    its first read. *)
Definition polling (task_href : string) (timeout : Z) (k : nat) : list Event :=
  TasksRead task_href None
  :: concat (replicate k [Sleep 20; TasksRead task_href (Some timeout)]).

(** The pauses among the events. *)
Definition is_sleep (e : Event) : bool :=
  match e with
  | Sleep _ => true
  | _ => false
  end.

Definition sleeps (t : list Event) : list Event := List.filter is_sleep t.

(** The line logged for a failed upload. *)
Definition failure_log (artifact : string) : Event :=
  Log "exception" ("Cannot upload " ++ artifact).

(** A repository in which task polling follows a script: the [n]-th read
    of a task is answered by [answer n]. *)
Definition scripted_env (answer : nat -> TaskResponse) : Env :=
  {| getsize := getsize test_env;
     hash_file := hash_file test_env;
     get_artifacts_list := get_artifacts_list test_env;
     new_temp_dir := new_temp_dir test_env;
     split_manifest := split_manifest test_env;
     artifacts_list := artifacts_list test_env;
     uploads_create := uploads_create test_env;
     uploads_update := uploads_update test_env;
     uploads_commit := uploads_commit test_env;
     tasks_read := fun w _ => Ret (answer (reads (trace w)));
     future_result := future_result test_env;
     completion_order := completion_order test_env |}.

(** A task that runs for two reads and then ends in the given state. *)
Definition two_then (final : string) (n : nat) : TaskResponse :=
  {| state := if Nat.ltb n 2 then "running" else final;
     created_resources := if Nat.ltb n 2 then [] else ["/pulp/api/v3/artifacts/1/"];
     task_repr := "task-" ++ final |}.

(** A repository that refuses the range starting at byte 10. *)
Definition refusing_env : Env :=
  {| getsize := getsize test_env;
     hash_file := hash_file test_env;
     get_artifacts_list := get_artifacts_list test_env;
     new_temp_dir := new_temp_dir test_env;
     split_manifest := split_manifest test_env;
     artifacts_list := artifacts_list test_env;
     uploads_create := uploads_create test_env;
     uploads_update := fun _ range _ _ =>
       if String.prefix "bytes 10-" range
       then Raise (ExternalError "ApiException" "Bad Gateway")
       else Ret tt;
     uploads_commit := uploads_commit test_env;
     tasks_read := tasks_read test_env;
     future_result := future_result test_env;
     completion_order := completion_order test_env |}.

(** A repository that refuses every range. *)
Definition rejecting_env : Env :=
  {| getsize := getsize test_env;
     hash_file := hash_file test_env;
     get_artifacts_list := get_artifacts_list test_env;
     new_temp_dir := new_temp_dir test_env;
     split_manifest := split_manifest test_env;
     artifacts_list := artifacts_list test_env;
     uploads_create := uploads_create test_env;
     uploads_update := fun _ _ _ _ =>
       Raise (ExternalError "ApiException" "Bad Gateway");
     uploads_commit := uploads_commit test_env;
     tasks_read := tasks_read test_env;
     future_result := future_result test_env;
     completion_order := completion_order test_env |}.

(** A repository that lists every digest, with an empty reference. *)
Definition empty_href_env : Env :=
  {| getsize := getsize test_env;
     hash_file := hash_file test_env;
     get_artifacts_list := get_artifacts_list test_env;
     new_temp_dir := new_temp_dir test_env;
     split_manifest := split_manifest test_env;
     artifacts_list := fun _ _ => Ret [ {| pulp_href := "" |} ];
     uploads_create := uploads_create test_env;
     uploads_update := uploads_update test_env;
     uploads_commit := uploads_commit test_env;
     tasks_read := tasks_read test_env;
     future_result := future_result test_env;
     completion_order := completion_order test_env |}.

End PulpNotions.

(* ===================================================================== *)
(** * Part II: properties *)
(* ===================================================================== *)

(** ** The builtins *)

Module PyFacts.

Lemma append_cons (c : ascii) (a b : string) :
  String c a ++ b = String c (a ++ b).
Proof. reflexivity. Qed.

(** A prefix, read as an equation. *)
Lemma prefix_true_app (a s : string) :
  String.prefix a s = true <-> exists b, s = a ++ b.
Proof.
  revert s. induction a as [|c a IH]; intros s.
  - split; [intros _; by exists s | intros _; by destruct s].
  - destruct s as [|d s]; simpl.
    + split; [done | intros [b Hb]; discriminate].
    + setoid_rewrite append_cons.
      destruct (ascii_dec c d) as [->|Hne].
      * rewrite IH. split; intros [b Hb]; exists b; congruence.
      * split; [done | intros [b Hb]; congruence].
Qed.
(** [sub in s] holds exactly when [s] is [a ++ sub ++ b]. *)
Lemma str_contains_spec (sub s : string) :
  str_contains sub s = true <-> exists a b, s = a ++ sub ++ b.
Proof.
  induction s as [|c s IH].
  - change (str_contains sub "") with (String.prefix sub "" || false).
    rewrite orb_false_r, prefix_true_app. split.
    + intros [b Hb]. by exists "", b.
    + intros [a [b Hab]]. destruct a; [by exists b | discriminate].
  - change (str_contains sub (String c s))
      with (String.prefix sub (String c s) || str_contains sub s).
    rewrite orb_true_iff, prefix_true_app, IH. split.
    + intros [[b Hb] | [a [b Hab]]].
      * by exists "", b.
      * exists (String c a), b. rewrite append_cons. by rewrite Hab.
    + intros [a [b Hab]]. destruct a as [|d a].
      * left. by exists b.
      * right. exists a, b. rewrite append_cons in Hab. congruence.
Qed.

(** [int(str(n)) == n]. *)
Lemma int_of_str_of_int (z : Z) : int_of_str (str_of_int z) = Ret z.
Proof.
  unfold int_of_str, str_of_int.
  rewrite NilZero.isi.
  - by rewrite DecimalZ.of_to.
  - destruct z; simpl; try discriminate.
    intros H. injection H as H. by apply DecimalPos.Unsigned.to_uint_nonnil in H.
  - destruct z; simpl; try discriminate.
    intros H. injection H as H. by apply DecimalPos.Unsigned.to_uint_nonnil in H.
Qed.

(** Membership in a tuple, as a proposition. *)
Lemma py_in_true {A} `{EqDecision A} (x : A) (t : list A) :
  py_in x t = true <-> x ∈ t.
Proof. unfold py_in. by rewrite bool_decide_eq_true. Qed.

Lemma py_in_false {A} `{EqDecision A} (x : A) (t : list A) :
  py_in x t = false <-> x ∉ t.
Proof. unfold py_in. by rewrite bool_decide_eq_false. Qed.

Lemma truthy_true (s : string) : truthy s = true <-> s <> "".
Proof. destruct s; simpl; split; congruence. Qed.

Example lower_mixed : lower "CentOS" = "centos".
Proof. reflexivity. Qed.

Example str_negative : str_of_int (-1) = "-1".
Proof. reflexivity. Qed.

Example basename_nested : os_path_basename "/srv/logs/tests.log" = "tests.log".
Proof. reflexivity. Qed.

Example basename_bare : os_path_basename "tests.log" = "tests.log".
Proof. reflexivity. Qed.

Example join_plain : os_path_join "/tmp/pulp_uploader_x" "part_1" = "/tmp/pulp_uploader_x/part_1".
Proof. reflexivity. Qed.

End PyFacts.

(** ** The runner *)

Module RunnerFacts.

Import Runner PyFacts.

Local Open Scope list_scope.

(** *** Package-manager resolution *)

(** The constructor normalises what it is given. *)
Example init_normalises :
  let r := __init__ "test_id_2" "CentOS" (PyInt 8) None "X86_64" in
  dist_name r = "centos" /\ dist_version r = "8" /\ dist_arch r = "x86_64"
  /\ env_name r = "base_test_id_2" /\ repositories r = [].
Proof. repeat split. Qed.

(** The rows of [basics_data] in the tests of the Docker runner. *)
Example pkg_manager_centos_8 :
  pkg_manager (__init__ "test_id_2" "centos" (PyInt 8) None "x86_64") = Ret "dnf".
Proof. reflexivity. Qed.

Example pkg_manager_centos_7 :
  pkg_manager (__init__ "test_id_3" "centos" (PyInt 7) None "x86_64") = Ret "yum".
Proof. reflexivity. Qed.

Example pkg_manager_ubuntu :
  pkg_manager (__init__ "test_id_4" "ubuntu" (PyStr "20.04") None "x86_64")
  = Ret "apt-get".
Proof. reflexivity. Qed.

Example pkg_manager_fedora :
  pkg_manager (__init__ "test_id_1" "fedora" (PyStr "33") None "x86_64") = Ret "dnf".
Proof. reflexivity. Qed.

Example pkg_manager_debian :
  pkg_manager (__init__ "test_id_5" "debian" (PyStr "11.0") None "x86_64")
  = Ret "apt-get".
Proof. reflexivity. Qed.

Example pkg_manager_almalinux :
  pkg_manager (__init__ "test_id_6" "almalinux" (PyStr "8.3") None "x86_64")
  = Ret "dnf".
Proof. reflexivity. Qed.

Example pkg_manager_unknown :
  pkg_manager (__init__ "test_id_test" "test_name" (PyStr "test") (Some []) "test_arch")
  = Raise (ValueError "Unknown distribution: test_name").
Proof. reflexivity. Qed.

(** The version only needs to contain an 8 somewhere. *)
Example pkg_manager_centos_7_8 :
  pkg_manager (__init__ "id" "centos" (PyStr "7.8") None "x86_64") = Ret "dnf".
Proof. reflexivity. Qed.

(** A decidable fact about concrete data, by evaluation. *)
Ltac by_decide :=
  match goal with
  | |- ?P => apply (bool_decide_unpack P); vm_compute; exact I
  end.

Lemma fedora_is_rhel : "fedora" ∈ RHEL_FLAVORS.
Proof. by_decide. Qed.

Lemma flavors_disjoint (n : string) :
  n ∈ DEBIAN_FLAVORS -> n ∉ RHEL_FLAVORS.
Proof.
  unfold DEBIAN_FLAVORS, RHEL_FLAVORS. intros H Hr.
  repeat (apply elem_of_cons in H as [->|H]);
    try (by apply elem_of_nil in H);
    repeat (apply elem_of_cons in Hr as [Hr|Hr]; [discriminate|]);
    by apply elem_of_nil in Hr.
Qed.

(** C1. For every runner, [pkg_manager] is a function of the
    distribution name and version the runner holds: a RHEL-family name
    whose version contains the character 8 gives [dnf], and so does the
    name [fedora] with any version; every other RHEL-family name gives
    [yum]; a debian-family name gives [apt-get]; any other name raises
    [ValueError]. *)
Theorem pkg_manager_resolution (self : BaseRunner) :
  (dist_name self ∈ RHEL_FLAVORS ->
   str_contains "8" (dist_version self) = true ->
   pkg_manager self = Ret "dnf")
  /\ (dist_name self = "fedora" -> pkg_manager self = Ret "dnf")
  /\ (dist_name self ∈ RHEL_FLAVORS ->
      dist_name self <> "fedora" ->
      str_contains "8" (dist_version self) = false ->
      pkg_manager self = Ret "yum")
  /\ (dist_name self ∈ DEBIAN_FLAVORS -> pkg_manager self = Ret "apt-get")
  /\ (dist_name self ∉ RHEL_FLAVORS ->
      dist_name self ∉ DEBIAN_FLAVORS ->
      pkg_manager self
      = Raise (ValueError ("Unknown distribution: " +:+ dist_name self))).
Proof.
  unfold pkg_manager, dist_name, dist_version.
  repeat split.
  - intros Hr H8. apply py_in_true in Hr. rewrite Hr, H8.
    by rewrite orb_true_r.
  - intros ->. reflexivity.
  - intros Hr Hf H8. apply py_in_true in Hr.
    apply String.eqb_neq in Hf. by rewrite Hr, H8, Hf.
  - intros Hd. pose proof (flavors_disjoint _ Hd) as Hr.
    apply py_in_true in Hd. apply py_in_false in Hr.
    rewrite Hr, Hd.
    destruct (String.eqb_spec (_dist_name self) "fedora") as [E|_]; [|done].
    apply py_in_false in Hr. rewrite E in Hr. by destruct (Hr fedora_is_rhel).
  - intros Hr Hd.
    destruct (String.eqb_spec (_dist_name self) "fedora") as [E|_].
    { rewrite E in Hr. by destruct (Hr fedora_is_rhel). }
    apply py_in_false in Hr. apply py_in_false in Hd. by rewrite Hr, Hd.
Qed.

Lemma pkg_manager_resolution_witness :
  pkg_manager (__init__ "id" "almalinux" (PyStr "8.3") None "x86_64") = Ret "dnf"
  /\ pkg_manager (__init__ "id" "Fedora" (PyInt 33) None "x86_64") = Ret "dnf"
  /\ pkg_manager (__init__ "id" "centos" (PyInt 7) None "x86_64") = Ret "yum"
  /\ pkg_manager (__init__ "id" "ubuntu" (PyStr "20.04") None "x86_64")
     = Ret "apt-get"
  /\ pkg_manager (__init__ "id" "test_name" (PyStr "test") None "x86_64")
     = Raise (ValueError "Unknown distribution: test_name").
Proof.
  split; [|split; [|split; [|split]]].
  - apply (proj1 (pkg_manager_resolution
             (__init__ "id" "almalinux" (PyStr "8.3") None "x86_64")));
      [by_decide | reflexivity].
  - apply (proj1 (proj2 (pkg_manager_resolution
             (__init__ "id" "Fedora" (PyInt 33) None "x86_64")))).
    reflexivity.
  - apply (proj1 (proj2 (proj2 (pkg_manager_resolution
             (__init__ "id" "centos" (PyInt 7) None "x86_64")))));
      [by_decide | discriminate | reflexivity].
  - apply (proj1 (proj2 (proj2 (proj2 (pkg_manager_resolution
             (__init__ "id" "ubuntu" (PyStr "20.04") None "x86_64")))))).
    by_decide.
  - apply (proj2 (proj2 (proj2 (proj2 (pkg_manager_resolution
             (__init__ "id" "test_name" (PyStr "test") None "x86_64"))))));
      by_decide.
Defined.

(** *** The command decorator *)

(** Without a working directory on disk the wrapper returns at once. *)
Lemma decorator_skips exc key msg fn (st : St) :
  (_work_dir (self st) = None
   \/ exists wd, _work_dir (self st) = Some wd
                 /\ exists_in (fs (world st)) wd = false) ->
  command_decorator exc key msg fn st = (Ret None, st).
Proof.
  intros [H | (wd & H & He)]; unfold command_decorator, bind, get;
    rewrite H; [done | by rewrite He].
Qed.

(** With one, the wrapped function runs; what it returns is recorded,
    and then reported. *)
Lemma decorator_runs exc key msg fn (st st1 : St) wd ec out err :
  _work_dir (self st) = Some wd ->
  exists_in (fs (world st)) wd = true ->
  fn st = (Ret (Some (ec, out, err)), st1) ->
  let stored :=
    set_self (set_item key {| exit_code := ec; stderr := err; stdout := out |})
      st1 in
  command_decorator exc key msg fn st
  = if ec =? 0
    then (Ret (Some (ec, out, err)),
          set_world (add_event (Log "info" "Operation completed successfully"))
            stored)
    else (Raise (exc msg),
          set_world (add_event (Log "error"
                       (msg +:+ ", exit code: " +:+ str_of_int ec +:+ ", error:"
                        +:+ newline +:+ err))) stored).
Proof.
  intros Hwd He Hfn. unfold command_decorator, bind, get.
  rewrite Hwd, He. simpl. rewrite Hfn. simpl.
  by destruct (ec =? 0).
Qed.

(** A wrapped function that raises is not caught. *)
Lemma decorator_propagates exc key msg fn (st st1 : St) wd e :
  _work_dir (self st) = Some wd ->
  exists_in (fs (world st)) wd = true ->
  fn st = (Raise e, st1) ->
  command_decorator exc key msg fn st = (Raise e, st1).
Proof.
  intros Hwd He Hfn. unfold command_decorator, bind, get.
  by rewrite Hwd, He; simpl; rewrite Hfn.
Qed.

(** The bodies of the steps leave the instance as it is. *)
Lemma run_self os prog args cwd (st : St) :
  self (snd (run os prog args cwd st)) = self st.
Proof. unfold run. by destruct (run_outcome _ _ _ _ _). Qed.

Ltac step_through os :=
  repeat match goal with
         | |- context [run os ?p ?a ?c ?s] =>
             let r := fresh "r" in
             let d := fresh "dirs" in
             unfold run; destruct (run_outcome os _ p a c) as [r d];
             destruct r as [[[? ?] ?]| ? |]; simpl
         end.

Lemma step_body_self os (s : Step) (st : St) :
  self (snd (step_body os s st)) = self st.
Proof.
  destruct s; simpl;
    unfold initialize_terraform_body, start_env_body, initial_provision_body,
      install_package_body, stop_env_body, bind, get, log, modify, lift, ret;
    simpl.
  - by step_through os.
  - by step_through os.
  - by step_through os.
  - destruct (full_pkg_name _ _ _); simpl; [by step_through os | done..].
  - destruct (_work_dir (self st)) as [wd|]; [|done].
    destruct (exists_in _ wd); simpl; [by step_through os | done].
Qed.

(** C3. For every wrapped lifecycle step run with its working directory
    on disk: when the wrapped command returns with exit code [ec], the
    record of exit code, stdout and stderr is stored in the artifact
    map under the key of the step, and then the call raises the failure
    kind of the step if [ec] is not zero, and returns the triple
    otherwise; the state reached carries the record in both cases. *)
Theorem wrapped_step_records_then_reports os (s : Step) (st st1 : St)
    wd ec out err :
  _work_dir (self st) = Some wd ->
  exists_in (fs (world st)) wd = true ->
  step_body os s st = (Ret (Some (ec, out, err)), st1) ->
  exists st2,
    artifacts (self st2)
    = <[step_key s := {| exit_code := ec; stderr := err; stdout := out |}]>
        (artifacts (self st))
    /\ (ec <> 0 ->
        step os s st = (Raise (step_exception s (step_message s)), st2))
    /\ (ec = 0 -> step os s st = (Ret (Some (ec, out, err)), st2)).
Proof.
  intros Hwd He Hbody.
  pose proof (step_body_self os s st) as Hself. rewrite Hbody in Hself.
  simpl in Hself.
  pose proof (decorator_runs (step_exception s) (step_key s) (step_message s)
                _ _ _ _ _ _ _ Hwd He Hbody) as Hrun.
  simpl in Hrun. fold (step os s) in Hrun.
  destruct (Z.eqb_spec ec 0) as [Hz|Hnz].
  - eexists. split; [|split; [done | intros _; exact Hrun]].
    unfold artifacts. simpl. by rewrite Hself.
  - eexists. split; [|split; [intros _; exact Hrun | done]].
    unfold artifacts. simpl. by rewrite Hself.
Qed.

Lemma wrapped_step_records_then_reports_witness :
  exists st2,
    artifacts (self st2)
    = <[ "initialize_terraform" :=
           {| exit_code := 1; stderr := "err"; stdout := "out" |}]>
        (artifacts (self centos7_at_work))
    /\ (1 <> 0 ->
        step (test_os 1) InitializeTerraform centos7_at_work
        = (Raise (TerraformInitializationError "Cannot initialize terraform"), st2))
    /\ (1 = 0 ->
        step (test_os 1) InitializeTerraform centos7_at_work
        = (Ret (Some (1, "out", "err")), st2)).
Proof.
  eapply (wrapped_step_records_then_reports (test_os 1) InitializeTerraform
            centos7_at_work _ ["tmp"; "work"] 1 "out" "err").
  - reflexivity.
  - vm_compute. reflexivity.
  - vm_compute. reflexivity.
Defined.

(** C4. For every wrapped lifecycle step: when the working directory of
    the runner is unset, or set to a path that is not on disk, the call
    returns [None] and leaves the runner and the world exactly as they
    were: no command is run, nothing is logged, the artifact map is
    unchanged, nothing is raised. *)
Theorem wrapped_step_without_work_dir os (s : Step) (st : St) :
  (_work_dir (self st) = None
   \/ exists wd, _work_dir (self st) = Some wd
                 /\ exists_in (fs (world st)) wd = false) ->
  step os s st = (Ret None, st).
Proof. apply decorator_skips. Qed.

Lemma wrapped_step_without_work_dir_witness :
  let fresh := {| self := __init__ "id" "centos" (PyInt 7) None "x86_64";
                  world := test_world |} in
  let stale := set_world (fun _ => test_world) centos7_at_work in
  step (test_os 0) StartEnv fresh = (Ret None, fresh)
  /\ step (test_os 0) StopEnv stale = (Ret None, stale).
Proof.
  split.
  - apply (wrapped_step_without_work_dir (test_os 0) StartEnv).
    left. reflexivity.
  - apply (wrapped_step_without_work_dir (test_os 0) StopEnv).
    right. exists ["tmp"; "work"]. split; [reflexivity | vm_compute; reflexivity].
Defined.

(** *** Package installation *)

Lemma execs_app (t1 t2 : list Event) : execs (t1 ++ t2) = execs t1 ++ execs t2.
Proof. apply List.filter_app. Qed.

(** Once the package spec is known, one command is run with it. *)
Lemma install_package_execs os (st : St) wd package_name package_version full :
  _work_dir (self st) = Some wd ->
  exists_in (fs (world st)) wd = true ->
  full_pkg_name (self st) package_name package_version = Ret full ->
  execs (trace (world (snd (install_package os package_name package_version st))))
  = execs (trace (world st))
    ++ [Exec "ansible-playbook" (install_package_args (self st) full) (Some wd)].
Proof.
  intros Hwd He Hfull.
  unfold install_package, step, command_decorator, bind, get. simpl.
  rewrite Hwd, He. simpl.
  unfold install_package_body, bind, get, lift, log, modify, ret. simpl.
  rewrite Hfull. simpl. unfold run.
  destruct (run_outcome os _ _ _ _) as [r dirs].
  destruct r as [[[ec out] err]| e |]; simpl;
    [destruct (ec =? 0); simpl|..];
    rewrite ?execs_app, Hwd; simpl; by rewrite ?app_nil_r.
Qed.

(** The three shapes of the package spec. *)
Lemma full_pkg_name_yum (self : BaseRunner) n v :
  v <> "" -> pkg_manager self = Ret "yum" ->
  full_pkg_name self n (Some v) = Ret (n +:+ "-" +:+ v).
Proof.
  intros Hv Hm. unfold full_pkg_name. apply truthy_true in Hv.
  by rewrite Hv, Hm.
Qed.

Lemma full_pkg_name_other (self : BaseRunner) n v m :
  v <> "" -> pkg_manager self = Ret m -> m <> "yum" ->
  full_pkg_name self n (Some v) = Ret (n +:+ "=" +:+ v).
Proof.
  intros Hv Hm Hne. unfold full_pkg_name. apply truthy_true in Hv.
  apply String.eqb_neq in Hne. by rewrite Hv, Hm, Hne.
Qed.

Lemma full_pkg_name_bare (self : BaseRunner) n version :
  version = None \/ version = Some "" ->
  full_pkg_name self n version = Ret n.
Proof. by intros [-> | ->]. Qed.

(** C2 (amended). For every call of [install_package] that reaches the
    command (the working directory is on disk): with a non-empty
    version and the package manager resolved to [yum], the spec passed
    to the configuration-management tool is [name-version]; with a
    non-empty version and any other resolved package manager it is
    [name=version]; with no version, or with the empty string as
    version, it is the bare name. *)
Theorem install_package_spec os (st : St) wd package_name package_version :
  _work_dir (self st) = Some wd ->
  exists_in (fs (world st)) wd = true ->
  let passes full :=
    execs (trace (world (snd (install_package os package_name package_version st))))
    = execs (trace (world st))
      ++ [Exec "ansible-playbook"
            ["-c"; ansible_connection_type (self st); "-i"; "hosts";
             "playbook.yml"; "-e"; "pkg_name=" +:+ full; "-t"; "install_package"]
            (Some wd)] in
  (forall v, package_version = Some v -> v <> "" ->
             pkg_manager (self st) = Ret "yum" ->
             passes (package_name +:+ "-" +:+ v))
  /\ (forall v m, package_version = Some v -> v <> "" ->
                  pkg_manager (self st) = Ret m -> m <> "yum" ->
                  passes (package_name +:+ "=" +:+ v))
  /\ (package_version = None \/ package_version = Some "" ->
      passes package_name).
Proof.
  intros Hwd He passes. subst passes. repeat split.
  - intros v -> Hv Hm.
    apply (install_package_execs os st wd _ _ _ Hwd He).
    by apply full_pkg_name_yum.
  - intros v m -> Hv Hm Hne.
    apply (install_package_execs os st wd _ _ _ Hwd He).
    by apply full_pkg_name_other with m.
  - intros Hv.
    apply (install_package_execs os st wd _ _ _ Hwd He).
    by apply full_pkg_name_bare.
Qed.

Lemma install_package_spec_witness :
  execs (trace (world (snd (install_package (test_os 0) "nginx" (Some "1.20")
                              centos7_at_work))))
  = [Exec "ansible-playbook"
       ["-c"; "ssh"; "-i"; "hosts"; "playbook.yml"; "-e";
        "pkg_name=nginx-1.20"; "-t"; "install_package"]
       (Some ["tmp"; "work"])]
  /\ execs (trace (world (snd (install_package (test_os 0) "nginx" (Some "1.20")
                                 debian_at_work))))
     = [Exec "ansible-playbook"
          ["-c"; "ssh"; "-i"; "hosts"; "playbook.yml"; "-e";
           "pkg_name=nginx=1.20"; "-t"; "install_package"]
          (Some ["tmp"; "work"])]
  /\ execs (trace (world (snd (install_package (test_os 0) "nginx" None
                                 centos7_at_work))))
     = [Exec "ansible-playbook"
          ["-c"; "ssh"; "-i"; "hosts"; "playbook.yml"; "-e";
           "pkg_name=nginx"; "-t"; "install_package"]
          (Some ["tmp"; "work"])].
Proof.
  split; [|split].
  - apply (proj1 (install_package_spec (test_os 0) centos7_at_work
                    ["tmp"; "work"] "nginx" (Some "1.20") eq_refl eq_refl)
             "1.20"); [reflexivity | discriminate | reflexivity].
  - apply (proj1 (proj2 (install_package_spec (test_os 0) debian_at_work
                    ["tmp"; "work"] "nginx" (Some "1.20") eq_refl eq_refl))
             "1.20" "apt-get");
      [reflexivity | discriminate | reflexivity | discriminate].
  - apply (proj2 (proj2 (install_package_spec (test_os 0) centos7_at_work
                    ["tmp"; "work"] "nginx" None eq_refl eq_refl))).
    left. reflexivity.
Defined.

(** C2 as stated fails for a version that is supplied and empty: on a
    [yum] runner the spec passed for [("nginx", "")] is ["nginx"], not
    ["nginx-"]. *)
Lemma install_package_empty_version :
  pkg_manager (self centos7_at_work) = Ret "yum"
  /\ execs (trace (world (snd (install_package (test_os 0) "nginx" (Some "")
                                 centos7_at_work))))
     = [Exec "ansible-playbook"
          ["-c"; "ssh"; "-i"; "hosts"; "playbook.yml"; "-e";
           "pkg_name=nginx"; "-t"; "install_package"]
          (Some ["tmp"; "work"])]
  /\ "pkg_name=nginx" <> "pkg_name=" +:+ "nginx" +:+ "-" +:+ "".
Proof. split; [reflexivity | split; [vm_compute; reflexivity | discriminate]]. Qed.

(** *** Working directory *)

Lemma mkdirs_app (t1 t2 : list Event) :
  mkdirs (t1 ++ t2) = mkdirs t1 ++ mkdirs t2.
Proof. apply List.filter_app. Qed.

(** What [os.mkdir] does when it returns. *)
Lemma os_mkdir_ret (p : Path) (st st1 : St) :
  os_mkdir p st = (Ret tt, st1) ->
  exists_in (fs (world st)) p = false
  /\ self st1 = self st
  /\ fs (world st1) = {[ p ]} ∪ fs (world st)
  /\ trace (world st1) = trace (world st) ++ [Mkdir p]
  /\ drawn (world st1) = drawn (world st).
Proof.
  unfold os_mkdir.
  destruct (exists_in (fs (world st)) p) eqn:Ep; [done|].
  destruct (exists_in (fs (world st)) (parent p)); simpl; [|done].
  intros [= <-]. by simpl.
Qed.

(** [os.mkdir] changes nothing when it raises. *)
Lemma os_mkdir_raise (p : Path) (st st1 : St) e :
  os_mkdir p st = (Raise e, st1) -> st1 = st.
Proof.
  unfold os_mkdir.
  destruct (exists_in (fs (world st)) p); [by intros [= _ <-]|].
  destruct (exists_in (fs (world st)) (parent p)); simpl; [done|].
  by intros [= _ <-].
Qed.

Lemma os_mkdir_never_diverges (p : Path) (st st1 : St) :
  os_mkdir p st <> (Diverge, st1).
Proof.
  unfold os_mkdir.
  destruct (exists_in (fs (world st)) p); [done|].
  by destruct (exists_in (fs (world st)) (parent p)).
Qed.

(** When [mkdtemp] returns, it has made exactly the directory it
    returns, which was not there, under the name asked for. *)
Lemma mkdtemp_from_ret os tries prefix (st st1 : St) p :
  mkdtemp_from os tries prefix st = (Ret p, st1) ->
  (exists name, p = path_div (gettempdir os) (prefix +:+ name))
  /\ exists_in (fs (world st)) p = false
  /\ self st1 = self st
  /\ fs (world st1) = {[ p ]} ∪ fs (world st)
  /\ trace (world st1) = trace (world st) ++ [Mkdir p].
Proof.
  revert st. induction tries as [|tries IH]; intros st; simpl; [done|].
  set (st' := set_world _ st).
  set (file := path_div _ _).
  destruct (os_mkdir file st') as [r st2] eqn:Hmk.
  destruct r as [[]|e|].
  - intros [= <- <-].
    apply os_mkdir_ret in Hmk as (Hnew & Hself & Hfs & Htr & _).
    split; [by eexists|]. by repeat split.
  - apply os_mkdir_raise in Hmk as ->.
    destruct e; try done.
    intros H. apply IH in H as (Hname & Hnew & Hself & Hfs & Htr).
    by repeat split.
  - done.
Qed.

(** The first name drawn is taken when it is free and the temporary
    directory is there. *)
Lemma mkdtemp_returns os prefix (st : St) :
  let p := path_div (gettempdir os)
             (prefix +:+ candidate os (drawn (world st))) in
  exists_in (fs (world st)) (gettempdir os) = true ->
  exists_in (fs (world st)) p = false ->
  exists st1, mkdtemp os prefix st = (Ret p, st1).
Proof.
  intros p Ht Hp. unfold mkdtemp, TMP_MAX.
  destruct (Z.to_nat 10000) as [|n] eqn:E; [done|]. simpl.
  unfold os_mkdir. simpl. fold p. rewrite Hp.
  replace (parent p) with (gettempdir os)
    by (unfold parent, p, path_div; by rewrite removelast_last).
  rewrite Ht. simpl. by eexists.
Qed.

(** A working directory that is on disk is kept. *)
Lemma create_work_dir_kept os (st : St) wd :
  _work_dir (self st) = Some wd ->
  exists_in (fs (world st)) wd = true ->
  _create_work_dir os st = (Ret wd, st).
Proof.
  intros Hwd He. unfold _create_work_dir, bind, get. by rewrite Hwd, He.
Qed.

(** Otherwise a new one is made and recorded. *)
Lemma create_work_dir_new os (st st1 : St) p :
  (_work_dir (self st) = None
   \/ exists wd, _work_dir (self st) = Some wd
                 /\ exists_in (fs (world st)) wd = false) ->
  _create_work_dir os st = (Ret p, st1) ->
  (exists name, p = path_div (gettempdir os) (TEMPFILE_PREFIX +:+ name))
  /\ exists_in (fs (world st)) p = false
  /\ _work_dir (self st1) = Some p
  /\ fs (world st1) = {[ p ]} ∪ fs (world st)
  /\ trace (world st1) = trace (world st) ++ [Mkdir p].
Proof.
  intros Hneed. unfold _create_work_dir, bind, get.
  assert (Hgo : match mkdtemp os TEMPFILE_PREFIX st with
                | (Ret a, s') =>
                    match modify (set_self (set_work_dir (Some a))) s' with
                    | (Ret _, s'') => ret a s''
                    | (Raise e, s'') => (Raise e, s'')
                    | (Diverge, s'') => (Diverge, s'')
                    end
                | (Raise e, s') => (Raise e, s')
                | (Diverge, s') => (Diverge, s')
                end = (Ret p, st1) ->
          (exists name, p = path_div (gettempdir os) (TEMPFILE_PREFIX +:+ name))
          /\ exists_in (fs (world st)) p = false
          /\ _work_dir (self st1) = Some p
          /\ fs (world st1) = {[ p ]} ∪ fs (world st)
          /\ trace (world st1) = trace (world st) ++ [Mkdir p]).
  { destruct (mkdtemp os TEMPFILE_PREFIX st) as [[q| |] st'] eqn:Hmk; try done.
    unfold modify, ret. simpl. intros [= -> <-].
    apply mkdtemp_from_ret in Hmk as (Hname & Hnew & Hself & Hfs & Htr).
    by repeat split. }
  destruct Hneed as [Hwd | (wd & Hwd & He)]; rewrite Hwd; simpl; [done|].
  by rewrite He.
Qed.

Lemma exists_in_added (p : Path) (d : gset Path) :
  exists_in ({[ p ]} ∪ d) p = true.
Proof.
  destruct p; [done|]. simpl. apply bool_decide_eq_true.
  apply elem_of_union_l, elem_of_singleton. reflexivity.
Qed.

(** Whatever [_create_work_dir] returns is recorded and on disk. *)
Lemma create_work_dir_ret os (st st1 : St) p :
  _create_work_dir os st = (Ret p, st1) ->
  _work_dir (self st1) = Some p /\ exists_in (fs (world st1)) p = true.
Proof.
  intros H.
  destruct (_work_dir (self st)) as [wd|] eqn:Hwd.
  - destruct (exists_in (fs (world st)) wd) eqn:He.
    + rewrite (create_work_dir_kept os st wd Hwd He) in H.
      by injection H as <- <-.
    + apply create_work_dir_new in H as (_ & _ & Hset & Hfs & _);
        [|right; by exists wd].
      split; [done|]. rewrite Hfs. apply exists_in_added.
  - apply create_work_dir_new in H as (_ & _ & Hset & Hfs & _); [|by left].
    split; [done|]. rewrite Hfs. apply exists_in_added.
Qed.

(** C8. For every runner: when a first call of [_create_work_dir]
    returns [p], a second call made while [p] is still on disk returns
    [p] again and changes neither the runner nor the world; and when
    the first call had to make a directory (none was recorded, or the
    recorded one was gone), it made exactly one, [p], new on disk and
    named [base_test_runner_] followed by the name drawn. *)
Theorem create_work_dir_idempotent os (st st1 : St) p :
  _create_work_dir os st = (Ret p, st1) ->
  (forall w2, exists_in (fs w2) p = true ->
     _create_work_dir os {| self := self st1; world := w2 |}
     = (Ret p, {| self := self st1; world := w2 |}))
  /\ _create_work_dir os st1 = (Ret p, st1)
  /\ ((_work_dir (self st) = None
       \/ exists wd, _work_dir (self st) = Some wd
                     /\ exists_in (fs (world st)) wd = false) ->
      (exists name,
         p = path_div (gettempdir os) ("base_test_runner_" +:+ name))
      /\ exists_in (fs (world st)) p = false
      /\ fs (world st1) = {[ p ]} ∪ fs (world st)
      /\ mkdirs (trace (world st1)) = mkdirs (trace (world st)) ++ [Mkdir p]).
Proof.
  intros H. pose proof (create_work_dir_ret os st st1 p H) as [Hset He].
  split; [|split].
  - intros w2 Hw2. by apply create_work_dir_kept.
  - by apply create_work_dir_kept.
  - intros Hneed.
    destruct (create_work_dir_new os st st1 p Hneed H)
      as (Hname & Hnew & _ & Hfs & Htr).
    repeat split; try done.
    rewrite Htr, mkdirs_app. reflexivity.
Qed.

Lemma create_work_dir_idempotent_witness :
  let p := ["tmp"; "base_test_runner_0"] in
  let st1 := snd (_create_work_dir (test_os 0) just_constructed) in
  _create_work_dir (test_os 0) st1 = (Ret p, st1)
  /\ fs (world st1) = {[ p ]} ∪ fs (world just_constructed)
  /\ mkdirs (trace (world st1)) = [Mkdir p].
Proof.
  intros p st1.
  destruct (create_work_dir_idempotent (test_os 0) just_constructed st1 p)
    as (_ & Hagain & Hone); [vm_compute; reflexivity|].
  destruct Hone as (_ & _ & Hfs & Hmk); [left; reflexivity|].
  by repeat split.
Defined.

(** *** Artifacts directory *)

Lemma parent_path_div (p : Path) (name : string) : parent (path_div p name) = p.
Proof. unfold parent, path_div. apply removelast_last. Qed.

(** With a working directory recorded, [_create_artifacts_dir] goes
    straight to the [artifacts] sub-directory: it is returned if it is
    there, otherwise made. *)
Lemma create_artifacts_dir_recorded os (st : St) wd :
  _work_dir (self st) = Some wd ->
  _create_artifacts_dir os st
  = if exists_in (fs (world st)) (path_div wd "artifacts")
    then (Ret (path_div wd "artifacts"), st)
    else match os_mkdir (path_div wd "artifacts") st with
         | (Ret _, st1) => (Ret (path_div wd "artifacts"), st1)
         | (Raise e, st1) => (Raise e, st1)
         | (Diverge, st1) => (Diverge, st1)
         end.
Proof.
  intros Hwd. unfold _create_artifacts_dir, bind, get, os_path_exists, ret.
  rewrite Hwd. simpl.
  destruct (exists_in (fs (world st)) (path_div wd "artifacts")); simpl; [done|].
  by destruct (os_mkdir _ st) as [[[]| |] ?].
Qed.

(** Whenever [_create_artifacts_dir] returns, it returns the
    [artifacts] sub-path of the working directory the runner records,
    and that path is on disk. *)
Lemma create_artifacts_dir_ret os (st st1 : St) p :
  _create_artifacts_dir os st = (Ret p, st1) ->
  exists wd, _work_dir (self st1) = Some wd
             /\ p = path_div wd "artifacts"
             /\ exists_in (fs (world st1)) p = true.
Proof.
  assert (Hrec : forall (s : St) wd,
            _work_dir (self s) = Some wd ->
            _create_artifacts_dir os s = (Ret p, st1) ->
            _work_dir (self st1) = Some wd
            /\ p = path_div wd "artifacts"
            /\ exists_in (fs (world st1)) p = true).
  { intros s wd Hwd. rewrite (create_artifacts_dir_recorded os s wd Hwd).
    destruct (exists_in (fs (world s)) (path_div wd "artifacts")) eqn:He.
    - by intros [= <- <-].
    - destruct (os_mkdir _ s) as [[[]| |] s1] eqn:Hmk; try done.
      intros [= <- <-].
      apply os_mkdir_ret in Hmk as (_ & Hself & Hfs & _).
      rewrite Hself, Hfs. by split; [|split; [|apply exists_in_added]]. }
  destruct (_work_dir (self st)) as [wd|] eqn:Hwd.
  { intros H. exists wd. by apply (Hrec st). }
  unfold _create_artifacts_dir, bind, get. rewrite Hwd.
  destruct (_create_work_dir os st) as [[q| |] s1] eqn:Hc; try done.
  unfold modify, ret, os_path_exists, bind, get. simpl.
  set (s2 := set_self _ s1).
  intros H. exists q.
  apply (Hrec s2 q); [done|].
  rewrite (create_artifacts_dir_recorded os s2 q eq_refl).
  simpl in *.
  destruct (exists_in (fs (world s1)) (path_div q "artifacts")); simpl in *; [done|].
  by destruct (os_mkdir _ s2) as [[[]| |] ?].
Qed.

(** A runner without a recorded working directory gets one first. *)
Lemma create_artifacts_dir_unset os (st : St) :
  _work_dir (self st) = None ->
  forall r st1, _create_work_dir os st = (r, st1) ->
    match r with
    | Ret wd =>
        _create_artifacts_dir os st
        = _create_artifacts_dir os (set_self (set_work_dir (Some wd)) st1)
    | Raise e => _create_artifacts_dir os st = (Raise e, st1)
    | Diverge => _create_artifacts_dir os st = (Diverge, st1)
    end.
Proof.
  intros Hwd r st1 Hc.
  destruct r as [wd| |]; unfold _create_artifacts_dir at 1; unfold bind, get;
    by rewrite Hwd, Hc.
Qed.

(** A recorded working directory that is gone is not made again: the
    [mkdir] of its [artifacts] sub-directory fails. *)
Lemma create_artifacts_dir_stale os (st : St) wd :
  _work_dir (self st) = Some wd ->
  exists_in (fs (world st)) wd = false ->
  exists_in (fs (world st)) (path_div wd "artifacts") = false ->
  _create_artifacts_dir os st
  = (Raise (FileNotFoundError (path_str (path_div wd "artifacts"))), st).
Proof.
  intros Hwd He Ha. rewrite (create_artifacts_dir_recorded os st wd Hwd), Ha.
  unfold os_mkdir. by rewrite Ha, parent_path_div, He.
Qed.

(** C9, where the code departs from it. A runner makes its directories,
    erases its working directory (which leaves the path recorded) and
    asks for the artifacts directory again: [_create_work_dir] would
    make a new working directory at this point, but
    [_create_artifacts_dir] does not call it and fails in [os.mkdir]
    with [FileNotFoundError], leaving everything as it was. *)
Theorem create_artifacts_dir_after_erase :
  let st1 := snd (_create_artifacts_dir (test_os 0) just_constructed) in
  let st2 := snd (erase_work_dir st1) in
  _work_dir (self st2) = Some ["tmp"; "base_test_runner_0"]
  /\ exists_in (fs (world st2)) ["tmp"; "base_test_runner_0"] = false
  /\ _create_work_dir (test_os 0) st2
     = (Ret ["tmp"; "base_test_runner_1"],
        snd (_create_work_dir (test_os 0) st2))
  /\ _create_artifacts_dir (test_os 0) st2
     = (Raise (FileNotFoundError "/tmp/base_test_runner_0/artifacts"), st2).
Proof.
  intros st1 st2. split; [|split; [|split]].
  - vm_compute. reflexivity.
  - vm_compute. reflexivity.
  - vm_compute. reflexivity.
  - apply (create_artifacts_dir_stale (test_os 0) st2 ["tmp"; "base_test_runner_0"]);
      vm_compute; reflexivity.
Qed.

End RunnerFacts.

(** ** The uploader *)

Module PulpFacts.

Import Pulp PyFacts.

Local Open Scope list_scope.

(** *** Single-file upload *)

(** The existence check is one request, whatever it finds. *)
Lemma check_if_artifact_exists_world env self sha (w w1 : World) r :
  check_if_artifact_exists env self sha w = (r, w1) ->
  w1 = add_event (ArtifactsList sha (_requests_timeout self)) w.
Proof.
  unfold check_if_artifact_exists, bind, call.
  destruct (artifacts_list env w sha) as [[|a l]| |]; by intros [= _ <-].
Qed.

(** It reports the reference of the first artifact listed. *)
Lemma check_if_artifact_exists_found env self sha (w : World) a rest :
  artifacts_list env w sha = Ret (a :: rest) ->
  check_if_artifact_exists env self sha w
  = (Ret (Some (pulp_href a)),
     add_event (ArtifactsList sha (_requests_timeout self)) w).
Proof. intros H. unfold check_if_artifact_exists, bind, call. by rewrite H. Qed.

Lemma check_if_artifact_exists_missing env self sha (w : World) :
  artifacts_list env w sha = Ret [] ->
  check_if_artifact_exists env self sha w
  = (Ret None, add_event (ArtifactsList sha (_requests_timeout self)) w).
Proof. intros H. unfold check_if_artifact_exists, bind, call. by rewrite H. Qed.

(** C5. For every file whose SHA-256 digest the existence check reports
    (it returns a reference, which as every reference of the repository
    is not empty): [upload_single_file] makes that one query and
    nothing else (no upload is reserved, no range is sent, no commit is
    requested), and returns the record whose [href] is the reference
    reported (the first artifact listed), whose [name] is the base name
    of the file and whose [type] is the tag given, ['test_log'] by
    default. *)
Theorem upload_single_file_short_circuits env self fuel filename type_
    (w w1 : World) sha reference :
  hash_file env filename "sha256" = Ret sha ->
  check_if_artifact_exists env self sha w = (Ret (Some reference), w1) ->
  reference <> "" ->
  upload_single_file env self fuel filename type_ w
  = (Ret {| name := os_path_basename filename;
            href := reference;
            type := default "test_log" type_ |}, w1)
  /\ dirs w1 = dirs w
  /\ trace w1 = trace w ++ [ArtifactsList sha (_requests_timeout self)].
Proof.
  intros Hsha Hcheck Href.
  pose proof (check_if_artifact_exists_world _ _ _ _ _ _ Hcheck) as ->.
  split; [|done].
  unfold upload_single_file, bind, lift. rewrite Hsha, Hcheck.
  apply truthy_true in Href. by rewrite Href.
Qed.

(** A second upload of the same content in the test repository. *)
Lemma upload_single_file_short_circuits_witness :
  let first := upload_single_file test_env test_uploader 5 "/srv/small.log"
                 None empty_world in
  let w1 := snd first in
  let sha := "sha256-of-/srv/small.log" in
  committed (trace w1) = [sha]
  /\ upload_single_file test_env test_uploader 5 "/srv/small.log" None w1
     = (Ret {| name := "small.log";
               href := "/pulp/api/v3/artifacts/sha256-of-/srv/small.log/";
               type := "test_log" |},
        add_event (ArtifactsList sha 120) w1).
Proof.
  intros first w1 sha. split; [vm_compute; reflexivity|].
  apply (upload_single_file_short_circuits test_env test_uploader 5
           "/srv/small.log" None w1 (add_event (ArtifactsList sha 120) w1) sha
           "/pulp/api/v3/artifacts/sha256-of-/srv/small.log/").
  - reflexivity.
  - vm_compute. reflexivity.
  - discriminate.
Defined.

(** *** Sending a file *)

(** Polling only adds events. *)
Lemma poll_extends env self fuel task result (w : World) :
  exists rest, trace (snd (poll env self fuel task result w)) = trace w ++ rest.
Proof.
  revert result w. induction fuel as [|fuel IH]; intros result w; simpl;
    destruct (negb (py_in (state result) ["failed"; "completed"]));
    try (exists []; by rewrite app_nil_r).
  unfold bind, sleep, modify, call.
  destruct (tasks_read env _ task) as [result'| |]; simpl.
  - destruct (IH result' (add_event (TasksRead task (Some (_requests_timeout self)))
                           (add_event (Sleep 20) w))) as [rest ->].
    simpl. rewrite <- !app_assoc. by eexists.
  - rewrite <- !app_assoc. by eexists.
  - rewrite <- !app_assoc. by eexists.
Qed.

Lemma wait_extends env self fuel task (w : World) :
  exists rest,
    trace (snd (_wait_for_task_completion env self fuel task w)) = trace w ++ rest.
Proof.
  unfold _wait_for_task_completion, bind, call.
  destruct (tasks_read env w task) as [result| |]; simpl;
    try by eexists.
  destruct (poll_extends env self fuel task result
              (add_event (TasksRead task None) w)) as [rest Hrest].
  destruct (poll env self fuel task result _) as [[r| |] w']; simpl in *.
  - destruct (String.eqb (state r) "failed"); simpl;
      rewrite Hrest, <- ?app_assoc; by eexists.
  - rewrite Hrest, <- ?app_assoc; by eexists.
  - rewrite Hrest, <- ?app_assoc; by eexists.
Qed.

(** C10. For a file of 0 bytes whose digest the repository does not list,
    with a chunk size that 0 does not exceed: after the existence check
    and the reservation of an upload of size 0, the single request
    carries the content range ['bytes 0--1/0'] (lower bound 0, upper
    bound [0 - 1]), and the commit is requested right after it. *)
Theorem empty_file_content_range env self fuel filename type_ (w : World)
    sha reference :
  let timeout := _requests_timeout self in
  let w1 := add_event (ArtifactsList sha timeout) w in
  let w2 := add_event (UploadsCreate 0 timeout) w1 in
  hash_file env filename "sha256" = Ret sha ->
  artifacts_list env w sha = Ret [] ->
  getsize env filename = Ret 0 ->
  ~ (0 > _chunk_size self) ->
  uploads_create env w1 0 = Ret reference ->
  uploads_update env w2 "bytes 0--1/0" reference filename = Ret tt ->
  content_range 0 (0 - 1) 0 = "bytes 0--1/0"
  /\ exists rest,
      trace (snd (upload_single_file env self fuel filename type_ w))
      = trace w
        ++ [ArtifactsList sha timeout;
            UploadsCreate 0 timeout;
            UploadsUpdate "bytes 0--1/0" reference filename timeout;
            UploadsCommit reference sha timeout]
        ++ rest.
Proof.
  intros timeout w1 w2 Hsha Hlist Hsize Hchunk Hcreate Hupdate.
  split; [reflexivity|].
  unfold upload_single_file, bind, lift. rewrite Hsha.
  rewrite (check_if_artifact_exists_missing _ _ _ _ Hlist). fold timeout w1.
  unfold _send_file, _create_upload, bind, lift, call, ret. rewrite Hsize.
  fold timeout. rewrite Hcreate. simpl.
  replace (0 >? _chunk_size self) with false
    by (symmetry; rewrite Z.gtb_ltb; apply Z.ltb_ge; lia).
  change (content_range 0 (0 - 1) 0) with "bytes 0--1/0".
  fold w2. rewrite Hupdate.
  unfold _commit_upload, bind, lift, call. rewrite Hsha.
  set (w3 := add_event (UploadsUpdate _ _ _ _) w2).
  set (w4 := add_event (UploadsCommit _ _ _) w3).
  assert (Hw4 : trace w4
                = trace w ++ [ArtifactsList sha timeout;
                              UploadsCreate 0 timeout;
                              UploadsUpdate "bytes 0--1/0" reference filename timeout;
                              UploadsCommit reference sha timeout]).
  { unfold w4, w3, w2, w1. simpl. by rewrite <- !app_assoc. }
  destruct (uploads_commit env w3 reference sha) as [task| |];
    [| exists []; exact Hw4.. ].
  destruct (wait_extends env self fuel task w4) as [rest Hrest].
  exists rest.
  transitivity (trace w4 ++ rest); [|by rewrite Hw4, <- app_assoc].
  rewrite <- Hrest.
  destruct (_wait_for_task_completion env self fuel task w4) as [[r| |] w5];
    simpl; try done.
  by destruct (created_resources r).
Qed.

Lemma empty_file_content_range_witness :
  exists rest,
    trace (snd (upload_single_file test_env test_uploader 5 "/srv/empty.log"
                  None empty_world))
    = [ArtifactsList "sha256-of-/srv/empty.log" 120;
       UploadsCreate 0 120;
       UploadsUpdate "bytes 0--1/0" "/pulp/api/v3/uploads/1/" "/srv/empty.log" 120;
       UploadsCommit "/pulp/api/v3/uploads/1/" "sha256-of-/srv/empty.log" 120]
      ++ rest.
Proof.
  apply (empty_file_content_range test_env test_uploader 5 "/srv/empty.log"
           None empty_world "sha256-of-/srv/empty.log" "/pulp/api/v3/uploads/1/");
    try reflexivity.
  unfold test_uploader, __init__. simpl. lia.
Defined.

(** *** Chunked transfer *)

Lemma updates_app (t1 t2 : list Event) :
  updates (t1 ++ t2) = updates t1 ++ updates t2.
Proof. apply List.filter_app. Qed.

Lemma offset_0 (sizes : list Z) : offset sizes 0 = 0.
Proof. reflexivity. Qed.

Lemma offset_S (s : Z) (sizes : list Z) (i : nat) :
  offset (s :: sizes) (S i) = s + offset sizes i.
Proof. reflexivity. Qed.

Lemma offset_all (sizes : list Z) : offset sizes (length sizes) = sum_sizes sizes.
Proof. unfold offset. by rewrite firstn_all. Qed.

(** Each chunk starts where the previous one stopped. *)
Lemma offset_step (sizes : list Z) (i : nat) (s : Z) :
  sizes !! i = Some s -> offset sizes (S i) = offset sizes i + s.
Proof.
  revert i. induction sizes as [|x sizes IH]; intros i H; [done|].
  destruct i as [|i].
  - injection H as ->. rewrite offset_S, !offset_0. lia.
  - rewrite !offset_S. rewrite (IH i H). lia.
Qed.

Lemma ranges_from_spec (lower : Z) (sizes : list Z) :
  ranges_from lower sizes
  = imap (fun i _ => (lower + offset sizes i, lower + offset sizes (S i) - 1))
      sizes.
Proof.
  revert lower. induction sizes as [|s sizes IH]; intros lower; [done|].
  simpl. rewrite IH. f_equal.
  - rewrite offset_0, offset_S, offset_0. f_equal; lia.
  - apply imap_ext. intros i x _. simpl. rewrite !offset_S. f_equal; lia.
Qed.

Lemma ranges_from_0 (sizes : list Z) : ranges_from 0 sizes = spec_ranges sizes.
Proof. rewrite ranges_from_spec. unfold spec_ranges. by apply imap_ext. Qed.

Lemma spec_ranges_length (sizes : list Z) :
  length (spec_ranges sizes) = length sizes.
Proof. unfold spec_ranges. apply length_imap. Qed.

(** Range [i] starts at [s1 + ... + si] and holds [s(i+1)] bytes. *)
Lemma spec_ranges_lookup (sizes : list Z) (i : nat) lo hi :
  spec_ranges sizes !! i = Some (lo, hi) ->
  exists s, sizes !! i = Some s /\ lo = offset sizes i /\ hi = lo + s - 1.
Proof.
  unfold spec_ranges. rewrite list_lookup_imap.
  destruct (sizes !! i) as [s|] eqn:Hs; simpl; [|done].
  intros [= <- <-]. exists s. rewrite (offset_step sizes i s Hs). by repeat split.
Qed.

Lemma spec_ranges_first (sizes : list Z) lo hi :
  spec_ranges sizes !! 0%nat = Some (lo, hi) -> lo = 0.
Proof. intros H. by apply spec_ranges_lookup in H as (s & _ & -> & _). Qed.

(** No gap and no overlap: the next range starts right after. *)
Lemma spec_ranges_contiguous (sizes : list Z) (i : nat) lo hi lo' hi' :
  spec_ranges sizes !! i = Some (lo, hi) ->
  spec_ranges sizes !! S i = Some (lo', hi') ->
  lo' = hi + 1.
Proof.
  intros H H'.
  apply spec_ranges_lookup in H as (s & Hs & -> & ->).
  apply spec_ranges_lookup in H' as (s' & _ & -> & _).
  rewrite (offset_step sizes i s Hs). lia.
Qed.

Lemma spec_ranges_last (sizes : list Z) lo hi :
  last (spec_ranges sizes) = Some (lo, hi) -> hi = sum_sizes sizes - 1.
Proof.
  rewrite last_lookup, spec_ranges_length. intros H.
  apply spec_ranges_lookup in H as (s & Hs & -> & ->).
  rewrite <- offset_all.
  assert (Hlen : (0 < length sizes)%nat).
  { apply lookup_lt_Some in Hs. lia. }
  replace (length sizes) with (S (pred (length sizes))) at 2 by lia.
  rewrite (offset_step sizes _ s Hs). lia.
Qed.

(** A manifest whose sizes are written by [str] reads back as those
    sizes. *)
Lemma written_manifest_parses (chunks : list (string * Z)) :
  Forall2 (fun row s => int_of_str (filesize row) = Ret s)
    (map (fun c => {| filename := c.1; filesize := str_of_int c.2 |}) chunks)
    (map snd chunks).
Proof.
  induction chunks as [|[n s] chunks IH]; simpl; constructor; [|done].
  apply int_of_str_of_int.
Qed.

(** The requests the loop makes are exactly the range requests. *)
Lemma updates_zip_with {A B} (f : A -> B -> Event) (l : list A) (k : list B) :
  (forall a b, is_update (f a b) = true) ->
  updates (zip_with f l k) = zip_with f l k.
Proof.
  intros Hf. revert k. induction l as [|a l IH]; intros [|b k]; simpl; try done.
  unfold updates in *. simpl. by rewrite Hf, IH.
Qed.

(** The loop over the manifest, when every range is accepted. *)
Lemma put_chunks_trace env self temp_dir reference total rows sizes lower
    (w : World) :
  Forall2 (fun row s => int_of_str (filesize row) = Ret s) rows sizes ->
  (forall w' range file, uploads_update env w' range reference file = Ret tt) ->
  put_chunks env self temp_dir reference total rows lower w
  = (Ret tt,
     {| dirs := dirs w;
        trace := trace w
          ++ zip_with (fun row (range : Z * Z) =>
                         UploadsUpdate (content_range range.1 range.2 total)
                           reference (os_path_join temp_dir (filename row))
                           (_requests_timeout self))
               rows (ranges_from lower sizes) |}).
Proof.
  intros Hrows Hok. revert lower w.
  induction Hrows as [|row s rows sizes Hs _ IH]; intros lower w; simpl.
  - unfold ret. rewrite app_nil_r. by destruct w.
  - unfold bind, lift, call. rewrite Hs, Hok. rewrite IH. simpl.
    by rewrite <- app_assoc.
Qed.

(** C6. For every chunked transfer of a file of [total] bytes whose
    manifest lists the chunk sizes [s1, ..., sn] with sum [total], every
    range being accepted: the ranges sent against the upload reference
    are, in the order of the manifest, [0..s1-1], [s1..s1+s2-1], and so
    on, each out of [total]; the first starts at 0, each next one
    starts right after the previous one ends, and the last ends at
    [total - 1]. *)
Theorem chunked_transfer_ranges env self file_path reference (w : World)
    temp_dir total rows sizes :
  let w1 := {| dirs := {[ temp_dir ]} ∪ dirs w;
               trace := trace w ++ [Mkdtemp temp_dir] |} in
  let sent row (range : Z * Z) :=
    UploadsUpdate (content_range range.1 range.2 total) reference
      (os_path_join temp_dir (filename row)) (_requests_timeout self) in
  new_temp_dir env w "pulp_uploader_" = Ret temp_dir ->
  getsize env file_path = Ret total ->
  split_manifest env w1 file_path (_chunk_size self) temp_dir = Ret rows ->
  Forall2 (fun row s => int_of_str (filesize row) = Ret s) rows sizes ->
  (forall w' range file, uploads_update env w' range reference file = Ret tt) ->
  sum_sizes sizes = total ->
  (exists w', _put_large_file env self file_path reference w = (Ret tt, w')
              /\ updates (trace w')
                 = updates (trace w) ++ zip_with sent rows (spec_ranges sizes))
  /\ length (spec_ranges sizes) = length rows
  /\ (forall i lo hi, spec_ranges sizes !! i = Some (lo, hi) ->
        exists s, sizes !! i = Some s /\ lo = offset sizes i /\ hi = lo + s - 1)
  /\ (forall lo hi, spec_ranges sizes !! 0%nat = Some (lo, hi) -> lo = 0)
  /\ (forall i lo hi lo' hi',
        spec_ranges sizes !! i = Some (lo, hi) ->
        spec_ranges sizes !! S i = Some (lo', hi') ->
        lo' = hi + 1)
  /\ (forall lo hi, last (spec_ranges sizes) = Some (lo, hi) -> hi = total - 1).
Proof.
  intros w1 sent Htmp Hsize Hsplit Hrows Hok Hsum.
  split; [|split; [|split; [|split; [|split]]]].
  - unfold _put_large_file, bind, mkdtemp, try_finally, lift, call, get.
    rewrite Htmp, Hsize. fold w1. rewrite Hsplit.
    rewrite (put_chunks_trace env self temp_dir reference total rows sizes 0 _
               Hrows Hok).
    rewrite ranges_from_0. fold sent. simpl.
    assert (Hup : updates (zip_with sent rows (spec_ranges sizes))
                  = zip_with sent rows (spec_ranges sizes))
      by (by apply updates_zip_with).
    destruct (truthy temp_dir && bool_decide (temp_dir ∈ {[temp_dir]} ∪ dirs w));
      simpl; eexists; (split; [reflexivity|]); simpl;
      rewrite !updates_app, Hup; simpl; by rewrite ?app_nil_r.
  - rewrite spec_ranges_length. symmetry. by eapply Forall2_length.
  - apply spec_ranges_lookup.
  - apply spec_ranges_first.
  - apply spec_ranges_contiguous.
  - intros lo hi H. rewrite <- Hsum. by eapply spec_ranges_last.
Qed.

Lemma chunked_transfer_ranges_witness :
  exists w',
    _put_large_file test_env test_uploader "/srv/big.bin"
      "/pulp/api/v3/uploads/1/" empty_world = (Ret tt, w')
    /\ updates (trace w')
       = [UploadsUpdate "bytes 0-9/25" "/pulp/api/v3/uploads/1/"
            "/tmp/pulp_uploader_0/big_1.bin" 120;
          UploadsUpdate "bytes 10-19/25" "/pulp/api/v3/uploads/1/"
            "/tmp/pulp_uploader_0/big_2.bin" 120;
          UploadsUpdate "bytes 20-24/25" "/pulp/api/v3/uploads/1/"
            "/tmp/pulp_uploader_0/big_3.bin" 120].
Proof.
  apply (chunked_transfer_ranges test_env test_uploader "/srv/big.bin"
           "/pulp/api/v3/uploads/1/" empty_world "/tmp/pulp_uploader_0" 25
           [ {| filename := "big_1.bin"; filesize := "10" |};
             {| filename := "big_2.bin"; filesize := "10" |};
             {| filename := "big_3.bin"; filesize := "5" |} ]
           [10; 10; 5]); try reflexivity.
  repeat constructor.
Defined.

(** *** Batch upload *)

(** Every artifact is handed to the pool, in the order of the list. *)
Lemma submit_all_world (artifacts : list string) (w : World) :
  submit_all artifacts w
  = (Ret tt, {| dirs := dirs w;
                trace := trace w ++ map (Submit 4) artifacts |}).
Proof.
  revert w. induction artifacts as [|a artifacts IH]; intros w; simpl.
  - unfold ret. rewrite app_nil_r. by destruct w.
  - unfold bind, modify. rewrite IH. simpl. by rewrite <- app_assoc.
Qed.

(** The loop over the completed futures sorts them in two lists, in the
    order of completion, and only logs. *)
Lemma collect_lists (artifacts : list string) results (order : list nat)
    success_uploads errored_uploads (w : World) :
  exists logs,
    Forall (fun e => is_log e = true) logs
    /\ collect artifacts results order success_uploads errored_uploads w
       = (Ret (success_uploads ++ omap (record_of results artifacts) order,
               errored_uploads ++ omap (failure_of results artifacts) order),
          {| dirs := dirs w; trace := trace w ++ logs |}).
Proof.
  revert success_uploads errored_uploads w.
  induction order as [|i order IH]; intros ss es w; simpl.
  - exists []. split; [constructor|]. unfold ret.
    rewrite !app_nil_r. by destruct w.
  - unfold record_of at 1, failure_of at 1.
    destruct (artifacts !! i) as [a|]; [|apply IH].
    destruct (results i a) as [r|e].
    + destruct (IH (ss ++ [r]) es w) as (logs & Hlogs & ->).
      exists logs. split; [done|]. by rewrite <- app_assoc.
    + unfold bind, log, modify.
      destruct (IH ss (es ++ [a]) (add_event (Log "exception" ("Cannot upload " +:+ a)) w))
        as (logs & Hlogs & ->).
      exists (Log "exception" ("Cannot upload " +:+ a) :: logs).
      split; [by constructor|]. simpl. by rewrite <- !app_assoc.
Qed.

(** C7. For every batch upload, whatever each single upload ends with
    and in whatever order the futures of the pool complete: every file
    of the directory is submitted; beyond that [upload] only logs (it
    sends nothing to the repository, so nothing uploaded is undone);
    when some upload raised, [UploadError] is raised and names exactly
    the files whose upload raised; when none did, exactly the records
    of the uploads are returned. *)
Theorem upload_collects_all env artifacts_dir (w : World) artifacts :
  let w1 := {| dirs := dirs w;
               trace := trace w ++ Log "info" "Starting files upload"
                                    :: map (Submit 4) artifacts |} in
  let results := future_result env w1 in
  let failed := failed_files results artifacts in
  let succeeded := successful_records results artifacts in
  get_artifacts_list env artifacts_dir = Ret artifacts ->
  Permutation (completion_order env w1 (length artifacts))
              (seq 0 (length artifacts)) ->
  exists logs w2,
    w2 = {| dirs := dirs w; trace := trace w1 ++ logs |}
    /\ Forall (fun e => is_log e = true) logs
    /\ (failed <> [] ->
        exists errored,
          Permutation errored failed
          /\ upload env artifacts_dir w
             = (Raise (UploadError ("Unable to upload files: "
                                    +:+ repr_str_list errored)), w2))
    /\ (failed = [] ->
        exists records,
          Permutation records succeeded
          /\ upload env artifacts_dir w = (Ret records, w2)).
Proof.
  intros w1 results failed succeeded Hlist Hperm.
  destruct (collect_lists artifacts results
              (completion_order env w1 (length artifacts)) [] [] w1)
    as (logs & Hlogs & Hcollect).
  exists logs, {| dirs := dirs w; trace := trace w1 ++ logs |}.
  split; [done|]. split; [done|].
  assert (Hrun : upload env artifacts_dir w
                 = let errored := omap (failure_of results artifacts)
                                    (completion_order env w1 (length artifacts)) in
                   let records := omap (record_of results artifacts)
                                    (completion_order env w1 (length artifacts)) in
                   (if negb (bool_decide (errored = []))
                    then Raise (UploadError ("Unable to upload files: "
                                             +:+ repr_str_list errored))
                    else Ret records,
                    {| dirs := dirs w; trace := trace w1 ++ logs |})).
  { unfold upload, bind, log, modify, lift, get. rewrite Hlist.
    rewrite submit_all_world. simpl.
    replace ((trace w ++ [Log "info" "Starting files upload"])
             ++ map (Submit 4) artifacts) with (trace w1)
      by (unfold w1; simpl; by rewrite <- app_assoc).
    change {| dirs := dirs w; trace := trace w1 |} with w1.
    fold results. rewrite Hcollect. simpl.
    by destruct (bool_decide _). }
  assert (Hfailed : Permutation
                      (omap (failure_of results artifacts)
                         (completion_order env w1 (length artifacts))) failed)
    by (unfold failed, failed_files; by rewrite Hperm).
  assert (Hdone : Permutation
                    (omap (record_of results artifacts)
                       (completion_order env w1 (length artifacts))) succeeded)
    by (unfold succeeded, successful_records; by rewrite Hperm).
  split.
  - intros Hne. eexists. split; [exact Hfailed|].
    rewrite Hrun. simpl. rewrite bool_decide_eq_false_2; [done|].
    intros E. rewrite E in Hfailed. by apply Permutation_nil in Hfailed.
  - intros He. eexists. split; [exact Hdone|].
    rewrite Hrun. simpl. rewrite bool_decide_eq_true_2; [done|].
    rewrite He in Hfailed. by apply Permutation_nil_r in Hfailed.
Qed.

Lemma upload_collects_all_witness :
  (exists errored,
     Permutation errored ["/srv/logs/b.log"]
     /\ fst (upload test_env "/srv/logs" empty_world)
        = Raise (UploadError ("Unable to upload files: "
                              +:+ repr_str_list errored)))
  /\ (exists records,
        Permutation records [test_record "/srv/logs/a.log";
                             test_record "/srv/logs/b.log";
                             test_record "/srv/logs/c.log"]
        /\ fst (upload test_env_all_done "/srv/logs" empty_world) = Ret records).
Proof.
  split.
  - destruct (upload_collects_all test_env "/srv/logs" empty_world
                ["/srv/logs/a.log"; "/srv/logs/b.log"; "/srv/logs/c.log"]
                eq_refl)
      as (logs & w2 & _ & _ & Hfailed & _).
    { apply (bool_decide_unpack _). vm_compute. exact I. }
    destruct Hfailed as (errored & Hperm & Hrun); [vm_compute; discriminate|].
    exists errored. split; [exact Hperm | by rewrite Hrun].
  - destruct (upload_collects_all test_env_all_done "/srv/logs" empty_world
                ["/srv/logs/a.log"; "/srv/logs/b.log"; "/srv/logs/c.log"]
                eq_refl)
      as (logs & w2 & _ & _ & _ & Hdone).
    { apply (bool_decide_unpack _). vm_compute. exact I. }
    destruct Hdone as (records & Hperm & Hrun); [vm_compute; reflexivity|].
    exists records. split; [exact Hperm | by rewrite Hrun].
Defined.

End PulpFacts.

(** ** More on the runner *)

Module RunnerMoreFacts.

Import Runner PyFacts RunnerFacts Lifecycle.

Local Open Scope list_scope.

(** *** What a step runs *)

Lemma execs_logged (w : World) level msg :
  execs (trace (add_event (Log level msg) w)) = execs (trace w).
Proof. simpl. rewrite execs_app. simpl. by rewrite app_nil_r. Qed.

Ltac execs_norm :=
  simpl; unfold execs; rewrite ?List.filter_app; simpl; rewrite ?app_nil_r.

(** The body of a step whose command line is known logs, then runs that
    command in the working directory, and answers what it answers. *)
Lemma step_body_runs os (s : Step) (st : St) wd prog args :
  _work_dir (self st) = Some wd ->
  exists_in (fs (world st)) wd = true ->
  step_command (self st) s = Ret (prog, args) ->
  exists w1,
    fs w1 = fs (world st)
    /\ execs (trace w1) = execs (trace (world st))
    /\ forall r dirs,
         run_outcome os w1 prog args (Some wd) = (r, dirs) ->
         step_body os s st
         = (match r with
            | Ret x => Ret (Some x)
            | Raise e => Raise e
            | Diverge => Diverge
            end,
            {| self := self st;
               world := {| fs := dirs;
                           trace := trace w1 ++ [Exec prog args (Some wd)];
                           drawn := drawn w1 |} |}).
Proof.
  intros Hwd He Hcmd.
  destruct s; simpl in Hcmd;
    try destruct (full_pkg_name (self st) package_name package_version)
      as [full| |] eqn:Hfull; try done;
    injection Hcmd as <- <-;
    unfold step_body, initialize_terraform_body, start_env_body,
      initial_provision_body, install_package_body, stop_env_body,
      bind, get, lift, log, modify, ret, run; simpl;
    rewrite ?Hfull, ?Hwd, ?He; simpl; rewrite ?Hwd;
    (eexists; split; [|split]; cycle 2;
     [intros r dirs Hr;
      unfold ansible_connection_type, repositories in Hr;
      unfold install_package_args, ANSIBLE_INVENTORY_FILE, ANSIBLE_PLAYBOOK;
      rewrite Hr; destruct r as [[[? ?] ?]| |]; reflexivity
     | reflexivity
     | by execs_norm]).
Qed.

(** The decorator on a function that ends with [r], whatever [r]. *)
Lemma decorator_outcome (s : Step) fn (st st1 : St) wd r :
  _work_dir (self st) = Some wd ->
  exists_in (fs (world st)) wd = true ->
  fn st = (match r with
           | Ret x => Ret (Some x)
           | Raise e => Raise e
           | Diverge => Diverge
           end, st1) ->
  exists st2,
    command_decorator (step_exception s) (step_key s) (step_message s) fn st
    = (step_outcome s r, st2)
    /\ self st2 = step_record s r (self st1)
    /\ fs (world st2) = fs (world st1)
    /\ execs (trace (world st2)) = execs (trace (world st1)).
Proof.
  intros Hwd He Hfn. unfold command_decorator, bind, get.
  rewrite Hwd, He. simpl. rewrite Hfn.
  destruct r as [[[ec out] err]| e |]; simpl;
    [destruct (ec =? 0); simpl|..]; eexists;
    (split; [reflexivity|]); simpl; repeat split; by execs_norm.
Qed.

(** A step whose command line is known runs that command, once, in the
    working directory; what it answers and records follows from how the
    command ends. *)
Lemma step_runs_command os (s : Step) (st : St) wd prog args :
  _work_dir (self st) = Some wd ->
  exists_in (fs (world st)) wd = true ->
  step_command (self st) s = Ret (prog, args) ->
  exists w1,
    fs w1 = fs (world st)
    /\ execs (trace w1) = execs (trace (world st))
    /\ forall r dirs,
         run_outcome os w1 prog args (Some wd) = (r, dirs) ->
         exists st2,
           step os s st = (step_outcome s r, st2)
           /\ self st2 = step_record s r (self st)
           /\ fs (world st2) = dirs
           /\ execs (trace (world st2))
              = execs (trace (world st)) ++ [Exec prog args (Some wd)].
Proof.
  intros Hwd He Hcmd.
  destruct (step_body_runs os s st wd prog args Hwd He Hcmd)
    as (w1 & Hfs & Hex & Hbody).
  exists w1. split; [done|]. split; [done|].
  intros r dirs Hr.
  destruct (decorator_outcome s (step_body os s) st _ wd r Hwd He (Hbody r dirs Hr))
    as (st2 & Hstep & Hself & Hfs2 & Hex2).
  exists st2. split; [exact Hstep|]. split; [exact Hself|]. split; [exact Hfs2|].
  rewrite Hex2. simpl. rewrite execs_app, Hex. reflexivity.
Qed.

(** One command, however it ends. *)
Lemma step_execs os (s : Step) (st : St) wd prog args :
  _work_dir (self st) = Some wd ->
  exists_in (fs (world st)) wd = true ->
  step_command (self st) s = Ret (prog, args) ->
  execs (trace (world (snd (step os s st))))
  = execs (trace (world st)) ++ [Exec prog args (Some wd)].
Proof.
  intros Hwd He Hcmd.
  destruct (step_runs_command os s st wd prog args Hwd He Hcmd)
    as (w1 & _ & _ & Hrun).
  destruct (run_outcome os w1 prog args (Some wd)) as [r dirs] eqn:Hr.
  destruct (Hrun r dirs eq_refl) as (st2 & -> & _ & _ & Hex). exact Hex.
Qed.

(** No command line, no effect. *)
Lemma step_without_command os (s : Step) (st : St) wd e :
  _work_dir (self st) = Some wd ->
  exists_in (fs (world st)) wd = true ->
  step_command (self st) s = Raise e ->
  step os s st = (Raise e, st).
Proof.
  intros Hwd He Hcmd. destruct s; simpl in Hcmd; try done.
  destruct (full_pkg_name (self st) package_name package_version)
    as [full| e' |] eqn:Hfull; try done.
  injection Hcmd as ->.
  unfold step, command_decorator, bind, get. rewrite Hwd, He. simpl.
  unfold install_package_body, bind, get, lift. by rewrite Hfull.
Qed.



(** X2. [install_package] only needs the package manager when a version
    is given: on a runner whose distribution is in neither family, a call
    with a non-empty version raises [ValueError] before anything is
    logged, run or recorded, while a call without version runs
    [ansible-playbook] with the bare name. *)
Theorem install_package_unknown_distribution os (st : St) wd package_name v :
  _work_dir (self st) = Some wd ->
  exists_in (fs (world st)) wd = true ->
  dist_name (self st) ∉ RHEL_FLAVORS ->
  dist_name (self st) ∉ DEBIAN_FLAVORS ->
  v <> "" ->
  install_package os package_name (Some v) st
  = (Raise (ValueError ("Unknown distribution: " +:+ dist_name (self st))), st)
  /\ execs (trace (world (snd (install_package os package_name None st))))
     = execs (trace (world st))
       ++ [Exec "ansible-playbook"
             ["-c"; ansible_connection_type (self st); "-i"; "hosts";
              "playbook.yml"; "-e"; "pkg_name=" +:+ package_name;
              "-t"; "install_package"]
             (Some wd)].
Proof.
  intros Hwd He Hr Hd Hv.
  assert (Hpm : pkg_manager (self st)
                = Raise (ValueError ("Unknown distribution: " +:+ dist_name (self st)))).
  { unfold pkg_manager, dist_name in *.
    destruct (String.eqb_spec (_dist_name (self st)) "fedora") as [E|_].
    { rewrite E in Hr. by destruct (Hr fedora_is_rhel). }
    apply py_in_false in Hr. apply py_in_false in Hd. by rewrite Hr, Hd. }
  split.
  - apply (step_without_command os (InstallPackage package_name (Some v))
             st wd _ Hwd He).
    simpl. apply truthy_true in Hv. by rewrite Hv, Hpm.
  - by apply (step_execs os (InstallPackage package_name None) st wd _ _ Hwd He).
Qed.

Lemma install_package_unknown_distribution_witness :
  install_package (test_os 0) "nginx" (Some "1.20") unknown_at_work
  = (Raise (ValueError "Unknown distribution: test_name"), unknown_at_work)
  /\ execs (trace (world (snd (install_package (test_os 0) "nginx" None
                                 unknown_at_work))))
     = [Exec "ansible-playbook"
          ["-c"; "ssh"; "-i"; "hosts"; "playbook.yml"; "-e"; "pkg_name=nginx";
           "-t"; "install_package"]
          (Some ["tmp"; "work"])].
Proof.
  apply (install_package_unknown_distribution (test_os 0) unknown_at_work
           ["tmp"; "work"] "nginx" "1.20" eq_refl eq_refl);
    [by_decide | by_decide | discriminate].
Defined.

(** X3. A step whose command cannot be started fails with the error of
    the sub-process library, not with the failure kind of the step, and
    records nothing: for every wrapped step with its working directory on
    disk and a command line, when running the command raises [e], the
    step raises [e] and the runner is as before. *)
Theorem wrapped_step_passes_library_error os (s : Step) (st : St) wd prog args e :
  _work_dir (self st) = Some wd ->
  exists_in (fs (world st)) wd = true ->
  step_command (self st) s = Ret (prog, args) ->
  (forall w, fst (run_outcome os w prog args (Some wd)) = Raise e) ->
  fst (step os s st) = Raise e
  /\ self (snd (step os s st)) = self st.
Proof.
  intros Hwd He Hcmd Hraise.
  destruct (step_runs_command os s st wd prog args Hwd He Hcmd)
    as (w1 & _ & _ & Hrun).
  destruct (run_outcome os w1 prog args (Some wd)) as [r dirs] eqn:Hr.
  pose proof (Hraise w1) as Hw1. rewrite Hr in Hw1. simpl in Hw1. subst r.
  destruct (Hrun _ dirs eq_refl) as (st2 & -> & Hself & _). by split.
Qed.

Lemma wrapped_step_passes_library_error_witness :
  fst (step os_without_commands StopEnv centos7_at_work)
  = Raise (ExternalError "CommandNotFound" "terraform")
  /\ self (snd (step os_without_commands StopEnv centos7_at_work))
     = self centos7_at_work.
Proof.
  apply (wrapped_step_passes_library_error os_without_commands StopEnv
           centos7_at_work ["tmp"; "work"] "terraform"
           ["destroy"; "--auto-approve"]
           (ExternalError "CommandNotFound" "terraform") eq_refl eq_refl eq_refl).
  reflexivity.
Defined.

(** *** Erasing the working directory *)

(** Without a working directory on disk there is nothing to erase. *)
Lemma erase_work_dir_skips (st : St) :
  (_work_dir (self st) = None
   \/ exists wd, _work_dir (self st) = Some wd
                 /\ exists_in (fs (world st)) wd = false) ->
  erase_work_dir st = (Ret tt, st).
Proof.
  intros [H | (wd & H & He)]; unfold erase_work_dir, bind, get;
    rewrite H; [done | by rewrite He].
Qed.







(** *** The artifacts directory, again *)

(** X6. [_create_artifacts_dir] is idempotent: whenever a call returns a
    path, a call made right after returns the same path and changes
    neither the runner nor the world. *)
Theorem create_artifacts_dir_idempotent os (st st1 : St) p :
  _create_artifacts_dir os st = (Ret p, st1) ->
  _create_artifacts_dir os st1 = (Ret p, st1).
Proof.
  intros H.
  destruct (create_artifacts_dir_ret os st st1 p H) as (wd & Hwd & -> & He).
  by rewrite (create_artifacts_dir_recorded os st1 wd Hwd), He.
Qed.

Lemma create_artifacts_dir_idempotent_witness :
  let st1 := snd (_create_artifacts_dir (test_os 0) just_constructed) in
  _create_artifacts_dir (test_os 0) st1
  = (Ret ["tmp"; "base_test_runner_0"; "artifacts"], st1).
Proof.
  intros st1.
  apply (create_artifacts_dir_idempotent (test_os 0) just_constructed).
  vm_compute. reflexivity.
Defined.

(** [os.mkdir] of a new path whose parent is there. *)
Lemma os_mkdir_new (p : Path) (st : St) :
  exists_in (fs (world st)) p = false ->
  exists_in (fs (world st)) (parent p) = true ->
  os_mkdir p st
  = (Ret tt, {| self := self st;
                world := {| fs := {[ p ]} ∪ fs (world st);
                            trace := trace (world st) ++ [Mkdir p];
                            drawn := drawn (world st) |} |}).
Proof. intros Hp Hpar. unfold os_mkdir. by rewrite Hp, Hpar. Qed.

(** [mkdtemp] takes the first name drawn when it can. *)
Lemma mkdtemp_first os prefix (st : St) :
  let p := path_div (gettempdir os) (prefix +:+ candidate os (drawn (world st))) in
  exists_in (fs (world st)) (gettempdir os) = true ->
  exists_in (fs (world st)) p = false ->
  mkdtemp os prefix st
  = (Ret p, {| self := self st;
               world := {| fs := {[ p ]} ∪ fs (world st);
                           trace := trace (world st) ++ [Mkdir p];
                           drawn := S (drawn (world st)) |} |}).
Proof.
  intros p Htmp Hp. unfold mkdtemp, TMP_MAX.
  destruct (Z.to_nat 10000) as [|n] eqn:E; [done|].
  change (mkdtemp_from os (S n) prefix st)
    with (match os_mkdir p (set_world (fun _ => {| fs := fs (world st);
                                                   trace := trace (world st);
                                                   drawn := S (drawn (world st)) |}) st) with
          | (Ret _, st2) => (Ret p, st2)
          | (Raise (FileExistsError _), st2) => mkdtemp_from os n prefix st2
          | (Raise e, st2) => (Raise e, st2)
          | (Diverge, st2) => (Diverge, st2)
          end).
  rewrite os_mkdir_new; [done|exact Hp|].
  unfold p. by rewrite parent_path_div.
Qed.

(** X7. On a runner without a recorded working directory, when the
    temporary directory exists and the first name drawn is free,
    [_create_artifacts_dir] makes exactly two directories, the working
    directory [base_test_runner_<name>] and its [artifacts]
    sub-directory, returns the latter and records the former;
    it does not record the artifacts directory in [_artifacts_dir]. *)
Theorem create_artifacts_dir_first_use os (st : St) :
  let wd := path_div (gettempdir os)
              ("base_test_runner_" +:+ candidate os (drawn (world st))) in
  let artifacts_path := path_div wd "artifacts" in
  _work_dir (self st) = None ->
  exists_in (fs (world st)) (gettempdir os) = true ->
  exists_in (fs (world st)) wd = false ->
  exists_in (fs (world st)) artifacts_path = false ->
  exists st1,
    _create_artifacts_dir os st = (Ret artifacts_path, st1)
    /\ _work_dir (self st1) = Some wd
    /\ _artifacts_dir (self st1) = _artifacts_dir (self st)
    /\ fs (world st1) = {[ artifacts_path ]} ∪ ({[ wd ]} ∪ fs (world st))
    /\ trace (world st1) = trace (world st) ++ [Mkdir wd; Mkdir artifacts_path].
Proof.
  intros wd artifacts_path Hnone Htmp Hwd Hart.
  assert (Hneq : artifacts_path <> wd).
  { unfold artifacts_path, path_div. intros E.
    apply (f_equal length) in E. rewrite !length_app in E. simpl in E. lia. }
  assert (Hart' : exists_in ({[wd]} ∪ fs (world st)) artifacts_path = false).
  { destruct artifacts_path as [|x q] eqn:Ea; [by destruct wd|]. simpl in *.
    apply bool_decide_eq_false. apply bool_decide_eq_false in Hart.
    rewrite elem_of_union, elem_of_singleton. intros [Heq|Hin]; [|done].
    by apply Hneq. }
  assert (Hcw : _create_work_dir os st
                = (Ret wd, {| self := set_work_dir (Some wd) (self st);
                              world := {| fs := {[ wd ]} ∪ fs (world st);
                                          trace := trace (world st) ++ [Mkdir wd];
                                          drawn := S (drawn (world st)) |} |})).
  { unfold _create_work_dir, bind, get. rewrite Hnone.
    by rewrite (mkdtemp_first os TEMPFILE_PREFIX st Htmp Hwd). }
  pose proof (create_artifacts_dir_unset os st Hnone _ _ Hcw) as Hgo.
  simpl in Hgo. rewrite Hgo.
  set (st1 := set_self (set_work_dir (Some wd)) _).
  rewrite (create_artifacts_dir_recorded os st1 wd eq_refl). simpl.
  fold artifacts_path. rewrite Hart'.
  rewrite os_mkdir_new; simpl;
    [| exact Hart'
     | unfold artifacts_path; rewrite parent_path_div; apply exists_in_added].
  eexists. split; [reflexivity|]. simpl. repeat split.
  by rewrite <- app_assoc.
Qed.

Lemma create_artifacts_dir_first_use_witness :
  exists st1,
    _create_artifacts_dir (test_os 0) just_constructed
    = (Ret ["tmp"; "base_test_runner_0"; "artifacts"], st1)
    /\ _work_dir (self st1) = Some ["tmp"; "base_test_runner_0"]
    /\ _artifacts_dir (self st1) = None
    /\ fs (world st1)
       = {[ ["tmp"; "base_test_runner_0"; "artifacts"] ]}
         ∪ ({[ ["tmp"; "base_test_runner_0"] ]} ∪ fs (world just_constructed))
    /\ trace (world st1)
       = [Mkdir ["tmp"; "base_test_runner_0"];
          Mkdir ["tmp"; "base_test_runner_0"; "artifacts"]].
Proof.
  apply (create_artifacts_dir_first_use (test_os 0) just_constructed);
    vm_compute; reflexivity.
Defined.

(** *** Construction *)



Lemma lower_append (a b : string) : lower (a +:+ b) = lower a +:+ lower b.
Proof. induction a as [|c a IH]; [done|]. simpl. by rewrite IH. Qed.




End RunnerMoreFacts.

(** ** Set-up and tear-down *)

Module LifecycleFacts.

Import Runner PyFacts RunnerFacts Lifecycle RunnerMoreFacts.

Local Open Scope list_scope.

(** A step whose command ends with exit code 0 and leaves the
    directories alone. *)
Lemma step_succeeds os (s : Step) (st : St) wd prog args :
  _work_dir (self st) = Some wd ->
  exists_in (fs (world st)) wd = true ->
  step_command (self st) s = Ret (prog, args) ->
  (forall w, exists out err,
     run_outcome os w prog args (Some wd) = (Ret (0, out, err), fs w)) ->
  exists st2 out err,
    step os s st = (Ret (Some (0, out, err)), st2)
    /\ self st2
       = set_item (step_key s) {| exit_code := 0; stderr := err; stdout := out |}
           (self st)
    /\ fs (world st2) = fs (world st)
    /\ execs (trace (world st2))
       = execs (trace (world st)) ++ [Exec prog args (Some wd)].
Proof.
  intros Hwd He Hcmd Hzero.
  destruct (step_runs_command os s st wd prog args Hwd He Hcmd)
    as (w1 & Hfs & _ & Hrun).
  destruct (Hzero w1) as (out & err & Hr).
  destruct (Hrun _ _ Hr) as (st2 & Hstep & Hself & Hfs2 & Hex).
  exists st2, out, err. simpl in *. by rewrite Hfs2, Hfs.
Qed.

(** A step whose command ends with another exit code. *)
Lemma step_fails os (s : Step) (st : St) wd prog args code :
  _work_dir (self st) = Some wd ->
  exists_in (fs (world st)) wd = true ->
  step_command (self st) s = Ret (prog, args) ->
  code <> 0 ->
  (forall w, exists out err,
     run_outcome os w prog args (Some wd) = (Ret (code, out, err), fs w)) ->
  exists st2 out err,
    step os s st = (Raise (step_exception s (step_message s)), st2)
    /\ self st2
       = set_item (step_key s)
           {| exit_code := code; stderr := err; stdout := out |} (self st)
    /\ fs (world st2) = fs (world st)
    /\ execs (trace (world st2))
       = execs (trace (world st)) ++ [Exec prog args (Some wd)].
Proof.
  intros Hwd He Hcmd Hcode Hfail.
  destruct (step_runs_command os s st wd prog args Hwd He Hcmd)
    as (w1 & Hfs & _ & Hrun).
  destruct (Hfail w1) as (out & err & Hr).
  destruct (Hrun _ _ Hr) as (st2 & Hstep & Hself & Hfs2 & Hex).
  exists st2, out, err. simpl in *.
  apply Z.eqb_neq in Hcode. rewrite Hcode in Hstep.
  by rewrite Hfs2, Hfs.
Qed.

Lemma step_skipped os (s : Step) (st : St) :
  (_work_dir (self st) = None
   \/ exists wd, _work_dir (self st) = Some wd
                 /\ exists_in (fs (world st)) wd = false) ->
  step os s st = (Ret None, st).
Proof. apply decorator_skips. Qed.

(** X9. When the preparation leaves a working directory on disk and every
    command ends with exit code 0 without touching the directories,
    [setup] returns after running exactly [terraform init],
    [terraform apply --auto-approve] and the provisioning playbook, in
    this order and in the working directory, and the artifact map holds a
    record with exit code 0 under each of the three keys. *)
Theorem setup_runs_the_three_steps os prepare (st st0 : St) wd :
  prepare st = (Ret tt, st0) ->
  _work_dir (self st0) = Some wd ->
  exists_in (fs (world st0)) wd = true ->
  (forall w prog args, exists out err,
     run_outcome os w prog args (Some wd) = (Ret (0, out, err), fs w)) ->
  exists st3,
    setup os prepare st = (Ret tt, st3)
    /\ execs (trace (world st3))
       = execs (trace (world st0))
         ++ [Exec "terraform" ["init"] (Some wd);
             Exec "terraform" ["apply"; "--auto-approve"] (Some wd);
             Exec "ansible-playbook"
               ["-c"; ansible_connection_type (self st0); "-i"; "hosts";
                "playbook.yml"; "-e";
                "repositories=" +:+ repositories_str (repositories (self st0));
                "-t"; "initial_provision"]
               (Some wd)]
    /\ (forall key,
          key ∈ ["initialize_terraform"; "start_environment"; "initial_provision"] ->
          exists record,
            artifacts (self st3) !! key = Some record /\ exit_code record = 0).
Proof.
  intros Hprep Hwd He Hzero.
  destruct (step_succeeds os InitializeTerraform st0 wd _ _ Hwd He eq_refl
              (fun w => Hzero w _ _))
    as (st1 & o1 & e1 & Hs1 & Hself1 & Hfs1 & Hex1).
  assert (Hwd1 : _work_dir (self st1) = Some wd) by (by rewrite Hself1).
  assert (He1 : exists_in (fs (world st1)) wd = true) by (by rewrite Hfs1).
  destruct (step_succeeds os StartEnv st1 wd _ _ Hwd1 He1 eq_refl
              (fun w => Hzero w _ _))
    as (st2 & o2 & e2 & Hs2 & Hself2 & Hfs2 & Hex2).
  assert (Hwd2 : _work_dir (self st2) = Some wd) by (by rewrite Hself2).
  assert (He2 : exists_in (fs (world st2)) wd = true) by (by rewrite Hfs2).
  destruct (step_succeeds os (InitialProvision false) st2 wd _ _ Hwd2 He2 eq_refl
              (fun w => Hzero w _ _))
    as (st3 & o3 & e3 & Hs3 & Hself3 & Hfs3 & Hex3).
  exists st3. split; [|split].
  - unfold setup, bind, initialize_terraform, start_env, initial_provision.
    by rewrite Hprep, Hs1, Hs2, Hs3.
  - rewrite Hex3, Hex2, Hex1, Hself2, Hself1. simpl.
    by rewrite <- !app_assoc.
  - intros key Hkey. unfold artifacts. rewrite Hself3, Hself2, Hself1. simpl.
    repeat (apply elem_of_cons in Hkey as [->|Hkey]);
      [..|by apply elem_of_nil in Hkey]; eexists.
    + rewrite lookup_insert_ne by done. rewrite lookup_insert_ne by done.
      by rewrite lookup_insert_eq.
    + rewrite lookup_insert_ne by done. by rewrite lookup_insert_eq.
    + by rewrite lookup_insert_eq.
Qed.

Lemma setup_runs_the_three_steps_witness :
  exists st3,
    setup (test_os 0) (ret tt) centos7_at_work = (Ret tt, st3)
    /\ execs (trace (world st3))
       = [Exec "terraform" ["init"] (Some ["tmp"; "work"]);
          Exec "terraform" ["apply"; "--auto-approve"] (Some ["tmp"; "work"]);
          Exec "ansible-playbook"
            ["-c"; "ssh"; "-i"; "hosts"; "playbook.yml"; "-e";
             "repositories=[]"; "-t"; "initial_provision"]
            (Some ["tmp"; "work"])]
    /\ (forall key,
          key ∈ ["initialize_terraform"; "start_environment"; "initial_provision"] ->
          exists record,
            artifacts (self st3) !! key = Some record /\ exit_code record = 0).
Proof.
  apply (setup_runs_the_three_steps (test_os 0) (ret tt) centos7_at_work
           centos7_at_work ["tmp"; "work"] eq_refl eq_refl eq_refl).
  intros w prog args. by exists "out", "err".
Defined.

(** X10. [setup] stops at the first step that fails: when the preparation
    leaves a working directory on disk and [terraform init] ends with a
    non-zero exit code, [setup] raises [TerraformInitializationError],
    [terraform init] is the only command run, its record is in the
    artifact map, and nothing is recorded for the two steps that
    follow. *)
Theorem setup_stops_at_failed_init os prepare (st st0 : St) wd code :
  prepare st = (Ret tt, st0) ->
  _work_dir (self st0) = Some wd ->
  exists_in (fs (world st0)) wd = true ->
  code <> 0 ->
  (forall w, exists out err,
     run_outcome os w "terraform" ["init"] (Some wd)
     = (Ret (code, out, err), fs w)) ->
  exists st1 record,
    setup os prepare st
    = (Raise (TerraformInitializationError "Cannot initialize terraform"), st1)
    /\ execs (trace (world st1))
       = execs (trace (world st0)) ++ [Exec "terraform" ["init"] (Some wd)]
    /\ artifacts (self st1) !! "initialize_terraform" = Some record
    /\ exit_code record = code
    /\ artifacts (self st1) !! "start_environment"
       = artifacts (self st0) !! "start_environment"
    /\ artifacts (self st1) !! "initial_provision"
       = artifacts (self st0) !! "initial_provision".
Proof.
  intros Hprep Hwd He Hcode Hfail.
  destruct (step_fails os InitializeTerraform st0 wd _ _ code Hwd He eq_refl
              Hcode Hfail)
    as (st1 & out & err & Hs1 & Hself1 & Hfs1 & Hex1).
  exists st1. eexists. split; [|split; [exact Hex1|]].
  - unfold setup, bind, initialize_terraform. by rewrite Hprep, Hs1.
  - unfold artifacts. rewrite Hself1. simpl.
    rewrite lookup_insert_eq. split; [reflexivity|]. split; [reflexivity|].
    by rewrite !lookup_insert_ne.
Qed.

Lemma setup_stops_at_failed_init_witness :
  exists st1 record,
    setup (os_failing_at "init" 1) (ret tt) centos7_at_work
    = (Raise (TerraformInitializationError "Cannot initialize terraform"), st1)
    /\ execs (trace (world st1)) = [Exec "terraform" ["init"] (Some ["tmp"; "work"])]
    /\ artifacts (self st1) !! "initialize_terraform" = Some record
    /\ exit_code record = 1
    /\ artifacts (self st1) !! "start_environment" = None
    /\ artifacts (self st1) !! "initial_provision" = None.
Proof.
  apply (setup_stops_at_failed_init (os_failing_at "init" 1) (ret tt)
           centos7_at_work centos7_at_work ["tmp"; "work"] 1
           eq_refl eq_refl eq_refl); [discriminate|].
  intros w. by exists "out", "err".
Defined.



(** X12. A failed destroy aborts the tear-down: when
    [terraform destroy] ends with a non-zero exit code and leaves the
    directories alone, [teardown] (with or without publication) and
    [__del__] raise [StopEnvironmentError] right after [stop_env]:
    nothing is published, the working directory is not erased and is
    still on disk, and the record of the destroy is in the artifact
    map. *)
Theorem teardown_aborts_on_failed_destroy os publish publish_artifacts
    (st : St) wd code :
  _work_dir (self st) = Some wd ->
  exists_in (fs (world st)) wd = true ->
  code <> 0 ->
  (forall w, exists out err,
     run_outcome os w "terraform" ["destroy"; "--auto-approve"] (Some wd)
     = (Ret (code, out, err), fs w)) ->
  let failed := (Raise (StopEnvironmentError "Cannot destroy environment"),
                 snd (stop_env os st)) in
  teardown os publish publish_artifacts st = failed
  /\ __del__ os st = failed
  /\ exists_in (fs (world (snd (stop_env os st)))) wd = true
  /\ exists record,
       artifacts (self (snd (stop_env os st))) !! "stop_environment" = Some record
       /\ exit_code record = code.
Proof.
  intros Hwd He Hcode Hfail failed. subst failed.
  destruct (step_fails os StopEnv st wd _ _ code Hwd He eq_refl Hcode Hfail)
    as (st1 & out & err & Hs1 & Hself1 & Hfs1 & Hex1).
  unfold teardown, __del__, bind, stop_env. rewrite Hs1. simpl.
  repeat split; try done.
  - by rewrite Hfs1.
  - eexists. unfold artifacts. rewrite Hself1. simpl.
    by rewrite lookup_insert_eq.
Qed.

Lemma teardown_aborts_on_failed_destroy_witness :
  let os := os_failing_at "destroy" 2 in
  teardown os (ret tt) true centos7_at_work
  = (Raise (StopEnvironmentError "Cannot destroy environment"),
     snd (stop_env os centos7_at_work))
  /\ exists_in (fs (world (snd (stop_env os centos7_at_work)))) ["tmp"; "work"]
     = true.
Proof.
  intros os.
  destruct (teardown_aborts_on_failed_destroy os (ret tt) true centos7_at_work
              ["tmp"; "work"] 2 eq_refl eq_refl)
    as (Ht & _ & Hd & _); [discriminate | | by split].
  intros w. by exists "out", "err".
Defined.



(** X14. Discarding or tearing down a runner that has no working
    directory on disk does nothing: [__del__] and [teardown(False)]
    return without running a command, logging or changing the runner. *)
Theorem teardown_without_work_dir os publish (st : St) :
  (_work_dir (self st) = None
   \/ exists wd, _work_dir (self st) = Some wd
                 /\ exists_in (fs (world st)) wd = false) ->
  __del__ os st = (Ret tt, st)
  /\ teardown os publish false st = (Ret tt, st).
Proof.
  intros Hno. unfold __del__, teardown, bind, stop_env.
  rewrite (step_skipped os StopEnv st Hno). unfold ret.
  by rewrite (erase_work_dir_skips st Hno).
Qed.

Lemma teardown_without_work_dir_witness :
  __del__ (test_os 1) just_constructed = (Ret tt, just_constructed)
  /\ teardown (test_os 1) (raise (PublishArtifactsError "unused")) false
       just_constructed
     = (Ret tt, just_constructed).
Proof.
  apply (teardown_without_work_dir (test_os 1)
           (raise (PublishArtifactsError "unused")) just_constructed).
  left. reflexivity.
Defined.

End LifecycleFacts.

(** ** The runner of virtual machines *)

Module GenericVMFacts.

Import Runner PyFacts RunnerFacts Lifecycle RunnerMoreFacts LifecycleFacts GenericVM.

Local Open Scope list_scope.

(** One round of the polling loop. *)
Lemma wait_for_ssh_loop_S os (n : nat) out err (s : VMSt) :
  wait_for_ssh_loop os (S n) out err s
  = match run_outcome os (world (base s)) "ansible"
            ["-i"; "hosts"; "-m"; "ping"; "all"] (_work_dir (self (base s))) with
    | (res, dirs) =>
        let st1 := {| self := self (base s);
                      world := {| fs := dirs;
                                  trace := trace (world (base s))
                                    ++ [ping (_work_dir (self (base s)))];
                                  drawn := drawn (world (base s)) |} |} in
        match res with
        | Ret (exit_code, stdout, stderr) =>
            if exit_code =? 0
            then (Ret (true, Some stdout, Some stderr),
                  {| base := st1; clock := clock s |})
            else wait_for_ssh_loop os n (Some stdout) (Some stderr)
                   {| base := st1; clock := clock s + 10 |}
        | Raise e => (Raise e, {| base := st1; clock := clock s |})
        | Diverge => (Diverge, {| base := st1; clock := clock s |})
        end
    end.
Proof.
  simpl. unfold bind, get, lift_st, run, sleep, modify, ret, ping.
  change ANSIBLE_INVENTORY_FILE with "hosts".
  destruct (run_outcome os (world (base s)) "ansible" _ _) as [res dirs].
  destruct res as [[[ec o] e]| e |]; simpl; [|done..].
  by destruct (ec =? 0).
Qed.



Example wait_for_ssh_runs :
  fst (_wait_for_ssh (os_up_after 2) 60 vm_at_work) = Ret true
  /\ clock (snd (_wait_for_ssh (os_up_after 2) 60 vm_at_work)) = 20
  /\ fst (_wait_for_ssh (os_up_after 100) 3 vm_at_work) = Ret false
  /\ clock (snd (_wait_for_ssh (os_up_after 100) 3 vm_at_work)) = 30
  /\ _wait_for_ssh (os_up_after 0) (-1) vm_at_work
     = (Ret false,
        {| base := set_world (add_event
                     (Log "error"
                        ("Unable to connect to VM. Stdout: None" +:+ newline
                         +:+ "Stderr: None"))) (base vm_at_work);
           clock := 0 |}).
Proof. vm_compute. by repeat split. Qed.

(** A method of [BaseRunner], run on the virtual-machine runner. *)
Lemma lift_st_eq {A} (m : M St A) (s : VMSt) r st' :
  m (base s) = (r, st') ->
  lift_st m s = (r, {| base := st'; clock := clock s |}).
Proof. intros H. unfold lift_st. by rewrite H. Qed.

(** The loop stops at the first check that exits with 0. *)
Lemma wait_for_ssh_first_check os retries (s : VMSt) out err dirs :
  0 < retries ->
  run_outcome os (world (base s)) "ansible" ["-i"; "hosts"; "-m"; "ping"; "all"]
    (_work_dir (self (base s)))
  = (Ret (0, out, err), dirs) ->
  _wait_for_ssh os retries s
  = (Ret true,
     {| base := {| self := self (base s);
                   world := {| fs := dirs;
                               trace := trace (world (base s))
                                 ++ [ping (_work_dir (self (base s)))];
                               drawn := drawn (world (base s)) |} |};
        clock := clock s |}).
Proof.
  intros Hpos Hrun. unfold _wait_for_ssh, bind.
  destruct (Z.to_nat retries) as [|n] eqn:E; [lia|].
  by rewrite wait_for_ssh_loop_S, Hrun.
Qed.

(** X16. [_wait_for_ssh] succeeds at once when the machine is up: with at
    least one retry allowed, when the first reachability check exits
    with 0 the call answers [True] after that single check, without
    sleeping and without logging. *)
Theorem wait_for_ssh_immediate os retries (s : VMSt) out err dirs :
  0 < retries ->
  run_outcome os (world (base s)) "ansible" ["-i"; "hosts"; "-m"; "ping"; "all"]
    (_work_dir (self (base s)))
  = (Ret (0, out, err), dirs) ->
  let r := _wait_for_ssh os retries s in
  fst r = Ret true
  /\ clock (snd r) = clock s
  /\ self (base (snd r)) = self (base s)
  /\ trace (world (base (snd r)))
     = trace (world (base s)) ++ [ping (_work_dir (self (base s)))].
Proof.
  intros Hpos Hrun r. subst r.
  by rewrite (wait_for_ssh_first_check os retries s out err dirs Hpos Hrun).
Qed.

Lemma wait_for_ssh_immediate_witness :
  let r := _wait_for_ssh (os_up_after 0) 60 vm_at_work in
  fst r = Ret true
  /\ clock (snd r) = 0
  /\ self (base (snd r)) = centos7_at_work.(self)
  /\ trace (world (base (snd r))) = [ping (Some ["tmp"; "work"])].
Proof.
  apply (wait_for_ssh_immediate (os_up_after 0) 60 vm_at_work "out" "err"
           (fs (world centos7_at_work))); [lia | reflexivity].
Defined.

(** X17. The override of [start_env] is not guarded like the step it
    extends: on a runner without a recorded working directory the base
    step is skipped, yet [terraform output -raw vm_ip] is run, in the
    current directory of the process, and the call never returns
    normally: it raises what the command raised,
    [StartEnvironmentError] when the command fails, and [TypeError] when
    it succeeds (the inventory path cannot be built). Neither the
    template renderer nor the reachability check is reached. *)
Theorem vm_start_env_without_work_dir os render (s : VMSt) :
  _work_dir (self (base s)) = None ->
  let r := start_env os render s in
  fst r <> Ret tt
  /\ clock (snd r) = clock s
  /\ self (base (snd r)) = self (base s)
  /\ execs (trace (world (base (snd r))))
     = execs (trace (world (base s)))
       ++ [Exec "terraform" ["output"; "-raw"; "vm_ip"] None]
  /\ match fst (run_outcome os (world (base s)) "terraform"
                  ["output"; "-raw"; "vm_ip"] None) with
     | Ret (exit_code, stdout, stderr) =>
         if exit_code =? 0
         then exists msg, fst r = Raise (TypeError msg)
         else fst r = Raise (StartEnvironmentError ("Cannot get VM IP: " +:+ stderr))
     | Raise e => fst r = Raise e
     | Diverge => fst r = Diverge
     end.
Proof.
  intros Hnone r. subst r. destruct s as [st c]. simpl in *.
  assert (Hskip : Runner.start_env os st = (Ret None, st))
    by (apply step_skipped; by left).
  unfold start_env, bind, get, lift_st, run. simpl. rewrite Hskip. simpl.
  rewrite Hnone.
  destruct (run_outcome os (world st) "terraform" _ None) as [res dirs].
  destruct res as [[[ec out] err]| e |]; simpl;
    [|split_and!; try done; by execs_norm..].
  destruct (ec =? 0) eqn:Hec; simpl.
  - unfold ret, _create_ansible_inventory_file, bind, get, raise. simpl.
    rewrite Hnone. simpl. split_and!; try done; [by execs_norm | by eexists].
  - unfold log, modify, raise. simpl.
    split_and!; try done. by execs_norm.
Qed.

Lemma vm_start_env_without_work_dir_witness :
  (exists msg,
     fst (start_env (os_up_after 0) render_nothing vm_just_constructed)
     = Raise (TypeError msg))
  /\ fst (start_env (os_up_after 1) render_nothing vm_just_constructed)
     = Raise (StartEnvironmentError "Cannot get VM IP: err").
Proof.
  split.
  - pose proof (vm_start_env_without_work_dir (os_up_after 0) render_nothing
                  vm_just_constructed eq_refl) as (_ & _ & _ & _ & H).
    exact H.
  - pose proof (vm_start_env_without_work_dir (os_up_after 1) render_nothing
                  vm_just_constructed eq_refl) as (_ & _ & _ & _ & H).
    exact H.
Defined.

(** The base step, run on the virtual-machine runner, when
    [terraform apply] ends with exit code 0. *)
Lemma vm_base_start os (s : VMSt) wd :
  _work_dir (self (base s)) = Some wd ->
  exists_in (fs (world (base s))) wd = true ->
  (forall w, exists out err,
     run_outcome os w "terraform" ["apply"; "--auto-approve"] (Some wd)
     = (Ret (0, out, err), fs w)) ->
  exists st1 out err,
    lift_st (Runner.start_env os) s
    = (Ret (Some (0, out, err)), {| base := st1; clock := clock s |})
    /\ self st1
       = set_item "start_environment"
           {| exit_code := 0; stderr := err; stdout := out |} (self (base s))
    /\ fs (world st1) = fs (world (base s))
    /\ execs (trace (world st1))
       = execs (trace (world (base s)))
         ++ [Exec "terraform" ["apply"; "--auto-approve"] (Some wd)].
Proof.
  intros Hwd He Hzero.
  destruct (step_succeeds os StartEnv (base s) wd _ _ Hwd He eq_refl Hzero)
    as (st1 & out & err & Hs & Hself & Hfs & Hex).
  exists st1, out, err. split; [by apply lift_st_eq|]. by split_and!.
Qed.

(** X18. When the environment starts but its address cannot be read, the
    override raises [StartEnvironmentError] carrying the error output of
    [terraform output], after exactly [terraform apply] and
    [terraform output -raw vm_ip] have been run; the start is already
    recorded with exit code 0, and neither the inventory is rendered nor
    a reachability check made. *)
Theorem vm_start_env_without_address os render (s : VMSt) wd code stderr :
  _work_dir (self (base s)) = Some wd ->
  exists_in (fs (world (base s))) wd = true ->
  (forall w, exists out err,
     run_outcome os w "terraform" ["apply"; "--auto-approve"] (Some wd)
     = (Ret (0, out, err), fs w)) ->
  code <> 0 ->
  (forall w, exists out,
     run_outcome os w "terraform" ["output"; "-raw"; "vm_ip"] (Some wd)
     = (Ret (code, out, stderr), fs w)) ->
  let r := start_env os render s in
  fst r = Raise (StartEnvironmentError ("Cannot get VM IP: " +:+ stderr))
  /\ clock (snd r) = clock s
  /\ execs (trace (world (base (snd r))))
     = execs (trace (world (base s)))
       ++ [Exec "terraform" ["apply"; "--auto-approve"] (Some wd);
           Exec "terraform" ["output"; "-raw"; "vm_ip"] (Some wd)]
  /\ exists record,
       artifacts (self (base (snd r))) !! "start_environment" = Some record
       /\ exit_code record = 0.
Proof.
  intros Hwd He Hzero Hcode Hout r. subst r.
  destruct (vm_base_start os s wd Hwd He Hzero)
    as (st1 & o1 & e1 & Hstart & Hself & Hfs & Hex).
  assert (Hwd1 : _work_dir (self st1) = Some wd) by (by rewrite Hself).
  assert (Hrun : exists st2,
            start_env os render s
            = (Raise (StartEnvironmentError ("Cannot get VM IP: " +:+ stderr)),
               {| base := st2; clock := clock s |})
            /\ self st2 = self st1
            /\ execs (trace (world st2))
               = execs (trace (world st1))
                 ++ [Exec "terraform" ["output"; "-raw"; "vm_ip"] (Some wd)]).
  { unfold start_env, bind at 1. rewrite Hstart.
    unfold bind at 1. unfold get. unfold bind at 1. unfold lift_st at 1.
    unfold run. simpl. rewrite Hwd1. destruct (Hout (world st1)) as (o2 & ->).
    simpl. apply Z.eqb_neq in Hcode. rewrite Hcode. simpl.
    unfold bind, lift_st, log, modify, raise. simpl.
    eexists. split; [reflexivity|]. split; [done|]. by execs_norm. }
  destruct Hrun as (st2 & -> & Hself2 & Hex2). simpl.
  split_and!; try done.
  - by rewrite Hex2, Hex, <- app_assoc.
  - eexists. unfold artifacts. rewrite Hself2, Hself. simpl.
    by rewrite lookup_insert_eq.
Qed.

Lemma vm_start_env_without_address_witness :
  let r := start_env (os_failing_at "output" 1) render_nothing vm_at_work in
  fst r = Raise (StartEnvironmentError "Cannot get VM IP: err")
  /\ execs (trace (world (base (snd r))))
     = [Exec "terraform" ["apply"; "--auto-approve"] (Some ["tmp"; "work"]);
        Exec "terraform" ["output"; "-raw"; "vm_ip"] (Some ["tmp"; "work"])].
Proof.
  intros r.
  destruct (vm_start_env_without_address (os_failing_at "output" 1)
              render_nothing vm_at_work ["tmp"; "work"] 1 "err" eq_refl eq_refl)
    as (Hr & _ & Hex & _).
  - intros w. by exists "out", "err".
  - discriminate.
  - intros w. by exists "out".
  - by split.
Defined.

Lemma execs_pings (n : nat) cwd :
  execs (replicate n (ping cwd)) = replicate n (ping cwd).
Proof. induction n; simpl; by f_equal. Qed.

(** Checks that all fail. *)
Lemma wait_for_ssh_loop_all_fail os (n : nat) out err (s : VMSt) code :
  code <> 0 ->
  (forall w, exists o e,
     run_outcome os w "ansible" ["-i"; "hosts"; "-m"; "ping"; "all"]
       (_work_dir (self (base s)))
     = (Ret (code, o, e), fs w)) ->
  exists out' err',
    wait_for_ssh_loop os n out err s
    = (Ret (false, out', err'),
       {| base := {| self := self (base s);
                     world := {| fs := fs (world (base s));
                                 trace := trace (world (base s))
                                   ++ replicate n (ping (_work_dir (self (base s))));
                                 drawn := drawn (world (base s)) |} |};
          clock := clock s + 10 * Z.of_nat n |}).
Proof.
  intros Hcode Hfail. revert out err s Hfail.
  induction n as [|n IH]; intros out err s Hfail.
  - exists out, err. simpl. unfold ret. rewrite app_nil_r, Z.add_0_r.
    by destruct s as [[? []] ?].
  - rewrite wait_for_ssh_loop_S.
    destruct (Hfail (world (base s))) as (o & e & ->). simpl.
    apply Z.eqb_neq in Hcode. rewrite Hcode.
    set (s1 := {| base := _; clock := _ |}).
    destruct (IH (Some o) (Some e) s1 Hfail) as (out' & err' & ->).
    exists out', err'. simpl. f_equal. f_equal.
    + f_equal. f_equal. by rewrite <- app_assoc.
    + lia.
Qed.

(** X19. A machine that never answers is given up after 60 checks and 10
    minutes: when [terraform apply] and [terraform output] end with exit
    code 0, the inventory is rendered and every reachability check fails,
    the override raises [StartEnvironmentError] ("... is started, but SSH
    connection is not working") after exactly 60 checks and 600 seconds
    of sleep. *)
Theorem vm_start_env_unreachable os render (s : VMSt) wd code :
  _work_dir (self (base s)) = Some wd ->
  exists_in (fs (world (base s))) wd = true ->
  (forall w args, exists out err,
     run_outcome os w "terraform" args (Some wd) = (Ret (0, out, err), fs w)) ->
  (forall name path kwargs s', render name path kwargs s' = (Ret tt, s')) ->
  code <> 0 ->
  (forall w, exists out err,
     run_outcome os w "ansible" ["-i"; "hosts"; "-m"; "ping"; "all"] (Some wd)
     = (Ret (code, out, err), fs w)) ->
  let r := start_env os render s in
  fst r = Raise (StartEnvironmentError
                   ("Machine " +:+ env_name (self (base s))
                    +:+ " is started, but SSH connection is not working"))
  /\ clock (snd r) = clock s + 600
  /\ execs (trace (world (base (snd r))))
     = execs (trace (world (base s)))
       ++ [Exec "terraform" ["apply"; "--auto-approve"] (Some wd);
           Exec "terraform" ["output"; "-raw"; "vm_ip"] (Some wd)]
       ++ replicate 60 (ping (Some wd)).
Proof.
  intros Hwd He Hzero Hrender Hcode Hfail r. subst r.
  remember (replicate 60 (ping (Some wd))) as pings eqn:Hpings.
  destruct (vm_base_start os s wd Hwd He (fun w => Hzero w _))
    as (st1 & o1 & e1 & Hstart & Hself & Hfs & Hex).
  assert (Hwd1 : _work_dir (self st1) = Some wd) by (by rewrite Hself).
  assert (Henv : env_name (self st1) = env_name (self (base s)))
    by (by rewrite Hself).
  assert (Hrun : exists st2,
            start_env os render s
            = (Raise (StartEnvironmentError
                        ("Machine " +:+ env_name (self (base s))
                         +:+ " is started, but SSH connection is not working")),
               {| base := st2; clock := clock s + 600 |})
            /\ execs (trace (world st2))
               = execs (trace (world st1))
                 ++ Exec "terraform" ["output"; "-raw"; "vm_ip"] (Some wd)
                    :: pings).
  { unfold start_env, bind at 1. rewrite Hstart.
    unfold bind at 1. unfold get. unfold bind at 1. unfold lift_st at 1.
    unfold run. simpl. rewrite Hwd1.
    destruct (Hzero (world st1) ["output"; "-raw"; "vm_ip"]) as (ip & e2 & ->).
    simpl. unfold bind at 1. unfold ret at 1.
    unfold bind at 1. unfold _create_ansible_inventory_file, bind at 1, get.
    simpl. rewrite Hwd1, Hrender.
    unfold bind at 1. unfold lift_st at 1, log, modify. simpl.
    unfold bind at 1. unfold _wait_for_ssh, bind at 1.
    set (s3 := {| base := _; clock := clock s |}).
    remember (Z.to_nat 60) as n eqn:En.
    destruct (wait_for_ssh_loop_all_fail os n None None s3 code Hcode)
      as (out' & err' & ->).
    { intros w. simpl. rewrite Hwd1. apply Hfail. }
    unfold bind, lift_st, log, modify, ret, get, raise. subst s3.
    cbn [fst snd base clock self world trace fs drawn set_world add_event negb].
    rewrite Henv. eexists. split.
    { f_equal. f_equal. subst n. simpl. lia. }
    cbn [fst snd base clock self world trace fs drawn set_world add_event].
    rewrite Hwd1, !execs_app, execs_pings. subst n pings.
    change (Z.to_nat 60) with 60%nat. cbn [execs List.filter is_exec].
    by rewrite !app_nil_r, <- !app_assoc. }
  destruct Hrun as (st2 & -> & Hex2). simpl.
  split_and!; try done.
  rewrite Hex2, Hex. by rewrite <- app_assoc.
Qed.

Lemma vm_start_env_unreachable_witness :
  let os := {| gettempdir := ["tmp"];
               candidate := fun _ => "0";
               run_outcome := fun w prog _ _ =>
                 (Ret (if String.eqb prog "ansible" then 1 else 0, "out", "err"),
                  fs w) |} in
  let r := start_env os render_nothing vm_at_work in
  fst r = Raise (StartEnvironmentError
                   "Machine base_id is started, but SSH connection is not working")
  /\ clock (snd r) = 600.
Proof.
  intros os r.
  destruct (vm_start_env_unreachable os render_nothing vm_at_work
              ["tmp"; "work"] 1 eq_refl eq_refl)
    as (Hr & Hc & _).
  - intros w args. by exists "out", "err".
  - done.
  - discriminate.
  - intros w. by exists "out", "err".
  - by split.
Defined.

(** X20. When everything answers, the override returns after
    [terraform apply], [terraform output -raw vm_ip] and one reachability
    check, without sleeping, and the inventory is rendered from
    [hosts.tmpl] into the [hosts] file of the working directory with the
    environment name and, as address, the output of
    [terraform output]. *)
Theorem vm_start_env_reachable os render (s : VMSt) wd vm_ip :
  _work_dir (self (base s)) = Some wd ->
  exists_in (fs (world (base s))) wd = true ->
  (forall w, exists out err,
     run_outcome os w "terraform" ["apply"; "--auto-approve"] (Some wd)
     = (Ret (0, out, err), fs w)) ->
  (forall w, exists err,
     run_outcome os w "terraform" ["output"; "-raw"; "vm_ip"] (Some wd)
     = (Ret (0, vm_ip, err), fs w)) ->
  (forall s', render "hosts.tmpl" (path_div wd "hosts")
                [("env_name", Some (env_name (self (base s))));
                 ("vm_ip", Some vm_ip)] s'
              = (Ret tt, s')) ->
  (forall w, exists out err,
     run_outcome os w "ansible" ["-i"; "hosts"; "-m"; "ping"; "all"] (Some wd)
     = (Ret (0, out, err), fs w)) ->
  let r := start_env os render s in
  fst r = Ret tt
  /\ clock (snd r) = clock s
  /\ execs (trace (world (base (snd r))))
     = execs (trace (world (base s)))
       ++ [Exec "terraform" ["apply"; "--auto-approve"] (Some wd);
           Exec "terraform" ["output"; "-raw"; "vm_ip"] (Some wd);
           ping (Some wd)].
Proof.
  intros Hwd He Hzero Hout Hrender Hping r. subst r.
  destruct (vm_base_start os s wd Hwd He Hzero)
    as (st1 & o1 & e1 & Hstart & Hself & Hfs & Hex).
  assert (Hwd1 : _work_dir (self st1) = Some wd) by (by rewrite Hself).
  assert (Henv : env_name (self st1) = env_name (self (base s)))
    by (by rewrite Hself).
  assert (Hrun : exists st2,
            start_env os render s = (Ret tt, {| base := st2; clock := clock s |})
            /\ execs (trace (world st2))
               = execs (trace (world st1))
                 ++ [Exec "terraform" ["output"; "-raw"; "vm_ip"] (Some wd);
                     ping (Some wd)]).
  { unfold start_env, bind at 1. rewrite Hstart.
    unfold bind at 1. unfold get. unfold bind at 1. unfold lift_st at 1.
    unfold run. simpl. rewrite Hwd1.
    destruct (Hout (world st1)) as (e2 & ->).
    simpl. unfold bind at 1. unfold ret at 1.
    unfold bind at 1. unfold _create_ansible_inventory_file, bind at 1, get.
    simpl. rewrite Hwd1, Henv.
    change ANSIBLE_INVENTORY_FILE with "hosts".
    change ("hosts" +:+ ".tmpl") with "hosts.tmpl". rewrite Hrender.
    unfold bind at 1. unfold lift_st at 1, log, modify. simpl.
    unfold bind at 1.
    set (s3 := {| base := _; clock := clock s |}).
    destruct (Hping (world (base s3))) as (o3 & e3 & Hp).
    rewrite (wait_for_ssh_first_check os 60 s3 o3 e3 (fs (world (base s3))));
      [|lia|simpl; rewrite Hwd1; exact Hp].
    simpl. unfold bind, lift_st, log, modify, ret, get. simpl.
    eexists. split; [reflexivity|].
    rewrite Hwd1. simpl. execs_norm. by rewrite <- app_assoc. }
  destruct Hrun as (st2 & -> & Hex2). simpl.
  split_and!; try done.
  rewrite Hex2, Hex. by rewrite <- app_assoc.
Qed.

Lemma vm_start_env_reachable_witness :
  let r := start_env (test_os 0) render_nothing vm_at_work in
  fst r = Ret tt
  /\ clock (snd r) = 0
  /\ execs (trace (world (base (snd r))))
     = [Exec "terraform" ["apply"; "--auto-approve"] (Some ["tmp"; "work"]);
        Exec "terraform" ["output"; "-raw"; "vm_ip"] (Some ["tmp"; "work"]);
        ping (Some ["tmp"; "work"])].
Proof.
  apply (vm_start_env_reachable (test_os 0) render_nothing vm_at_work
           ["tmp"; "work"] "out" eq_refl eq_refl).
  - intros w. by exists "out", "err".
  - intros w. by exists "err".
  - done.
  - intros w. by exists "out", "err".
Defined.

End GenericVMFacts.

(** ** The uploader, beyond single requests *)

Module PulpMoreFacts.

Import Pulp PyFacts PulpFacts PulpNotions.

Local Open Scope list_scope.

(** *** Waiting for a task *)

Lemma reads_app (t1 t2 : list Event) :
  reads (t1 ++ t2) = (reads t1 + reads t2)%nat.
Proof. unfold reads. by rewrite List.filter_app, length_app. Qed.

(** The loop is left with a task in a final state only. *)
Lemma poll_terminal env self fuel task result (w w' : World) t :
  poll env self fuel task result w = (Ret t, w') -> terminal t = true.
Proof.
  revert result w. induction fuel as [|fuel IH]; intros result w; simpl;
    destruct (py_in (state result) ["failed"; "completed"]) eqn:E; simpl.
  - intros [= <- _]. exact E.
  - discriminate.
  - intros [= <- _]. exact E.
  - unfold bind, sleep, modify, call.
    destruct (tasks_read env _ task) as [result'| |]; simpl;
      [apply IH | discriminate..].
Qed.

(** X21. Whatever the repository answers and however long the polling
    lasts, a task that [_wait_for_task_completion] returns is in state
    ['completed']: no other state is ever handed to the caller. *)
Theorem wait_returns_only_completed env self fuel task (w : World) t :
  fst (_wait_for_task_completion env self fuel task w) = Ret t ->
  state t = "completed".
Proof.
  unfold _wait_for_task_completion, bind, call.
  destruct (tasks_read env w task) as [result| |]; simpl; try discriminate.
  destruct (poll env self fuel task result _) as [[r| |] w'] eqn:E;
    simpl; try discriminate.
  apply poll_terminal in E.
  destruct (String.eqb_spec (state r) "failed") as [|Hf]; simpl;
    [discriminate|].
  intros [= <-]. unfold terminal in E. apply py_in_true in E.
  apply elem_of_cons in E as [E|E]; [done|].
  by apply list_elem_of_singleton in E.
Qed.

Lemma wait_returns_only_completed_witness :
  exists t,
    fst (_wait_for_task_completion (scripted_env (two_then "completed"))
           test_uploader 2 "/pulp/api/v3/tasks/1/" empty_world) = Ret t
    /\ state t = "completed".
Proof.
  eexists. split; [vm_compute; reflexivity|].
  apply (wait_returns_only_completed (scripted_env (two_then "completed"))
           test_uploader 2 "/pulp/api/v3/tasks/1/" empty_world).
  vm_compute. reflexivity.
Defined.

(** The loop against a scripted repository: [m] reads were answered
    before it is entered with the answer to the last of them. *)
Lemma poll_scripted env self (answer : nat -> TaskResponse) task :
  (forall w', tasks_read env w' task = Ret (answer (reads (trace w')))) ->
  forall (k fuel m : nat) (w : World),
    reads (trace w) = S m ->
    (forall i, (i < k)%nat -> terminal (answer (m + i)%nat) = false) ->
    terminal (answer (m + k)%nat) = true ->
    (k <= fuel)%nat ->
    poll env self fuel task (answer m) w
    = (Ret (answer (m + k)%nat),
       {| dirs := dirs w;
          trace := trace w
            ++ concat (replicate k [Sleep 20;
                                    TasksRead task (Some (_requests_timeout self))]) |}).
Proof.
  intros Hread. induction k as [|k IH]; intros fuel m w Hm Hrun Hend Hfuel.
  - rewrite Nat.add_0_r in Hend. unfold terminal in Hend.
    destruct fuel; simpl; rewrite Hend; simpl; rewrite app_nil_r, Nat.add_0_r;
      by destruct w.
  - destruct fuel as [|fuel]; [lia|].
    pose proof (Hrun 0%nat ltac:(lia)) as H0. rewrite Nat.add_0_r in H0.
    unfold terminal in H0. simpl. rewrite H0. simpl.
    unfold bind, sleep, modify, call. rewrite Hread. simpl.
    rewrite reads_app, Hm. unfold reads at 1. simpl. rewrite Nat.add_0_r.
    rewrite (IH fuel (S m)).
    + simpl. rewrite <- !app_assoc. simpl.
      by replace (S (m + k))%nat with (m + S k)%nat by lia.
    + simpl. rewrite !reads_app, Hm. unfold reads. simpl. lia.
    + intros i Hi. replace (S m + i)%nat with (m + S i)%nat by lia.
      apply Hrun. lia.
    + by replace (S m + k)%nat with (m + S k)%nat by lia.
    + lia.
Qed.

(** X22. Against a repository whose reads of a task follow a script, when
    the first final state shows at the [k]-th read after the first one,
    [_wait_for_task_completion] reads once without a timeout, then [k]
    times sleeps 20 seconds and reads with the request timeout, and
    stops: it returns that last answer when its state is ['completed']
    and raises [TaskFailedError] with the task reference and the text of
    the answer when it is ['failed']. *)
Theorem wait_polls_until_terminal env self (answer : nat -> TaskResponse)
    task (k fuel : nat) (w : World) :
  let m := reads (trace w) in
  let last := answer (m + k)%nat in
  let w' := {| dirs := dirs w;
               trace := trace w ++ polling task (_requests_timeout self) k |} in
  (forall w', tasks_read env w' task = Ret (answer (reads (trace w')))) ->
  (forall i, (i < k)%nat -> terminal (answer (m + i)%nat) = false) ->
  terminal last = true ->
  (k <= fuel)%nat ->
  (state last = "completed" ->
   _wait_for_task_completion env self fuel task w = (Ret last, w'))
  /\ (state last = "failed" ->
      _wait_for_task_completion env self fuel task w
      = (Raise (TaskFailedError ("task " +:+ task
                                 +:+ " has failed, details: "
                                 +:+ task_repr last)), w')).
Proof.
  intros m last w' Hread Hrun Hend Hfuel.
  assert (Hpoll : _wait_for_task_completion env self fuel task w
                  = (if String.eqb (state last) "failed"
                     then Raise (TaskFailedError
                                   ("task " +:+ task
                                    +:+ " has failed, details: "
                                    +:+ task_repr last))
                     else Ret last, w')).
  { unfold _wait_for_task_completion, bind at 1. unfold call at 1.
    rewrite Hread. fold m. unfold bind.
    rewrite (poll_scripted env self answer task Hread k fuel m); try done.
    - fold last. unfold w', polling. simpl. rewrite <- app_assoc. simpl.
      by destruct (String.eqb (state last) "failed").
    - simpl. rewrite reads_app. unfold reads at 2. simpl. fold m. lia. }
  rewrite Hpoll. split; intros ->; reflexivity.
Qed.

Lemma wait_polls_until_terminal_witness :
  _wait_for_task_completion (scripted_env (two_then "failed")) test_uploader 2
    "/pulp/api/v3/tasks/1/" empty_world
  = (Raise (TaskFailedError
              "task /pulp/api/v3/tasks/1/ has failed, details: task-failed"),
     {| dirs := ∅;
        trace := [TasksRead "/pulp/api/v3/tasks/1/" None;
                  Sleep 20; TasksRead "/pulp/api/v3/tasks/1/" (Some 120);
                  Sleep 20; TasksRead "/pulp/api/v3/tasks/1/" (Some 120)] |}).
Proof.
  refine (proj2 (wait_polls_until_terminal (scripted_env (two_then "failed"))
                   test_uploader (two_then "failed") "/pulp/api/v3/tasks/1/"
                   2 2 empty_world _ _ _ _) _).
  - done.
  - intros [|[|i]] Hi; [reflexivity | reflexivity | lia].
  - reflexivity.
  - lia.
  - reflexivity.
Defined.

(** The loop uses up any fuel while the task is in no final state. *)
Lemma poll_running env self task :
  (forall w', exists t, tasks_read env w' task = Ret t /\ terminal t = false) ->
  forall fuel result (w : World),
    terminal result = false ->
    fst (poll env self fuel task result w) = Diverge
    /\ sleeps (trace (snd (poll env self fuel task result w)))
       = sleeps (trace w)
         ++ replicate fuel (Sleep 20).
Proof.
  intros Hread. induction fuel as [|fuel IH]; intros result w Hres;
    unfold terminal in Hres; simpl; rewrite Hres; simpl.
  - by rewrite app_nil_r.
  - unfold bind, sleep, modify, call.
    destruct (Hread (add_event (Sleep 20) w)) as (t & -> & Ht). simpl.
    destruct (IH t (add_event (TasksRead task (Some (_requests_timeout self)))
                      (add_event (Sleep 20) w)) Ht) as [-> ->].
    split; [done|]. unfold sleeps. simpl. rewrite !List.filter_app. simpl.
    rewrite app_nil_r, <- app_assoc. done.
Qed.

(** X23. The wait has no bound of its own: while every read finds the
    task in a state other than ['failed'] and ['completed'],
    [_wait_for_task_completion] neither returns nor raises, however many
    rounds it is given, and it sleeps 20 seconds in each of them. *)
Theorem wait_unbounded_while_running env self task (fuel : nat) (w : World) :
  (forall w', exists t, tasks_read env w' task = Ret t /\ terminal t = false) ->
  let r := _wait_for_task_completion env self fuel task w in
  fst r = Diverge
  /\ sleeps (trace (snd r))
     = sleeps (trace w)
       ++ replicate fuel (Sleep 20).
Proof.
  intros Hread r.
  assert (H : exists w',
             _wait_for_task_completion env self fuel task w = (Diverge, w')
             /\ sleeps (trace w') = sleeps (trace w) ++ replicate fuel (Sleep 20)).
  { unfold _wait_for_task_completion, bind, call.
    destruct (Hread w) as (t & -> & Ht).
    destruct (poll_running env self task Hread fuel t
                (add_event (TasksRead task None) w) Ht) as [Hd Hs].
    destruct (poll env self fuel task t _) as [[r0| |] w'];
      simpl in Hd; try discriminate.
    exists w'. split; [done|]. cbn [snd] in Hs. rewrite Hs.
    unfold sleeps. simpl. rewrite List.filter_app. simpl.
    by rewrite app_nil_r. }
  destruct H as (w' & Hw & Hs). subst r. by rewrite Hw.
Qed.

Lemma wait_unbounded_while_running_witness :
  let r := _wait_for_task_completion
             (scripted_env (fun _ => {| state := "running";
                                        created_resources := [];
                                        task_repr := "task" |}))
             test_uploader 3 "/pulp/api/v3/tasks/1/" empty_world in
  fst r = Diverge
  /\ sleeps (trace (snd r))
     = [Sleep 20; Sleep 20; Sleep 20].
Proof.
  apply (wait_unbounded_while_running
           (scripted_env (fun _ => {| state := "running";
                                      created_resources := [];
                                      task_repr := "task" |}))
           test_uploader "/pulp/api/v3/tasks/1/" 3 empty_world).
  intros w'. by eexists.
Defined.

(** Neither the loop nor the wait sends data or touches a directory. *)
Lemma poll_quiet env self fuel task result (w : World) :
  exists rest,
    snd (poll env self fuel task result w)
    = {| dirs := dirs w; trace := trace w ++ rest |}
    /\ updates rest = [].
Proof.
  revert result w. induction fuel as [|fuel IH]; intros result w; simpl;
    destruct (negb (py_in (state result) ["failed"; "completed"]));
    try (exists []; rewrite app_nil_r; by destruct w).
  unfold bind, sleep, modify, call.
  destruct (tasks_read env _ task) as [result'| |]; simpl.
  - destruct (IH result' (add_event (TasksRead task (Some (_requests_timeout self)))
                           (add_event (Sleep 20) w))) as (rest & -> & Hrest).
    simpl. rewrite <- !app_assoc. eexists. split; [reflexivity|].
    simpl. exact Hrest.
  - unfold add_event. simpl. rewrite <- !app_assoc. by eexists.
  - unfold add_event. simpl. rewrite <- !app_assoc. by eexists.
Qed.

Lemma wait_quiet env self fuel task (w : World) :
  exists rest,
    snd (_wait_for_task_completion env self fuel task w)
    = {| dirs := dirs w; trace := trace w ++ rest |}
    /\ updates rest = [].
Proof.
  unfold _wait_for_task_completion, bind, call.
  destruct (tasks_read env w task) as [result| |]; simpl;
    try by eexists.
  destruct (poll_quiet env self fuel task result
              (add_event (TasksRead task None) w)) as (rest & Hrest & Hq).
  destruct (poll env self fuel task result _) as [[r| |] w']; simpl in *;
    subst w'; [destruct (String.eqb (state r) "failed"); simpl|..];
    rewrite <- ?app_assoc; by eexists.
Qed.

Lemma commit_upload_quiet env self fuel file reference (w : World) :
  exists rest,
    snd (_commit_upload env self fuel file reference w)
    = {| dirs := dirs w; trace := trace w ++ rest |}
    /\ updates rest = [].
Proof.
  unfold _commit_upload, bind, lift, call.
  destruct (hash_file env file "sha256") as [sha| |]; simpl;
    try (exists []; rewrite app_nil_r; by destruct w).
  destruct (uploads_commit env w reference sha) as [task| |]; simpl;
    try by eexists.
  destruct (wait_quiet env self fuel task
              (add_event (UploadsCommit reference sha (_requests_timeout self)) w))
    as (rest & Hrest & Hq).
  destruct (_wait_for_task_completion env self fuel task _) as [[r| |] w'];
    simpl in *; subst w'; [destruct (created_resources r); simpl|..];
    rewrite <- ?app_assoc; by eexists.
Qed.

(** *** Committing an upload *)

(** X24. A task that completes without naming a created resource makes
    [_commit_upload] raise [IndexError]: the commit was requested and the
    task read once, and no reference is returned. *)
Theorem commit_upload_without_resources env self fuel file reference
    (w : World) sha task t :
  let timeout := _requests_timeout self in
  let w1 := add_event (UploadsCommit reference sha timeout) w in
  hash_file env file "sha256" = Ret sha ->
  uploads_commit env w reference sha = Ret task ->
  tasks_read env w1 task = Ret t ->
  state t = "completed" ->
  created_resources t = [] ->
  _commit_upload env self fuel file reference w
  = (Raise (IndexError "list index out of range"),
     add_event (TasksRead task None) w1).
Proof.
  intros timeout w1 Hsha Hcommit Hread Hstate Hres.
  assert (Hin : py_in "completed" ["failed"; "completed"] = true)
    by (vm_compute; reflexivity).
  unfold _commit_upload, bind, lift, call. rewrite Hsha. fold timeout.
  rewrite Hcommit. fold w1.
  unfold _wait_for_task_completion, bind, call. rewrite Hread.
  destruct fuel; simpl; rewrite Hstate, Hin; simpl; rewrite Hstate; simpl;
    unfold ret, raise; by rewrite Hres.
Qed.

Lemma commit_upload_without_resources_witness :
  _commit_upload
    (scripted_env (fun _ => {| state := "completed";
                               created_resources := [];
                               task_repr := "task" |}))
    test_uploader 5 "/srv/small.log" "/pulp/api/v3/uploads/1/" empty_world
  = (Raise (IndexError "list index out of range"),
     {| dirs := ∅;
        trace := [UploadsCommit "/pulp/api/v3/uploads/1/"
                    "sha256-of-/srv/small.log" 120;
                  TasksRead "/pulp/api/v3/tasks/1/" None] |}).
Proof.
  apply (commit_upload_without_resources
           (scripted_env (fun _ => {| state := "completed";
                                      created_resources := [];
                                      task_repr := "task" |}))
           test_uploader 5 "/srv/small.log" "/pulp/api/v3/uploads/1/" empty_world
           "sha256-of-/srv/small.log" "/pulp/api/v3/tasks/1/"
           {| state := "completed"; created_resources := []; task_repr := "task" |});
    reflexivity.
Defined.

(** *** Transfer in parts, whatever the repository answers *)

(** The requests sent are the first of those planned. *)
Lemma put_chunks_prefix env self temp_dir reference total rows sizes :
  Forall2 (fun row s => int_of_str (filesize row) = Ret s) rows sizes ->
  forall lower (w : World) r w',
    put_chunks env self temp_dir reference total rows lower w = (r, w') ->
    dirs w' = dirs w
    /\ exists n rest,
        (n <= length rows)%nat
        /\ trace w' = trace w ++ rest
        /\ updates rest
           = take n (zip_with (fun row (range : Z * Z) =>
                                 UploadsUpdate
                                   (content_range range.1 range.2 total)
                                   reference
                                   (os_path_join temp_dir (filename row))
                                   (_requests_timeout self))
                       rows (ranges_from lower sizes))
        /\ (r = Ret tt -> n = length rows)
        /\ (r <> Ret tt -> (0 < n)%nat).
Proof.
  induction 1 as [|row s rows sizes Hrow _ IH]; intros lower w r w'; simpl.
  - intros [= <- <-]. split; [done|]. exists 0%nat, [].
    rewrite app_nil_r. by split_and!.
  - unfold bind at 1. unfold lift. rewrite Hrow.
    unfold bind at 1. unfold call at 1.
    destruct (uploads_update env w _ reference _) as [[]| |].
    + intros Hrest. apply IH in Hrest as (Hd & n & rest & Hn & Ht & Hu & Hr & Hf).
      split; [done|]. exists (S n), (UploadsUpdate
                  (content_range lower (lower + s - 1) total) reference
                  (os_path_join temp_dir (filename row))
                  (_requests_timeout self) :: rest).
      split_and!.
      * lia.
      * rewrite Ht. simpl. by rewrite <- app_assoc.
      * unfold updates in *. simpl. by rewrite Hu.
      * intros Hret. by rewrite (Hr Hret).
      * lia.
    + intros [= <- <-]. split; [done|]. exists 1%nat. eexists.
      split_and!; [lia | reflexivity | reflexivity | done | lia].
    + intros [= <- <-]. split; [done|]. exists 1%nat. eexists.
      split_and!; [lia | reflexivity | reflexivity | done | lia].
Qed.


(** The loop over the manifest touches no directory and only adds
    events. *)
Lemma put_chunks_world env self temp_dir reference total rows lower (w : World) :
  exists rest,
    snd (put_chunks env self temp_dir reference total rows lower w)
    = {| dirs := dirs w; trace := trace w ++ rest |}.
Proof.
  revert lower w. induction rows as [|row rows IH]; intros lower w; simpl.
  - exists []. rewrite app_nil_r. by destruct w.
  - unfold bind, lift, call.
    destruct (int_of_str (filesize row)) as [s| |]; simpl;
      try (exists []; rewrite app_nil_r; by destruct w).
    destruct (uploads_update env w _ reference _) as [[]| |]; simpl;
      try by eexists.
    destruct (IH (lower + s) (add_event
                (UploadsUpdate (content_range lower (lower + s - 1) total)
                   reference (os_path_join temp_dir (filename row))
                   (_requests_timeout self)) w)) as [rest ->].
    simpl. rewrite <- app_assoc. by eexists.
Qed.

(** What [_put_large_file] does under [try]. *)
Lemma put_large_file_body_world env self file reference d (w : World) :
  exists rest,
    snd ((total_size <- lift (getsize env file) ;;
          rows <- call (Split file (_chunk_size self) d)
                    (fun w => split_manifest env w file (_chunk_size self) d) ;;
          put_chunks env self d reference total_size rows 0)%py w)
    = {| dirs := dirs w; trace := trace w ++ rest |}.
Proof.
  unfold bind, lift, call.
  destruct (getsize env file) as [total| |]; simpl;
    try (exists []; rewrite app_nil_r; by destruct w).
  destruct (split_manifest env w file _ d) as [rows| |]; simpl;
    try by eexists.
  destruct (put_chunks_world env self d reference total rows 0
              (add_event (Split file (_chunk_size self) d) w)) as [rest Hrest].
  destruct (put_chunks env self d reference total rows 0 _) as [r w'].
  simpl in *. subst w'. rewrite <- app_assoc. by eexists.
Qed.



(** X26. Whatever the repository answers to them, the byte-range
    requests of [_put_large_file] are an initial part of the planned
    ones, in the order of the manifest: none is skipped, repeated or
    retried.  All of them are sent when the call returns, and at least
    one (the refused one) when it does not. *)
Theorem put_large_file_sends_prefix env self file reference (w : World)
    d total rows sizes :
  let w1 := {| dirs := {[ d ]} ∪ dirs w; trace := trace w ++ [Mkdtemp d] |} in
  let sent row (range : Z * Z) :=
    UploadsUpdate (content_range range.1 range.2 total) reference
      (os_path_join d (filename row)) (_requests_timeout self) in
  let planned := zip_with sent rows (spec_ranges sizes) in
  let r := _put_large_file env self file reference w in
  new_temp_dir env w "pulp_uploader_" = Ret d ->
  getsize env file = Ret total ->
  split_manifest env w1 file (_chunk_size self) d = Ret rows ->
  Forall2 (fun row s => int_of_str (filesize row) = Ret s) rows sizes ->
  exists n,
    (n <= length rows)%nat
    /\ updates (trace (snd r)) = updates (trace w) ++ take n planned
    /\ (fst r = Ret tt -> n = length rows)
    /\ (fst r <> Ret tt -> (0 < n)%nat).
Proof.
  intros w1 sent planned r Hnew Hsize Hsplit Hrows.
  assert (H : exists rb wb extra,
             put_chunks env self d reference total rows 0
               (add_event (Split file (_chunk_size self) d) w1) = (rb, wb)
             /\ updates extra = []
             /\ _put_large_file env self file reference w
                = (rb, {| dirs := dirs wb ∖ (if truthy d && bool_decide (d ∈ dirs wb)
                                            then {[ d ]} else ∅);
                          trace := trace wb ++ extra |})).
  { unfold _put_large_file, bind at 1. unfold mkdtemp. rewrite Hnew. fold w1.
    unfold try_finally, bind at 1. unfold lift. rewrite Hsize.
    unfold bind at 1. unfold call at 1. rewrite Hsplit.
    destruct (put_chunks env self d reference total rows 0 _) as [rb wb].
    exists rb, wb. unfold bind, get. simpl.
    destruct (truthy d && bool_decide (d ∈ dirs wb)); simpl.
    - exists [Rmtree d]. by destruct rb.
    - exists []. rewrite app_nil_r, difference_empty_L.
      destruct wb. by destruct rb. }
  destruct H as (rb & wb & extra & E & Hx & H). subst r. rewrite H.
  apply (put_chunks_prefix _ _ _ _ _ _ _ Hrows) in E
    as (Hd & n & rest & Hn & Ht & Hu & Hr & Hf).
  rewrite ranges_from_0 in Hu.
  exists n. simpl. split_and!; try done.
  rewrite Ht. simpl. rewrite !updates_app, Hx, Hu. simpl.
  by rewrite !app_nil_r.
Qed.

Lemma put_large_file_sends_prefix_witness :
  let r := _put_large_file refusing_env test_uploader "/srv/big.bin"
             "/pulp/api/v3/uploads/1/" empty_world in
  let planned :=
    [UploadsUpdate "bytes 0-9/25" "/pulp/api/v3/uploads/1/"
       "/tmp/pulp_uploader_0/big_1.bin" 120;
     UploadsUpdate "bytes 10-19/25" "/pulp/api/v3/uploads/1/"
       "/tmp/pulp_uploader_0/big_2.bin" 120;
     UploadsUpdate "bytes 20-24/25" "/pulp/api/v3/uploads/1/"
       "/tmp/pulp_uploader_0/big_3.bin" 120] in
  updates (trace (snd r)) = take 2 planned
  /\ exists n,
      (n <= 3)%nat
      /\ updates (trace (snd r)) = take n planned
      /\ (fst r = Ret tt -> n = 3%nat)
      /\ (fst r <> Ret tt -> (0 < n)%nat).
Proof.
  split; [vm_compute; reflexivity|].
  apply (put_large_file_sends_prefix refusing_env test_uploader "/srv/big.bin"
           "/pulp/api/v3/uploads/1/" empty_world "/tmp/pulp_uploader_0" 25
           [ {| filename := "big_1.bin"; filesize := "10" |};
             {| filename := "big_2.bin"; filesize := "10" |};
             {| filename := "big_3.bin"; filesize := "5" |} ]
           [10; 10; 5]); try reflexivity.
  repeat constructor.
Defined.

(** *** Sending a file *)

(** X27. A file no larger than the chunk size (a file of exactly that
    size included) is sent whole, in one request whose range is
    [0..size-1] of [size], right after the upload is created: no other
    byte-range request is made, whatever the commit leads to, and no
    temporary directory is made. *)
Theorem send_file_single_request env self fuel file (w : World) size reference :
  let timeout := _requests_timeout self in
  let whole := UploadsUpdate (content_range 0 (size - 1) size) reference file
                 timeout in
  let r := _send_file env self fuel file w in
  getsize env file = Ret size ->
  size <= _chunk_size self ->
  uploads_create env w size = Ret reference ->
  updates (trace (snd r)) = updates (trace w) ++ [whole]
  /\ dirs (snd r) = dirs w
  /\ exists rest,
      trace (snd r) = trace w ++ [UploadsCreate size timeout; whole] ++ rest.
Proof.
  intros timeout whole r Hsize Hle Hcreate.
  assert (H : exists rest,
             snd (_send_file env self fuel file w)
             = {| dirs := dirs w;
                  trace := trace w ++ [UploadsCreate size timeout; whole] ++ rest |}
             /\ updates rest = []).
  { unfold _send_file, _create_upload, bind at 1. unfold bind at 1.
    unfold lift. rewrite Hsize. unfold bind at 1. unfold call at 1.
    fold timeout. rewrite Hcreate. unfold ret at 1.
    cbn [fst snd].
    replace (size >? _chunk_size self) with false
      by (symmetry; rewrite Z.gtb_ltb; apply Z.ltb_ge; lia).
    unfold bind at 1. unfold call at 1. fold whole.
    destruct (uploads_update env _ _ reference file) as [[]| |];
      try (exists []; unfold add_event; simpl; by rewrite <- app_assoc).
    unfold bind at 1.
    destruct (commit_upload_quiet env self fuel file reference
                (add_event whole (add_event (UploadsCreate size timeout) w)))
      as (rest & Hrest & Hq).
    destruct (_commit_upload env self fuel file reference _) as [[href| |] w'];
      simpl in Hrest; subst w'; simpl; exists rest;
      by rewrite <- !app_assoc. }
  destruct H as (rest & H & Hq). subst r. rewrite H. cbn [snd trace dirs].
  split_and!; [|done|by exists rest].
  rewrite !updates_app, Hq, app_nil_r. reflexivity.
Qed.

Lemma send_file_single_request_witness :
  updates (trace (snd (_send_file test_env (__init__ 5) 5 "/srv/small.log"
                         empty_world)))
  = [UploadsUpdate "bytes 0-4/5" "/pulp/api/v3/uploads/1/" "/srv/small.log" 120].
Proof.
  apply (send_file_single_request test_env (__init__ 5) 5 "/srv/small.log"
           empty_world 5 "/pulp/api/v3/uploads/1/"); [reflexivity|..|reflexivity].
  simpl. lia.
Defined.

(** X28. When the repository refuses the single request of a small file,
    [_send_file] raises what the request raised and stops there: the
    upload it created is neither committed nor touched again. *)
Theorem send_file_refused_not_committed env self fuel file (w : World)
    size reference e :
  let timeout := _requests_timeout self in
  let range := content_range 0 (size - 1) size in
  let w1 := add_event (UploadsCreate size timeout) w in
  getsize env file = Ret size ->
  size <= _chunk_size self ->
  uploads_create env w size = Ret reference ->
  uploads_update env w1 range reference file = Raise e ->
  _send_file env self fuel file w
  = (Raise e, add_event (UploadsUpdate range reference file timeout) w1).
Proof.
  intros timeout range w1 Hsize Hle Hcreate Hupdate.
  unfold _send_file, _create_upload, bind at 1. unfold bind at 1.
  unfold lift. rewrite Hsize. unfold bind at 1. unfold call at 1.
  fold timeout. rewrite Hcreate. unfold ret at 1. cbn [fst snd].
  replace (size >? _chunk_size self) with false
    by (symmetry; rewrite Z.gtb_ltb; apply Z.ltb_ge; lia).
  unfold bind at 1. unfold call at 1. fold range w1. by rewrite Hupdate.
Qed.

Lemma send_file_refused_not_committed_witness :
  _send_file rejecting_env (__init__ 100) 5 "/srv/big.bin"
    {| dirs := ∅; trace := [] |}
  = (Raise (ExternalError "ApiException" "Bad Gateway"),
     {| dirs := ∅;
        trace := [UploadsCreate 25 120;
                  UploadsUpdate "bytes 0-24/25" "/pulp/api/v3/uploads/1/"
                    "/srv/big.bin" 120] |}).
Proof.
  apply (send_file_refused_not_committed rejecting_env (__init__ 100) 5
           "/srv/big.bin" {| dirs := ∅; trace := [] |} 25
           "/pulp/api/v3/uploads/1/"
           (ExternalError "ApiException" "Bad Gateway")); try reflexivity.
  simpl. lia.
Defined.

(** The transfer in parts only adds events. *)
Lemma put_large_file_extends env self file reference (w : World) :
  exists rest,
    trace (snd (_put_large_file env self file reference w)) = trace w ++ rest.
Proof.
  unfold _put_large_file. unfold bind at 1. unfold mkdtemp.
  destruct (new_temp_dir env w "pulp_uploader_") as [d| |];
    try (exists []; by rewrite app_nil_r).
  unfold try_finally.
  set (w1 := {| dirs := {[ d ]} ∪ dirs w; trace := trace w ++ [Mkdtemp d] |}).
  pose proof (put_large_file_body_world env self file reference d w1)
    as [rest Hrest].
  revert Hrest.
  destruct (bind (lift (getsize env file)) _ w1) as [rb wb].
  simpl. intros ->. unfold bind, get. simpl.
  destruct (truthy d && bool_decide (d ∈ {[d]} ∪ dirs w)); simpl;
    destruct rb; simpl; rewrite <- ?app_assoc; by eexists.
Qed.

(** Sending a file starts with the creation of an upload of its size. *)
Lemma send_file_starts env self fuel file (w : World) size :
  getsize env file = Ret size ->
  exists rest,
    trace (snd (_send_file env self fuel file w))
    = trace w ++ UploadsCreate size (_requests_timeout self) :: rest.
Proof.
  intros Hsize.
  unfold _send_file, _create_upload, bind at 1. unfold bind at 1.
  unfold lift. rewrite Hsize. unfold bind at 1. unfold call at 1.
  set (w1 := add_event (UploadsCreate size (_requests_timeout self)) w).
  assert (Hw1 : forall rest, trace w1 ++ rest
                  = trace w ++ UploadsCreate size (_requests_timeout self) :: rest).
  { intros rest. unfold w1. simpl. by rewrite <- app_assoc. }
  destruct (uploads_create env w size) as [reference| |];
    [| exists []; by rewrite <- Hw1, app_nil_r..].
  unfold ret at 1. cbn [fst snd].
  assert (Hsent : exists w2 r2 rest2,
             trace w2 = trace w1 ++ rest2
             /\ (if size >? _chunk_size self
                 then (log "debug" ("File size exceeded "
                                    +:+ str_of_int (_chunk_size self)
                                    +:+ ", sending file in parts") ;;;
                       _put_large_file env self file reference)%py
                 else call (UploadsUpdate (content_range 0 (size - 1) size)
                              reference file (_requests_timeout self))
                        (fun w => uploads_update env w
                                    (content_range 0 (size - 1) size)
                                    reference file)) w1 = (r2, w2)).
  { destruct (size >? _chunk_size self).
    - unfold bind, log, modify.
      destruct (put_large_file_extends env self file reference
                  (add_event (Log "debug" ("File size exceeded "
                                    +:+ str_of_int (_chunk_size self)
                                    +:+ ", sending file in parts")) w1))
        as [rest Hrest].
      destruct (_put_large_file env self file reference _) as [r2 w2].
      exists w2, r2. eexists. split; [|reflexivity].
      simpl in Hrest. rewrite Hrest, <- app_assoc. reflexivity.
    - unfold call. eexists _, _, _. split; [|reflexivity]. reflexivity. }
  destruct Hsent as (w2 & r2 & rest2 & Hw2 & Hsent).
  unfold bind at 1. rewrite Hsent.
  destruct r2 as [[]| |]; [| exists rest2; cbn [snd]; by rewrite Hw2, Hw1..].
  unfold bind at 1.
  destruct (commit_upload_quiet env self fuel file reference w2)
    as (rest3 & Hrest3 & _).
  destruct (_commit_upload env self fuel file reference w2) as [[href| |] w3];
    simpl in Hrest3; subst w3; simpl; exists (rest2 ++ rest3);
    by rewrite Hw2, <- app_assoc, Hw1.
Qed.

(** X29. An artifact that the repository lists with an empty reference
    counts as missing: [upload_single_file] does not return that
    reference but goes on to send the file, by creating an upload of the
    size of the file right after the listing. *)
Theorem upload_single_file_empty_reference env self fuel filename type_
    (w : World) sha others size :
  let timeout := _requests_timeout self in
  hash_file env filename "sha256" = Ret sha ->
  artifacts_list env w sha = Ret ({| pulp_href := "" |} :: others) ->
  getsize env filename = Ret size ->
  exists rest,
    trace (snd (upload_single_file env self fuel filename type_ w))
    = trace w ++ [ArtifactsList sha timeout; UploadsCreate size timeout] ++ rest.
Proof.
  intros timeout Hsha Hlist Hsize.
  unfold upload_single_file, bind at 1. unfold lift. rewrite Hsha.
  unfold bind at 1.
  rewrite (check_if_artifact_exists_found env self sha w {| pulp_href := "" |}
             others Hlist).
  cbn [pulp_href truthy negb]. fold timeout.
  destruct (send_file_starts env self fuel filename
              (add_event (ArtifactsList sha timeout) w) size Hsize)
    as [rest Hrest].
  exists rest. unfold bind.
  destruct (_send_file env self fuel filename _) as [[href| |] w2];
    simpl in *; rewrite Hrest, <- app_assoc; reflexivity.
Qed.

Lemma upload_single_file_empty_reference_witness :
  exists rest,
    trace (snd (upload_single_file empty_href_env test_uploader 5
                  "/srv/small.log" None empty_world))
    = [ArtifactsList "sha256-of-/srv/small.log" 120; UploadsCreate 5 120]
      ++ rest.
Proof.
  apply (upload_single_file_empty_reference empty_href_env test_uploader 5
           "/srv/small.log" None empty_world "sha256-of-/srv/small.log" []);
    reflexivity.
Defined.

(** *** Collecting the results *)

(** The loop over the completed futures, in full. *)
Lemma collect_exact (artifacts : list string) results (order : list nat)
    success_uploads errored_uploads (w : World) :
  collect artifacts results order success_uploads errored_uploads w
  = (Ret (success_uploads ++ omap (record_of results artifacts) order,
          errored_uploads ++ omap (failure_of results artifacts) order),
     {| dirs := dirs w;
        trace := trace w
          ++ map failure_log (omap (failure_of results artifacts) order) |}).
Proof.
  revert success_uploads errored_uploads w.
  induction order as [|i order IH]; intros succ err w; simpl.
  - rewrite !app_nil_r. by destruct w.
  - unfold record_of, failure_of.
    destruct (artifacts !! i) as [a|] eqn:Ea; [|apply IH].
    destruct (results i a) as [r|e] eqn:Er.
    + rewrite IH. by rewrite <- app_assoc.
    + unfold bind, log, modify. rewrite IH. simpl.
      by rewrite <- !app_assoc.
Qed.

(** X30. [upload] reports in the order of completion, not of submission:
    the records it returns, the files named in its [UploadError] and the
    lines it logs (one per failed file, and nothing else) all follow the
    order in which the futures complete.  It raises as soon as one file
    failed, the records of the others being dropped. *)
Theorem upload_reports_in_completion_order env artifacts_dir (w : World)
    artifacts :
  let w1 := {| dirs := dirs w;
               trace := trace w ++ Log "info" "Starting files upload"
                                    :: map (Submit 4) artifacts |} in
  let results := future_result env w1 in
  let order := completion_order env w1 (length artifacts) in
  let errored := omap (failure_of results artifacts) order in
  let w2 := {| dirs := dirs w;
               trace := trace w1 ++ map failure_log errored |} in
  get_artifacts_list env artifacts_dir = Ret artifacts ->
  (errored = [] ->
   upload env artifacts_dir w
   = (Ret (omap (record_of results artifacts) order), w2))
  /\ (errored <> [] ->
      upload env artifacts_dir w
      = (Raise (UploadError ("Unable to upload files: "
                             +:+ repr_str_list errored)), w2)).
Proof.
  intros w1 results order errored w2 Hlist.
  assert (H : upload env artifacts_dir w
              = (if bool_decide (errored = [])
                 then Ret (omap (record_of results artifacts) order)
                 else Raise (UploadError ("Unable to upload files: "
                                          +:+ repr_str_list errored)), w2)).
  { unfold upload, bind at 1. unfold log, modify.
    unfold bind at 1. unfold lift. rewrite Hlist.
    unfold bind at 1. rewrite submit_all_world.
    unfold bind at 1. unfold get.
    unfold bind at 1.
    replace {| dirs := dirs (add_event (Log "info" "Starting files upload") w);
               trace := trace (add_event (Log "info" "Starting files upload") w)
                        ++ map (Submit 4) artifacts |} with w1
      by (unfold w1; simpl; by rewrite <- app_assoc).
    rewrite collect_exact. fold results order errored. cbn [fst snd].
    change (dirs w1) with (dirs w). fold w2.
    rewrite !app_nil_l.
    by destruct (bool_decide (errored = [])). }
  rewrite H. split; intros He.
  - by rewrite bool_decide_eq_true_2.
  - by rewrite bool_decide_eq_false_2.
Qed.

Lemma upload_reports_in_completion_order_witness :
  upload test_env "/srv/logs" empty_world
  = (Raise (UploadError "Unable to upload files: ['/srv/logs/b.log']"),
     {| dirs := ∅;
        trace := [Log "info" "Starting files upload";
                  Submit 4 "/srv/logs/a.log";
                  Submit 4 "/srv/logs/b.log";
                  Submit 4 "/srv/logs/c.log";
                  Log "exception" "Cannot upload /srv/logs/b.log"] |})
  /\ upload test_env_all_done "/srv/logs" empty_world
     = (Ret [test_record "/srv/logs/c.log"; test_record "/srv/logs/b.log";
             test_record "/srv/logs/a.log"],
        {| dirs := ∅;
           trace := [Log "info" "Starting files upload";
                     Submit 4 "/srv/logs/a.log";
                     Submit 4 "/srv/logs/b.log";
                     Submit 4 "/srv/logs/c.log"] |}).
Proof.
  split.
  - apply (proj2 (upload_reports_in_completion_order test_env "/srv/logs"
                    empty_world
                    ["/srv/logs/a.log"; "/srv/logs/b.log"; "/srv/logs/c.log"]
                    eq_refl)).
    vm_compute. discriminate.
  - apply (proj1 (upload_reports_in_completion_order test_env_all_done
                    "/srv/logs" empty_world
                    ["/srv/logs/a.log"; "/srv/logs/b.log"; "/srv/logs/c.log"]
                    eq_refl)).
    vm_compute. reflexivity.
Defined.

End PulpMoreFacts.
